(** * The CadxStudio chat palette (Fusion 360 add-in), embedded in Rocq

    The palette script is a handful of JavaScript functions over the page's
    DOM, the host bridge [adsk.fusionSendData] and the built-ins [JSON],
    [String.prototype.trim], [String.prototype.replace], [Date] and
    [Math.random].  The embedding keeps the functions of the script as they
    are written, over

    - JavaScript strings as lists of UTF-16 code units;
    - the values [JSON.parse] can produce, with the property access,
      string conversion and [JSON.stringify] rules of the language on them;
    - a page state holding the three elements the script looks up by id
      ([chatInput], [sendBtn], [messagesContainer]), the module variable
      [messageHistory], the console, the pending timers and the bridge
      calls made;
    - a state-and-exception monad in which a [throw] keeps the effects
      made before it, as in the language.

    What the platform alone decides (IEEE-754 number conversion, the clock,
    the random source, the nesting at which [JSON.stringify] exhausts the
    stack) is a parameter of the development. *)

From Stdlib Require Import List NArith Arith Lia Bool String Ascii DecimalN.
Import ListNotations.

Set Implicit Arguments.

(** ** JavaScript strings *)

Module Str.

(** A string value is a finite sequence of 16-bit code units. *)
Definition code_unit := N.
Definition str := list code_unit.

(** ASCII literals of the script, as code units. *)
Definition u (s : string) : str := map N_of_ascii (list_ascii_of_string s).

Definition dq : code_unit := 34%N.        (* the quotation mark *)
Definition backslash : code_unit := 92%N.

(** A literal between quotation marks, for JSON texts and HTML attributes. *)
Definition quoted (s : string) : str := dq :: u s ++ [dq].

Fixpoint str_eqb (a b : str) : bool :=
  match a, b with
  | [], [] => true
  | x :: a', y :: b' => N.eqb x y && str_eqb a' b'
  | _, _ => false
  end.

(** [s.startsWith(p)], with the remainder. *)
Fixpoint strip_prefix (p s : str) : option str :=
  match p, s with
  | [], _ => Some s
  | x :: p', y :: s' => if N.eqb x y then strip_prefix p' s' else None
  | _ :: _, [] => None
  end.

(** [s.includes(p)] *)
Fixpoint includes (s p : str) : bool :=
  match strip_prefix p s with
  | Some _ => true
  | None => match s with
            | [] => false
            | _ :: s' => includes s' p
            end
  end.

(** [s.replace(p, r)] for a string pattern [p] and a replacement [r] without
    [$] patterns: the first occurrence of [p] is replaced. *)
Fixpoint replace (p r s : str) : str :=
  match strip_prefix p s with
  | Some rest => r ++ rest
  | None => match s with
            | [] => []
            | c :: s' => c :: replace p r s'
            end
  end.

(** WhiteSpace and LineTerminator code points of ECMAScript, which
    [String.prototype.trim] strips. *)
Definition is_whitespace (c : code_unit) : bool :=
  (N.eqb c 9 || N.eqb c 10 || N.eqb c 11 || N.eqb c 12 || N.eqb c 13
   || N.eqb c 32 || N.eqb c 160 || N.eqb c 5760
   || (N.leb 8192 c && N.leb c 8202)
   || N.eqb c 8232 || N.eqb c 8233 || N.eqb c 8239 || N.eqb c 8287
   || N.eqb c 12288 || N.eqb c 65279)%bool.

Fixpoint trim_start (s : str) : str :=
  match s with
  | c :: s' => if is_whitespace c then trim_start s' else s
  | [] => []
  end.

Definition trim_end (s : str) : str := rev (trim_start (rev s)).

Definition trim (s : str) : str := trim_end (trim_start s).

(** What the [value] getter of a [textarea] returns for the raw value [s]:
    every pair CR LF, then every other CR, has become one LF. *)
Fixpoint normalize_newlines (s : str) : str :=
  match s with
  | [] => []
  | c :: r =>
      if N.eqb c 13
      then 10%N :: match r with
                   | c' :: r' => if N.eqb c' 10 then normalize_newlines r'
                                 else normalize_newlines r
                   | [] => []
                   end
      else c :: normalize_newlines r
  end.

(** [s.substr(start, length)] for non-negative arguments. *)
Definition substr (start len : nat) (s : str) : str :=
  firstn len (skipn start s).

(** Decimal digits of a natural number, as [Number::toString] prints an
    integer below 2^53. *)
Fixpoint uint_digits (d : Decimal.uint) : str :=
  match d with
  | Decimal.Nil => []
  | Decimal.D0 r => 48%N :: uint_digits r
  | Decimal.D1 r => 49%N :: uint_digits r
  | Decimal.D2 r => 50%N :: uint_digits r
  | Decimal.D3 r => 51%N :: uint_digits r
  | Decimal.D4 r => 52%N :: uint_digits r
  | Decimal.D5 r => 53%N :: uint_digits r
  | Decimal.D6 r => 54%N :: uint_digits r
  | Decimal.D7 r => 55%N :: uint_digits r
  | Decimal.D8 r => 56%N :: uint_digits r
  | Decimal.D9 r => 57%N :: uint_digits r
  end.

Definition decimal (n : N) : str := uint_digits (N.to_uint n).

(** Class tokens of a [className]: split at ASCII whitespace. *)
Definition is_class_space (c : code_unit) : bool :=
  (N.eqb c 9 || N.eqb c 10 || N.eqb c 12 || N.eqb c 13 || N.eqb c 32)%bool.

Fixpoint class_tokens_aux (cur : str) (s : str) : list str :=
  match s with
  | [] => match cur with [] => [] | _ => [rev cur] end
  | c :: s' =>
      if is_class_space c
      then match cur with
           | [] => class_tokens_aux [] s'
           | _ => rev cur :: class_tokens_aux [] s'
           end
      else class_tokens_aux (c :: cur) s'
  end.

Definition class_tokens (s : str) : list str := class_tokens_aux [] s.

Definition has_class (cls : str) (className : str) : bool :=
  existsb (str_eqb cls) (class_tokens className).

End Str.
Import Str.

(** ** The clock *)

(** What the script reads from a [Date] object: the local calendar fields
    and the epoch time in milliseconds ([Date.now()]). *)
Record Date := mkDate {
  getDate : N;
  getMonth : N;          (* 0 .. 11 *)
  getFullYear : N;
  getHours : N;
  getMinutes : N;
  getSeconds : N;
  getTime : N
}.

(** ** Exceptions *)

Inductive Exn :=
| SyntaxError                 (* thrown by [JSON.parse] *)
| TypeError                   (* property of null, call of a non-function, ... *)
| RangeError                  (* the engine's stack exhausted by a recursion *)
| HostError (reason : str).   (* the reason of a rejected bridge promise *)

(** ** Parse results *)

Inductive PResult (A : Type) :=
| POk (a : A) (rest : str)
| PErr                       (* SyntaxError *)
| PFuel.                     (* recursion budget exhausted *)
Arguments PErr {A}.
Arguments PFuel {A}.

(** ** The page *)

(** What an element holds: a message bubble has an avatar and a text (two
    child [div]s of classes [message-avatar] and [message-content]); a
    banner was filled through [innerHTML] or through [textContent]. *)
Inductive Content :=
| MessageParts (avatar : str) (messageContent : str)
| InnerHTML (html : str)
| TextContent (text : str).

(** A child element of [messagesContainer].  [uid] is the identity of the
    element object; [id] is the id attribute, empty when there is none;
    [opacity] is [style.opacity]. *)
Record Node := mkNode {
  uid : nat;
  className : str;
  id : str;
  body : Content;
  opacity : option str
}.

(** An entry of [messageHistory]. *)
Record HistoryEntry := mkEntry {
  entry_content : str;
  entry_type : str;
  entry_timestamp : Date
}.

Inductive LogArg :=
| LogStr (s : str)
| LogExn (e : Exn).

Inductive LogLevel := Log | Error.

(** A callback handed to [setTimeout]: the two closures of
    [handleAIResponse]. *)
Inductive Callback :=
| FadeBanner                    (* the outer closure *)
| RemoveElement (target : nat). (* [() => statusMsg.remove()] *)

(** A call of [adsk.fusionSendData]; its promise carries the reactions
    attached in [sendChatMessage]. *)
Record BridgeCall := mkCall {
  channel : str;
  payload : str
}.

Record State := mkState {
  chatInput_value : str;                 (* [chatInput.value] *)
  sendBtn_disabled : bool;               (* [sendBtn.disabled] *)
  messagesContainer : list Node;         (* children, in document order *)
  messageHistory : list HistoryEntry;
  next_uid : nat;                        (* elements created so far *)
  readings : nat;                        (* environment readings so far *)
  console : list (LogLevel * list LogArg);
  timers : list (N * Callback);          (* delay in ms, callback *)
  bridge : list BridgeCall               (* calls made, oldest first *)
}.

(** *** Computations: state and exceptions *)

Inductive Outcome (A : Type) :=
| Return (a : A) (st : State)
| Throw (e : Exn) (st : State).
Arguments Return {A} a st.
Arguments Throw {A} e st.

Definition M (A : Type) := State -> Outcome A.

Definition ret {A} (a : A) : M A := fun st => Return a st.

Definition bind {A B} (c : M A) (k : A -> M B) : M B :=
  fun st => match c st with
            | Return a st' => k a st'
            | Throw e st' => Throw e st'
            end.

Definition throw {A} (e : Exn) : M A := fun st => Throw e st.

(** [try { body } catch (e) { handler }] *)
Definition try_catch {A} (body : M A) (handler : Exn -> M A) : M A :=
  fun st => match body st with
            | Return a st' => Return a st'
            | Throw e st' => handler e st'
            end.

Definition modify (f : State -> State) : M unit := fun st => Return tt (f st).

Definition gets {A} (f : State -> A) : M A := fun st => Return (f st) st.

Definition lift_sum {A} (r : Exn + A) : M A :=
  match r with
  | inl e => throw e
  | inr a => ret a
  end.

Definition lift_option {A} (e : Exn) (r : option A) : M A :=
  match r with
  | None => throw e
  | Some a => ret a
  end.

Notation "x <- c ;; k" := (bind c (fun x => k))
  (at level 61, c at next level, right associativity).
Notation "c ;; k" := (bind c (fun _ => k))
  (at level 61, right associativity).

Definition state_of {A} (o : Outcome A) : State :=
  match o with
  | Return _ st => st
  | Throw _ st => st
  end.

(** *** Elements, timers, the bridge *)

(** [document.createElement('div')]: a fresh element identity. *)
Definition createElement : M nat :=
  fun st => Return (next_uid st)
              (mkState (chatInput_value st) (sendBtn_disabled st) (messagesContainer st)
                 (messageHistory st) (Datatypes.S (next_uid st)) (readings st) (console st)
                 (timers st) (bridge st)).

Definition set_children (f : list Node -> list Node) : M unit :=
  modify (fun st =>
    mkState (chatInput_value st) (sendBtn_disabled st) (f (messagesContainer st))
      (messageHistory st) (next_uid st) (readings st) (console st) (timers st) (bridge st)).

(** [messagesContainer.appendChild(n)] *)
Definition appendChild (n : Node) : M unit :=
  set_children (fun l => l ++ [n]).

(** [e.remove()] for the element of identity [target]; nothing happens
    when it is not in the document. *)
Definition remove_element (target : nat) : M unit :=
  set_children (filter (fun n => negb (Nat.eqb (uid n) target))).

(** [document.getElementById(i)]: the first element with that id. *)
Definition getElementById (i : str) : M (option Node) :=
  gets (fun st => find (fun n => str_eqb (id n) i) (messagesContainer st)).

(** [document.querySelector('.' + cls)]: the first element of that class. *)
Definition querySelector_class (cls : str) : M (option Node) :=
  gets (fun st => find (fun n => has_class cls (className n)) (messagesContainer st)).

(** [e.style.opacity = v] *)
Definition set_opacity (target : nat) (v : str) : M unit :=
  set_children (map (fun n => if Nat.eqb (uid n) target
                              then mkNode (uid n) (className n) (id n) (body n) (Some v)
                              else n)).

Definition set_chatInput_value (v : str) : M unit :=
  modify (fun st =>
    mkState v (sendBtn_disabled st) (messagesContainer st)
      (messageHistory st) (next_uid st) (readings st) (console st) (timers st) (bridge st)).

Definition set_sendBtn_disabled (b : bool) : M unit :=
  modify (fun st =>
    mkState (chatInput_value st) b (messagesContainer st)
      (messageHistory st) (next_uid st) (readings st) (console st) (timers st) (bridge st)).

Definition history_push (e : HistoryEntry) : M unit :=
  modify (fun st =>
    mkState (chatInput_value st) (sendBtn_disabled st) (messagesContainer st)
      (messageHistory st ++ [e]) (next_uid st) (readings st) (console st) (timers st) (bridge st)).

Definition console_write (level : LogLevel) (args : list LogArg) : M unit :=
  modify (fun st =>
    mkState (chatInput_value st) (sendBtn_disabled st) (messagesContainer st)
      (messageHistory st) (next_uid st) (readings st) (console st ++ [(level, args)])
      (timers st) (bridge st)).

Definition setTimeout (cb : Callback) (delay : N) : M unit :=
  modify (fun st =>
    mkState (chatInput_value st) (sendBtn_disabled st) (messagesContainer st)
      (messageHistory st) (next_uid st) (readings st) (console st)
      (timers st ++ [(delay, cb)]) (bridge st)).

(** [adsk.fusionSendData(channel, payload)]: the call is handed to the
    host, which settles its promise later. *)
Definition fusionSendData (ch : str) (data : str) : M unit :=
  modify (fun st =>
    mkState (chatInput_value st) (sendBtn_disabled st) (messagesContainer st)
      (messageHistory st) (next_uid st) (readings st) (console st)
      (timers st) (bridge st ++ [mkCall ch data])).

(** *** Settled promises *)

Inductive Promise (A : Type) :=
| Fulfilled (a : A)
| Rejected (e : Exn).
Arguments Rejected {A} e.

(** [p.then(f)] once [p] is settled. *)
Definition promise_then {A B} (f : A -> M B) (p : Promise A) : M (Promise B) :=
  fun st => match p with
            | Fulfilled a => match f a st with
                             | Return b st' => Return (Fulfilled b) st'
                             | Throw e st' => Return (Rejected e) st'
                             end
            | Rejected e => Return (Rejected e) st
            end.

(** [p.catch(g)] once [p] is settled. *)
Definition promise_catch {A} (g : Exn -> M A) (p : Promise A) : M (Promise A) :=
  fun st => match p with
            | Fulfilled a => Return (Fulfilled a) st
            | Rejected e => match g e st with
                            | Return b st' => Return (Fulfilled b) st'
                            | Throw e' st' => Return (Rejected e') st'
                            end
            end.

(** [p.finally(h)] once [p] is settled. *)
Definition promise_finally {A} (h : M unit) (p : Promise A) : M (Promise A) :=
  fun st => match h st with
            | Return _ st' => Return p st'
            | Throw e st' => Return (Rejected e) st'
            end.

(** *** The page as loaded *)

(** The bubble that [index.html] puts in [messagesContainer]. *)
Definition welcome : Node :=
  mkNode 0 (u "message assistant") []
    (MessageParts (u "AI")
       ((10 :: repeat 32 20
        ++ u "Welcome to CadxStudio AI Copilot! I can help you create 3D models using natural language. Try asking me to create gears, holes, basic shapes, or use the quick actions above."
        ++ 10 :: repeat 32 16)%N))
    None.

(** The page once loaded: empty input, enabled button, the welcome bubble,
    [messageHistory = []]. *)
Definition initial : State :=
  mkState [] false [welcome] [] 1 0 [] [] [].

Fixpoint remove_nth {A} (n : nat) (l : list A) : list A :=
  match n, l with
  | _, [] => []
  | O, _ :: r => r
  | Datatypes.S n', x :: r => x :: remove_nth n' r
  end.

Definition take_call (i : nat) : M (option BridgeCall) :=
  fun st => Return (nth_error (bridge st) i)
              (mkState (chatInput_value st) (sendBtn_disabled st) (messagesContainer st)
                 (messageHistory st) (next_uid st) (readings st) (console st)
                 (timers st) (remove_nth i (bridge st))).

Definition take_timer (i : nat) : M (option (N * Callback)) :=
  fun st => Return (nth_error (timers st) i)
              (mkState (chatInput_value st) (sendBtn_disabled st) (messagesContainer st)
                 (messageHistory st) (next_uid st) (readings st) (console st)
                 (remove_nth i (timers st)) (bridge st)).

(** The banners of the page: the elements carrying the id [currentStatus]. *)
Definition is_banner (n : Node) : bool := str_eqb (id n) (u "currentStatus").

Definition banners (st : State) : list Node := filter is_banner (messagesContainer st).

(** The message bubbles of the page. *)
Definition is_message (n : Node) : bool :=
  match body n with
  | MessageParts _ _ => true
  | _ => false
  end.

Definition messages (st : State) : list Node := filter is_message (messagesContainer st).


(** *** The page of the earlier palette

    [static/palette.js] is the palette before the chat: one input
    ([aiCommandInput]), one button ([aiSubmitBtn]), one response area
    ([aiResponse]) and a status line that [showStatus] creates on demand with
    the id [statusMessage].  Its page is not among the sources; the three
    elements it looks up are taken to be there. *)

Record StatusLine := mkStatusLine {
  line_uid : nat;
  line_className : str;
  line_textContent : str
}.

Record EarlierPage := mkEarlier {
  aiCommandInput_value : str;
  aiSubmitBtn_disabled : bool;
  aiSubmitBtn_textContent : str;
  aiResponse_innerHTML : str;
  statusMessage : option StatusLine;     (* the element of id [statusMessage] *)
  earlier_next_uid : nat;
  earlier_readings : nat;
  earlier_timers : list (N * nat);       (* delay, status line to hide *)
  earlier_bridge : list BridgeCall
}.

(** *** What the banner functions leave in the container *)

Definition with_children (st : State) (l : list Node) : State :=
  mkState (chatInput_value st) (sendBtn_disabled st) l
    (messageHistory st) (next_uid st) (readings st) (console st) (timers st) (bridge st).

(** The children once the first banner, if any, has removed itself. *)
Definition remove_banner (l : list Node) : list Node :=
  match find is_banner l with
  | Some e => filter (fun n => negb (Nat.eqb (uid n) (uid e))) l
  | None => l
  end.

Definition single_banner (st : State) : Prop := List.length (banners st) <= 1.

(** A computation keeps the page at one banner at most, whether it returns
    or throws. *)
Definition preserves {A} (c : M A) : Prop :=
  forall st, single_banner st -> single_banner (state_of (c st)).


(** *** Keyboard events and the look of the input

    What the listeners of [DOMContentLoaded] read from a [keydown] event,
    and what [insertQuickCommand] changes on [chatInput] besides its value:
    the focus, [style.transform] and the pending resets of the scale. *)

Record KeyboardEvent := mkKey {
  key : str;
  ctrlKey : bool;
  shiftKey : bool
}.

Record InputView := mkView {
  focused : bool;
  transform : str;                 (* [chatInput.style.transform] *)
  scale_resets : list N            (* delays of the pending resets *)
}.

(** ** A platform for closed examples

    Integer literals below 2^53 in magnitude print as they are written, minus
    zero as [0]; these are exact.  Other literals are kept as written. *)
Module Sample.

Definition Number := str.

Definition StringToNumber (lexeme : str) : Number :=
  if str_eqb lexeme (u "-0") then u "0" else lexeme.

Definition Number_toString (n : Number) : str := n.

Definition Number_isFinite (n : Number) : bool := true.

(** 5 March 2024, 14:02:09, a millisecond later at each reading. *)
Definition clock (n : nat) : Date :=
  mkDate 5 2 2024 14 2 9 (1709647329000 + N.of_nat n).

Definition random36 (n : nat) : str := u "0.4fzyo82mvyr".

(** Containers nested a thousand and one deep are still serialized. *)
Definition stringify_depth : nat := 1000.

(** The loaded page with a command typed in, and with a blank input: a
    tab, a space and a no-break space. *)
Definition page_typed : State :=
  mkState (u "  make a hole ") false [welcome] [] 1 0 [] [] [].

Definition page_blank : State :=
  mkState [9; 32; 160]%N false [welcome] [] 1 0 [] [] [].

End Sample.

Section Host.

Local Open Scope N_scope.

(** *** Platform parameters

    [Number] is the platform's number type, [StringToNumber] the conversion
    of a JSON number literal, [Number_toString] is Number::toString in
    radix 10 and [Number_isFinite] tells infinities apart (a literal such
    as [1e999] converts to one).  [clock n] is what the [n]-th reading of
    the clock returns and [random36 n] what [Math.random().toString(36)]
    returns at the [n]-th reading of the environment.

    [JSON.stringify] recurses on the value it serializes, and an engine
    throws a RangeError when the nesting exhausts its stack.  A container
    of scalars is always serialized; [stringify_depth] is the number of
    further levels of nesting the engine manages. *)
Variable Number : Type.
Variable StringToNumber : str -> Number.
Variable Number_toString : Number -> str.
Variable Number_isFinite : Number -> bool.
Variable clock : nat -> Date.
Variable random36 : nat -> str.
Variable stringify_depth : nat.

(** *** JSON values *)

(** The values [JSON.parse] returns.  The members of an object are kept in
    the order in which the language enumerates own property keys. *)
#[local] Unset Elimination Schemes.
Inductive JSON :=
| JNull
| JBool (b : bool)
| JNumber (n : Number)
| JString (s : str)
| JArray (elements : list JSON)
| JObject (members : list (str * JSON)).
#[local] Set Elimination Schemes.

Definition is_digit (c : code_unit) : bool := (N.leb 48 c && N.leb c 57)%bool.

Fixpoint digits_value (acc : N) (s : str) : N :=
  match s with
  | [] => acc
  | c :: s' => digits_value (10 * acc + (c - 48))%N s'
  end.

(** A property key is an array index when it is the canonical decimal form
    of an integer below 2^32 - 1. *)
Definition array_index (k : str) : option N :=
  match k with
  | [] => None
  | c :: r =>
      if (forallb is_digit k && (negb (N.eqb c 48) || match r with [] => true | _ => false end)
          && Nat.leb (List.length k) 10%nat)%bool
      then let n := digits_value 0 k in
           if N.ltb n 4294967295 then Some n else None
      else None
  end.

(** Own property keys are enumerated array indices first, in ascending
    order, then the other keys in creation order. *)
Definition comes_before (k k' : str) : bool :=
  match array_index k, array_index k' with
  | Some a, Some b => N.ltb a b
  | Some _, None => true
  | None, _ => false
  end.

Fixpoint own_get (k : str) (ps : list (str * JSON)) : option JSON :=
  match ps with
  | [] => None
  | (k', v) :: r => if str_eqb k k' then Some v else own_get k r
  end.

Fixpoint obj_replace (k : str) (v : JSON) (ps : list (str * JSON)) : list (str * JSON) :=
  match ps with
  | [] => []
  | (k', v') :: r => if str_eqb k k' then (k', v) :: r else (k', v') :: obj_replace k v r
  end.

Fixpoint obj_insert (k : str) (v : JSON) (ps : list (str * JSON)) : list (str * JSON) :=
  match ps with
  | [] => [(k, v)]
  | (k', v') :: r =>
      if comes_before k k' then (k, v) :: ps else (k', v') :: obj_insert k v r
  end.

(** CreateDataProperty: a key met again keeps its place and takes the new
    value. *)
Definition obj_define (k : str) (v : JSON) (ps : list (str * JSON)) : list (str * JSON) :=
  match own_get k ps with
  | Some _ => obj_replace k v ps
  | None => obj_insert k v ps
  end.

(** *** JSON.parse *)

(** JSON whitespace: tab, line feed, carriage return, space. *)
Definition is_json_ws (c : code_unit) : bool :=
  (N.eqb c 9 || N.eqb c 10 || N.eqb c 13 || N.eqb c 32)%bool.

Fixpoint skip_ws (s : str) : str :=
  match s with
  | c :: s' => if is_json_ws c then skip_ws s' else s
  | [] => []
  end.

Definition hex_value (c : code_unit) : option N :=
  if (N.leb 48 c && N.leb c 57)%bool then Some (c - 48)%N
  else if (N.leb 97 c && N.leb c 102)%bool then Some (c - 87)%N
  else if (N.leb 65 c && N.leb c 70)%bool then Some (c - 55)%N
  else None.

Definition hex4_value (a b c d : code_unit) : option code_unit :=
  match hex_value a, hex_value b, hex_value c, hex_value d with
  | Some x, Some y, Some z, Some w => Some (4096 * x + 256 * y + 16 * z + w)%N
  | _, _, _, _ => None
  end.

(** The characters of a string literal after its opening quotation mark,
    up to and including the closing one. *)
Fixpoint parse_string_chars (s : str) : option (str * str) :=
  match s with
  | [] => None
  | c :: r =>
      if N.eqb c dq then Some ([], r)
      else if N.eqb c backslash then
        match r with
        | [] => None
        | e :: r1 =>
            let simple (x : code_unit) :=
              match parse_string_chars r1 with
              | Some (t, rest) => Some (x :: t, rest)
              | None => None
              end in
            if N.eqb e 34 then simple 34
            else if N.eqb e 92 then simple 92
            else if N.eqb e 47 then simple 47
            else if N.eqb e 98 then simple 8
            else if N.eqb e 102 then simple 12
            else if N.eqb e 110 then simple 10
            else if N.eqb e 114 then simple 13
            else if N.eqb e 116 then simple 9
            else if N.eqb e 117 then
              match r1 with
              | h1 :: h2 :: h3 :: h4 :: r2 =>
                  match hex4_value h1 h2 h3 h4 with
                  | Some x =>
                      match parse_string_chars r2 with
                      | Some (t, rest) => Some (x :: t, rest)
                      | None => None
                      end
                  | None => None
                  end
              | _ => None
              end
            else None
        end
      else if N.ltb c 32 then None
      else match parse_string_chars r with
           | Some (t, rest) => Some (c :: t, rest)
           | None => None
           end
  end.

Fixpoint span_digits (s : str) : str * str :=
  match s with
  | c :: s' => if is_digit c
               then let (d, r) := span_digits s' in (c :: d, r)
               else ([], s)
  | [] => ([], [])
  end.

(** The longest prefix of [s] that is a JSON number literal: an optional
    minus sign; then a zero, or a non-zero digit and any digits; then
    optionally a point and one or more digits; then optionally [e] or [E],
    an optional sign and one or more digits. *)
Definition lex_number (s : str) : option (str * str) :=
  let (sign, s1) := match s with
                    | c :: r => if N.eqb c 45 then ([c], r) else ([], s)
                    | [] => ([], s)
                    end in
  match s1 with
  | [] => None
  | c :: r1 =>
      if negb (is_digit c) then None
      else
        let (int, s2) := if N.eqb c 48 then ([c], r1) else span_digits s1 in
        let frac :=
          match s2 with
          | p :: r2 =>
              if N.eqb p 46
              then match span_digits r2 with
                   | ([], _) => None
                   | (d, r3) => Some (p :: d, r3)
                   end
              else Some ([], s2)
          | [] => Some ([], s2)
          end in
        match frac with
        | None => None
        | Some (fr, s3) =>
            let exp :=
              match s3 with
              | e :: r3 =>
                  if (N.eqb e 101 || N.eqb e 69)%bool
                  then
                    let (esign, r4) :=
                      match r3 with
                      | g :: r' => if (N.eqb g 43 || N.eqb g 45)%bool
                                   then ([g], r') else ([], r3)
                      | [] => ([], r3)
                      end in
                    match span_digits r4 with
                    | ([], _) => None
                    | (d, r5) => Some (e :: esign ++ d, r5)
                    end
                  else Some ([], s3)
              | [] => Some ([], s3)
              end in
            match exp with
            | None => None
            | Some (ex, s4) => Some (sign ++ int ++ fr ++ ex, s4)
            end
        end
  end.

Definition expect (lit : string) (v : JSON) (s : str) : PResult JSON :=
  match strip_prefix (u lit) s with
  | Some rest => POk v rest
  | None => PErr
  end.

(** Recursive descent over the JSON grammar.  Each function is entered with
    a budget of calls; [JSON_parse] gives a budget that is never used up
    (lemma [parse_value_fuel]). *)
Fixpoint parse_value (fuel : nat) (s : str) : PResult JSON :=
  match fuel with
  | O => PFuel
  | S fuel' =>
      match skip_ws s with
      | [] => PErr
      | c :: r =>
          if N.eqb c 123 then                       (* { *)
            match skip_ws r with
            | c' :: r' =>
                if N.eqb c' 125 then POk (JObject []) r'
                else parse_members fuel' (skip_ws r) []
            | [] => PErr
            end
          else if N.eqb c 91 then                   (* [ *)
            match skip_ws r with
            | c' :: r' =>
                if N.eqb c' 93 then POk (JArray []) r'
                else parse_elements fuel' (skip_ws r) []
            | [] => PErr
            end
          else if N.eqb c dq then
            match parse_string_chars r with
            | Some (t, rest) => POk (JString t) rest
            | None => PErr
            end
          else if N.eqb c 116 then expect "true" (JBool true) (c :: r)
          else if N.eqb c 102 then expect "false" (JBool false) (c :: r)
          else if N.eqb c 110 then expect "null" JNull (c :: r)
          else match lex_number (c :: r) with
               | Some (lexeme, rest) => POk (JNumber (StringToNumber lexeme)) rest
               | None => PErr
               end
      end
  end

(** Elements of an array after [[] or a comma; [acc] holds the elements read
    so far, last first. *)
with parse_elements (fuel : nat) (s : str) (acc : list JSON) : PResult JSON :=
  match fuel with
  | O => PFuel
  | S fuel' =>
      match parse_value fuel' s with
      | POk v rest =>
          match skip_ws rest with
          | c :: r =>
              if N.eqb c 44 then parse_elements fuel' r (v :: acc)
              else if N.eqb c 93 then POk (JArray (rev (v :: acc))) r
              else PErr
          | [] => PErr
          end
      | PErr => PErr
      | PFuel => PFuel
      end
  end

(** Members of an object after [{] or a comma; [acc] holds the properties
    defined so far. *)
with parse_members (fuel : nat) (s : str) (acc : list (str * JSON)) : PResult JSON :=
  match fuel with
  | O => PFuel
  | S fuel' =>
      match skip_ws s with
      | q :: r =>
          if N.eqb q dq then
            match parse_string_chars r with
            | Some (k, rest) =>
                match skip_ws rest with
                | colon :: r1 =>
                    if N.eqb colon 58 then
                      match parse_value fuel' r1 with
                      | POk v rest1 =>
                          match skip_ws rest1 with
                          | c :: r2 =>
                              if N.eqb c 44 then parse_members fuel' r2 (obj_define k v acc)
                              else if N.eqb c 125 then POk (JObject (obj_define k v acc)) r2
                              else PErr
                          | [] => PErr
                          end
                      | PErr => PErr
                      | PFuel => PFuel
                      end
                    else PErr
                | [] => PErr
                end
            | None => PErr
            end
          else PErr
      | [] => PErr
      end
  end.

Definition parse_budget (s : str) : nat := (2 * List.length s + 2)%nat.

(** [JSON.parse(text)]: the value, or [None] where the call throws a
    SyntaxError. *)
Definition JSON_parse (text : str) : option JSON :=
  match parse_value (parse_budget text) text with
  | POk v rest => match skip_ws rest with
                  | [] => Some v
                  | _ :: _ => None
                  end
  | PErr => None
  | PFuel => None
  end.


(** *** Conversions on JSON values *)

(** ToString on an array element inside [Array.prototype.join]. *)
Definition is_null (v : JSON) : bool :=
  match v with JNull => true | _ => false end.

(** ToString of a value, as a template literal applies it; [None] where
    it throws a TypeError.  An array prints its elements joined by commas,
    null elements as the empty string.  An object prints as
    [[object Object]] through [Object.prototype.toString]; an own property
    named [toString] (never callable in a parsed value) hides that method,
    and then neither [toString] nor [valueOf] yields a primitive. *)
Fixpoint ToString (v : JSON) : option str :=
  match v with
  | JNull => Some (u "null")
  | JBool true => Some (u "true")
  | JBool false => Some (u "false")
  | JNumber n => Some (Number_toString n)
  | JString s => Some s
  | JArray l =>
      (fix join (l : list JSON) : option str :=
         match l with
         | [] => Some []
         | e :: r =>
             match (if is_null e then Some [] else ToString e) with
             | None => None
             | Some se =>
                 match r with
                 | [] => Some se
                 | _ :: _ => match join r with
                             | Some sr => Some (se ++ u "," ++ sr)
                             | None => None
                             end
                 end
             end
         end) l
  | JObject ps =>
      match own_get (u "toString") ps with
      | Some _ => None
      | None => Some (u "[object Object]")
      end
  end.

(** ToString of the result of a property access ([None] is [undefined]). *)
Definition ToString_value (v : option JSON) : option str :=
  match v with
  | None => Some (u "undefined")
  | Some j => ToString j
  end.

Definition hex_digit (n : N) : code_unit :=
  if N.ltb n 10 then 48 + n else 87 + n.

(** UnicodeEscape: [\u] and four lowercase hexadecimal digits. *)
Definition unicode_escape (c : code_unit) : str :=
  [backslash; 117; hex_digit ((c / 4096) mod 16); hex_digit ((c / 256) mod 16);
   hex_digit ((c / 16) mod 16); hex_digit (c mod 16)].

Definition is_high_surrogate (c : code_unit) : bool := N.leb 55296 c && N.leb c 56319.
Definition is_low_surrogate (c : code_unit) : bool := N.leb 56320 c && N.leb c 57343.

(** One code unit of QuoteJSONString that is not part of a surrogate pair. *)
Definition quote_unit (c : code_unit) : str :=
  if N.eqb c 8 then [backslash; 98]
  else if N.eqb c 9 then [backslash; 116]
  else if N.eqb c 10 then [backslash; 110]
  else if N.eqb c 12 then [backslash; 102]
  else if N.eqb c 13 then [backslash; 114]
  else if N.eqb c 34 then [backslash; 34]
  else if N.eqb c 92 then [backslash; 92]
  else if (N.ltb c 32 || is_high_surrogate c || is_low_surrogate c)%bool then unicode_escape c
  else [c].

Fixpoint quote_chars (s : str) : str :=
  match s with
  | [] => []
  | c :: r =>
      if is_high_surrogate c then
        match r with
        | lo :: r' =>
            if is_low_surrogate lo then c :: lo :: quote_chars r'
            else unicode_escape c ++ quote_chars r
        | [] => unicode_escape c
        end
      else quote_unit c ++ quote_chars r
  end.

(** QuoteJSONString *)
Definition QuoteJSONString (s : str) : str := dq :: quote_chars s ++ [dq].

(** The text [JSON.stringify(v)] returns, without replacer or indentation,
    on a parsed value or on an object literal of such values, when the call
    returns: see [JSON_stringify_call] for the call. *)
Fixpoint JSON_stringify (v : JSON) : str :=
  match v with
  | JNull => u "null"
  | JBool true => u "true"
  | JBool false => u "false"
  | JNumber n => if Number_isFinite n then Number_toString n else u "null"
  | JString s => QuoteJSONString s
  | JArray l =>
      u "[" ++
      (fix elems (l : list JSON) : str :=
         match l with
         | [] => []
         | [e] => JSON_stringify e
         | e :: r => JSON_stringify e ++ u "," ++ elems r
         end) l
      ++ u "]"
  | JObject ps =>
      u "{" ++
      (fix props (ps : list (str * JSON)) : str :=
         match ps with
         | [] => []
         | [(k, e)] => QuoteJSONString k ++ u ":" ++ JSON_stringify e
         | (k, e) :: r => QuoteJSONString k ++ u ":" ++ JSON_stringify e ++ u "," ++ props r
         end) ps
      ++ u "}"
  end.

(** [`${JSON.stringify(x)}`] where [x] may be [undefined]: the call then
    returns [undefined]. *)
Definition JSON_stringify_text (v : option JSON) : str :=
  match v with
  | None => u "undefined"
  | Some j => JSON_stringify j
  end.

(** How deep containers are nested in a value: a scalar has nesting 0, an
    array or an object one more than the deepest of its members. *)
Fixpoint nesting (v : JSON) : nat :=
  match v with
  | JArray l =>
      Datatypes.S
        ((fix elems (l : list JSON) : nat :=
            match l with
            | [] => 0%nat
            | e :: r => Nat.max (nesting e) (elems r)
            end) l)
  | JObject m =>
      Datatypes.S
        ((fix props (m : list (str * JSON)) : nat :=
            match m with
            | [] => 0%nat
            | (_, e) :: r => Nat.max (nesting e) (props r)
            end) m)
  | _ => 0%nat
  end.

(** The values the engine serializes without exhausting its stack. *)
Definition within_stack (v : JSON) : bool :=
  Nat.leb (nesting v) (Datatypes.S stringify_depth).

(** A call [JSON.stringify(v)] on a value that comes from outside: it
    returns the text [JSON_stringify v] or throws a RangeError.  The
    objects the script builds itself before it calls the bridge hold
    strings only and are within the stack of any engine
    (lemma [flat_within_stack]); for them [JSON_stringify] is used as it
    is. *)
Definition JSON_stringify_call (v : JSON) : Exn + str :=
  if within_stack v then inr (JSON_stringify v) else inl RangeError.

(** The same where the argument may be [undefined]. *)
Definition JSON_stringify_text_call (v : option JSON) : Exn + str :=
  match v with
  | None => inr (u "undefined")
  | Some j => JSON_stringify_call j
  end.

(** The property names the script reads from a parsed value.  None of them
    is a property of [Object.prototype], [Array.prototype],
    [String.prototype], [Number.prototype] or [Boolean.prototype], so a
    read finds an own property of an object or [undefined]. *)
Inductive PropName :=
| p_status | p_action | p_parameters | p_message | p_myText | p_myExpression | p_myValue.

Definition prop_key (p : PropName) : str :=
  match p with
  | p_status => u "status"
  | p_action => u "action"
  | p_parameters => u "parameters"
  | p_message => u "message"
  | p_myText => u "myText"
  | p_myExpression => u "myExpression"
  | p_myValue => u "myValue"
  end.

(** [v.p]: [inl TypeError] on null, else the own property or [undefined]. *)
Definition get_property (v : JSON) (p : PropName) : Exn + option JSON :=
  match v with
  | JNull => inl TypeError
  | JObject ps => inr (own_get (prop_key p) ps)
  | _ => inr None
  end.

(** [x === lit] for a string literal. *)
Definition strict_equals (x : option JSON) (lit : str) : bool :=
  match x with
  | Some (JString s) => str_eqb s lit
  | _ => false
  end.

(** [x.replace('_', ' ')]: only a string has a callable [replace]. *)
Definition call_replace (x : option JSON) : Exn + str :=
  match x with
  | Some (JString s) => inr (replace (u "_") (u " ") s)
  | _ => inl TypeError
  end.


(** *** Platform operations *)

(** [new Date()] *)
Definition new_Date : M Date :=
  fun st => Return (clock (readings st))
              (mkState (chatInput_value st) (sendBtn_disabled st) (messagesContainer st)
                 (messageHistory st) (next_uid st) (Datatypes.S (readings st)) (console st)
                 (timers st) (bridge st)).

(** [Date.now()] printed in decimal *)
Definition Date_now : M str :=
  d <- new_Date ;; ret (decimal (getTime d)).

(** [Math.random().toString(36)] *)
Definition Math_random_36 : M str :=
  fun st => Return (random36 (readings st))
              (mkState (chatInput_value st) (sendBtn_disabled st) (messagesContainer st)
                 (messageHistory st) (next_uid st) (Datatypes.S (readings st)) (console st)
                 (timers st) (bridge st)).

Definition JSON_parse_M (text : str) : M JSON :=
  lift_option SyntaxError (JSON_parse text).

(** [`${x}`] *)
Definition interpolate (x : option JSON) : M str :=
  lift_option TypeError (ToString_value x).


(** *** The script *)

Definition getDateString : M str :=
  today <- new_Date ;;
  let date := decimal (getDate today) ++ u "/" ++ decimal (getMonth today + 1)
              ++ u "/" ++ decimal (getFullYear today) in
  let time := decimal (getHours today) ++ u ":" ++ decimal (getMinutes today)
              ++ u ":" ++ decimal (getSeconds today) in
  ret (u "Date: " ++ date ++ u ", Time: " ++ time).

Definition addMessage (content type : str) : M unit :=
  messageDiv <- createElement ;;
  avatar <- createElement ;;
  messageContent <- createElement ;;
  appendChild (mkNode messageDiv (u "message " ++ type) []
                 (MessageParts (if str_eqb type (u "user") then u "U" else u "AI") content)
                 None) ;;
  timestamp <- new_Date ;;
  history_push (mkEntry content type timestamp).

Definition loading_dots : str :=
  u " <span class=" ++ quoted "loading-dots"
    ++ u "><span></span><span></span><span></span></span>".

Definition addStatusMessage (message type : str) : M nat :=
  statusDiv <- createElement ;;
  let filled := if str_eqb type (u "loading")
                then InnerHTML (message ++ loading_dots)
                else TextContent message in
  existingStatus <- getElementById (u "currentStatus") ;;
  match existingStatus with
  | Some e => remove_element (uid e)
  | None => ret tt
  end ;;
  appendChild (mkNode statusDiv (u "status-message " ++ type) (u "currentStatus") filled None) ;;
  ret statusDiv.

Definition removeStatusMessage : M unit :=
  statusDiv <- getElementById (u "currentStatus") ;;
  match statusDiv with
  | Some e => remove_element (uid e)
  | None => ret tt
  end.

Definition generateSessionId : M str :=
  r <- Math_random_36 ;;
  now <- Date_now ;;
  ret (u "session_" ++ substr 2 9 r ++ u "_" ++ now).

(** The banner texts start with U+2705, U+274C and U+1F504 (a surrogate
    pair). *)
Definition success_text : str := 9989 :: u " Command executed successfully!".
Definition error_text : str := 10060 :: u " Command failed to execute".
Definition processing_text : str := 55357 :: 56580 :: u " AI is processing your command...".

(** [parsedResponse.status === lit] *)
Definition status_is (parsedResponse : JSON) (lit : string) : M bool :=
  status <- lift_sum (get_property parsedResponse p_status) ;;
  ret (strict_equals status (u lit)).

Definition handleAIResponse (response : str) : M unit :=
  removeStatusMessage ;;
  try_catch
    (parsedResponse <- JSON_parse_M response ;;
     is_success <- status_is parsedResponse "success" ;;
     if is_success then
       addStatusMessage success_text (u "success") ;;
       action <- lift_sum (get_property parsedResponse p_action) ;;
       shown <- lift_sum (call_replace action) ;;
       parameters <- lift_sum (get_property parsedResponse p_parameters) ;;
       serialized <- lift_sum (JSON_stringify_text_call parameters) ;;
       let message := u "Created: " ++ shown ++ u " with parameters: "
                      ++ serialized in
       addMessage message (u "assistant")
     else
       is_error <- status_is parsedResponse "error" ;;
       if is_error then
         addStatusMessage error_text (u "error") ;;
         msg <- lift_sum (get_property parsedResponse p_message) ;;
         shown <- interpolate msg ;;
         addMessage (u "Error: " ++ shown) (u "assistant")
       else
         is_processing <- status_is parsedResponse "processing" ;;
         if is_processing then
           addStatusMessage processing_text (u "loading") ;; ret tt
         else ret tt)
    (fun e => addMessage response (u "assistant")) ;;
  setTimeout FadeBanner 3000.

(** The closures handed to [setTimeout]. *)
Definition run_callback (cb : Callback) : M unit :=
  match cb with
  | FadeBanner =>
      statusMsg <- querySelector_class (u "status-message") ;;
      match statusMsg with
      | Some e => set_opacity (uid e) (u "0") ;; setTimeout (RemoveElement (uid e)) 300
      | None => ret tt
      end
  | RemoveElement target => remove_element target
  end.

Definition sendChatMessage : M unit :=
  value <- gets chatInput_value ;;
  let userCommand := trim value in
  match userCommand with
  | [] => ret tt
  | _ :: _ =>
      addMessage userCommand (u "user") ;;
      set_chatInput_value [] ;;
      set_sendBtn_disabled true ;;
      addStatusMessage (u "CadxStudio AI is analyzing your command...") (u "loading") ;;
      timestamp <- getDateString ;;
      sessionId <- generateSessionId ;;
      let commandData := JObject [(u "command", JString userCommand);
                                  (u "timestamp", JString timestamp);
                                  (u "sessionId", JString sessionId)] in
      fusionSendData (u "aiCommand") (JSON_stringify commandData)
  end.

(** **** The reactions attached to the bridge promise *)

Definition on_fulfilled (result : str) : M unit :=
  console_write Log [LogStr (u "AI Command Response:"); LogStr result] ;;
  handleAIResponse result.

Definition on_rejected (error : Exn) : M unit :=
  console_write Error [LogStr (u "Error sending AI command:"); LogExn error] ;;
  removeStatusMessage ;;
  addMessage (u "Error communicating with Fusion 360. Please try again.") (u "assistant").

Definition on_finally : M unit := set_sendBtn_disabled false.

(** A chain [p.then(f).catch(g).finally(h)], run when [p] is settled. *)
Definition reactions {A B} (f : A -> M B) (g : Exn -> M B) (h : M unit)
    (p : Promise A) : M (Promise B) :=
  p1 <- promise_then f p ;;
  p2 <- promise_catch g p1 ;;
  promise_finally h p2.

(** The chain of [sendChatMessage], run when the bridge promise settles
    as [p]. *)
Definition settle (p : Promise str) : M (Promise unit) :=
  reactions on_fulfilled on_rejected on_finally p.

Definition handleAIUpdate (messageString : str) : M unit :=
  try_catch
    (data <- JSON_parse_M messageString ;;
     text <- lift_sum (JSON_stringify_call data) ;;
     handleAIResponse text)
    (fun e => handleAIResponse messageString).

Definition updateMessage (messageString : str) : M unit :=
  messageData <- JSON_parse_M messageString ;;
  myText <- lift_sum (get_property messageData p_myText) ;;
  text <- interpolate myText ;;
  myExpression <- lift_sum (get_property messageData p_myExpression) ;;
  expression <- interpolate myExpression ;;
  myValue <- lift_sum (get_property messageData p_myValue) ;;
  value <- interpolate myValue ;;
  let message := u "Text: " ++ text ++ u ", Expression: " ++ expression
                 ++ u ", Value: " ++ value in
  addMessage message (u "assistant").

(** [window.fusionJavaScriptHandler.handle].  The body of the [try] yields
    [Some r] where it executes [return r]. *)
Definition handle (action data : str) : M str :=
  returned <-
    try_catch
      (if str_eqb action (u "updateMessage") then
         updateMessage data ;; ret None
       else if str_eqb action (u "aiResponse") then
         handleAIUpdate data ;; ret None
       else if str_eqb action (u "debugger") then
         ret None
       else
         console_write Log [LogStr (u "Unhandled action: " ++ action)] ;;
         ret (Some (u "Unexpected command type: " ++ action)))
      (fun e =>
         console_write Log [LogExn e] ;;
         console_write Log [LogStr (u "Exception caught with command: " ++ action
                                    ++ u ", data: " ++ data)] ;;
         ret None) ;;
  match returned with
  | Some r => ret r
  | None => ret (u "OK")
  end.


(** *** The page over time *)

(** What can happen to the page: the user edits the input (typing, or
    [insertQuickCommand]); a send is triggered (click on [sendBtn], Enter
    in [chatInput]); the host settles the promise of an outstanding bridge
    call; the host calls the inbound handler; a pending timer fires. *)
Inductive Event :=
| Edit (value : str)
| Send
| Settle (call : nat) (p : Promise str)
| Push (action data : str)
| Fire (timer : nat).

Definition react (ev : Event) : M unit :=
  match ev with
  | Edit value => set_chatInput_value value
  | Send => sendChatMessage
  | Settle i p =>
      c <- take_call i ;;
      match c with
      | Some _ => settle p ;; ret tt
      | None => ret tt
      end
  | Push action data => handle action data ;; ret tt
  | Fire i =>
      t <- take_timer i ;;
      match t with
      | Some (_, cb) => run_callback cb
      | None => ret tt
      end
  end.

(** An exception that escapes an event handler is reported by the browser
    and the page goes on from the state reached. *)
Definition step (ev : Event) (st : State) : State := state_of (react ev st).

Inductive reachable : State -> Prop :=
| reach_initial : reachable initial
| reach_step ev st : reachable st -> reachable (step ev st).

(** *** Vocabulary of the properties *)

(** The actions the inbound handler dispatches on. *)
Definition known_action (action : str) : bool :=
  (str_eqb action (u "updateMessage") || str_eqb action (u "aiResponse")
   || str_eqb action (u "debugger"))%bool.

(** A field of a decoded reply, [None] when missing. *)
Definition field (name : PropName) (v : JSON) : option JSON :=
  match v with
  | JObject ps => own_get (prop_key name) ps
  | _ => None
  end.

Definition recognised_status (x : option JSON) : bool :=
  (strict_equals x (u "success") || strict_equals x (u "error")
   || strict_equals x (u "processing"))%bool.

Definition is_string (x : option JSON) : bool :=
  match x with
  | Some (JString _) => true
  | _ => false
  end.

(** The bubble [addMessage] appends. *)
Definition bubble (i : nat) (content type : str) : Node :=
  mkNode i (u "message " ++ type) []
    (MessageParts (if str_eqb type (u "user") then u "U" else u "AI") content) None.

(** The banner [addStatusMessage] appends. *)
Definition banner (i : nat) (message type : str) : Node :=
  mkNode i (u "status-message " ++ type) (u "currentStatus")
    (if str_eqb type (u "loading")
     then InnerHTML (message ++ loading_dots)
     else TextContent message)
    None.

(** The page after [removeStatusMessage], [addStatusMessage], [addMessage]
    and [setTimeout]. *)
Definition after_removeStatus (st : State) : State :=
  with_children st (remove_banner (messagesContainer st)).

Definition after_addStatus (message type : str) (st : State) : State :=
  mkState (chatInput_value st) (sendBtn_disabled st)
    (remove_banner (messagesContainer st) ++ [banner (next_uid st) message type])
    (messageHistory st) (Datatypes.S (next_uid st)) (readings st) (console st)
    (timers st) (bridge st).

Definition after_addMessage (content type : str) (st : State) : State :=
  mkState (chatInput_value st) (sendBtn_disabled st)
    (messagesContainer st ++ [bubble (next_uid st) content type])
    (messageHistory st ++ [mkEntry content type (clock (readings st))])
    (3 + next_uid st) (Datatypes.S (readings st)) (console st)
    (timers st) (bridge st).

Definition after_setTimeout (cb : Callback) (delay : N) (st : State) : State :=
  mkState (chatInput_value st) (sendBtn_disabled st) (messagesContainer st)
    (messageHistory st) (next_uid st) (readings st) (console st)
    (timers st ++ [(delay, cb)]) (bridge st).

(** The replies of the examples. *)
Definition reply_success : str :=
  u "{" ++ quoted "status" ++ u ":" ++ quoted "success" ++ u ","
    ++ quoted "action" ++ u ":" ++ quoted "make_hole" ++ u ","
    ++ quoted "parameters" ++ u ":{" ++ quoted "d" ++ u ":8}}".

Definition reply_error : str :=
  u "{" ++ quoted "status" ++ u ":" ++ quoted "error" ++ u ","
    ++ quoted "message" ++ u ":" ++ quoted "bad param" ++ u "}".

Definition summary_success : str :=
  u "Created: make hole with parameters: {" ++ quoted "d" ++ u ":8}".

(** The display string [getDateString] builds from a reading of the
    clock. *)
Definition date_string (today : Date) : str :=
  let date := decimal (getDate today) ++ u "/" ++ decimal (getMonth today + 1)%N
              ++ u "/" ++ decimal (getFullYear today) in
  let time := decimal (getHours today) ++ u ":" ++ decimal (getMinutes today)
              ++ u ":" ++ decimal (getSeconds today) in
  u "Date: " ++ date ++ u ", Time: " ++ time.

(** The token [generateSessionId] builds from a reading of the random
    source and a reading of the clock. *)
Definition session_token (random : str) (now : Date) : str :=
  u "session_" ++ substr 2 9 random ++ u "_" ++ decimal (getTime now).

(** The object [sendChatMessage] serializes on a page in state [st]:
    [addMessage] takes the first reading of the environment, the timestamp
    the second, the session token the third and fourth. *)
Definition envelope (st : State) : JSON :=
  JObject [(u "command", JString (trim (chatInput_value st)));
           (u "timestamp", JString (date_string (clock (1 + readings st))));
           (u "sessionId",
            JString (session_token (random36 (2 + readings st))
                       (clock (3 + readings st))))].

(** *** The earlier palette *)

(** [showStatus]: the status line is created before the response area when
    there is none, then it takes the class and the text; a status other than
    [loading] is hidden after five seconds. *)
Definition showStatus (message type : str) (p : EarlierPage) : EarlierPage :=
  let statusDiv := match statusMessage p with
                   | Some e => line_uid e
                   | None => earlier_next_uid p
                   end in
  let next := match statusMessage p with
              | Some _ => earlier_next_uid p
              | None => Datatypes.S (earlier_next_uid p)
              end in
  mkEarlier (aiCommandInput_value p) (aiSubmitBtn_disabled p) (aiSubmitBtn_textContent p)
    (aiResponse_innerHTML p)
    (Some (mkStatusLine statusDiv (u "status " ++ type) message))
    next (earlier_readings p)
    (if str_eqb type (u "loading")
     then earlier_timers p
     else earlier_timers p ++ [(5000, statusDiv)])
    (earlier_bridge p).

(** [sendAICommand] *)
Definition sendAICommand (p : EarlierPage) : EarlierPage :=
  let userCommand := trim (aiCommandInput_value p) in
  match userCommand with
  | [] => showStatus (u "Please enter a command first.") (u "error") p
  | _ :: _ =>
      let p1 := mkEarlier (aiCommandInput_value p) true
                  (55357 :: 56580 :: u " Processing...")
                  (aiResponse_innerHTML p) (statusMessage p) (earlier_next_uid p)
                  (earlier_readings p) (earlier_timers p) (earlier_bridge p) in
      let p2 := showStatus (u "Sending command to AI Copilot...") (u "loading") p1 in
      let n := earlier_readings p2 in
      let commandData :=
        JObject [(u "command", JString userCommand);
                 (u "timestamp", JString (date_string (clock n)));
                 (u "sessionId",
                  JString (session_token (random36 (1 + n)) (clock (2 + n))))] in
      mkEarlier (aiCommandInput_value p2) (aiSubmitBtn_disabled p2)
        (aiSubmitBtn_textContent p2) (aiResponse_innerHTML p2) (statusMessage p2)
        (earlier_next_uid p2) (3 + n)%nat (earlier_timers p2)
        (earlier_bridge p2 ++ [mkCall (u "aiCommand") (JSON_stringify commandData)])
  end.

(** The callback that [showStatus] hands to [setTimeout], run for the
    status line [target] it has captured: the line takes itself out of the
    page when it is still in it.  A line that has left the page never comes
    back: [showStatus] creates a new one when it finds none. *)
Definition hide_status (target : nat) (p : EarlierPage) : EarlierPage :=
  match statusMessage p with
  | Some e =>
      if Nat.eqb (line_uid e) target
      then mkEarlier (aiCommandInput_value p) (aiSubmitBtn_disabled p)
             (aiSubmitBtn_textContent p) (aiResponse_innerHTML p) None
             (earlier_next_uid p) (earlier_readings p) (earlier_timers p)
             (earlier_bridge p)
      else p
  | None => p
  end.

(** The page after [sendChatMessage] on a command that is not blank. *)
Definition after_send (st : State) : State :=
  mkState [] true
    (remove_banner
       (messagesContainer st ++ [bubble (next_uid st) (trim (chatInput_value st)) (u "user")])
     ++ [banner (3 + next_uid st) (u "CadxStudio AI is analyzing your command...")
           (u "loading")])
    (messageHistory st
     ++ [mkEntry (trim (chatInput_value st)) (u "user") (clock (readings st))])
    (4 + next_uid st) (4 + readings st) (console st) (timers st)
    (bridge st ++ [mkCall (u "aiCommand") (JSON_stringify (envelope st))]).

(** *** Further entry points of the script *)

(** [insertQuickCommand]: the command replaces what the input holds, the
    input takes the focus and is scaled up for 200 ms.  [chatInput] is a
    [textarea]: the value read back from it is the command with its
    newlines normalized. *)
Definition insertQuickCommand (command : str) (page : State * InputView)
    : State * InputView :=
  (state_of (set_chatInput_value (normalize_newlines command) (fst page)),
   mkView true (u "scale(1.02)") (scale_resets (snd page) ++ [200])).

(** The closure [insertQuickCommand] hands to [setTimeout]. *)
Definition reset_scale (v : InputView) : InputView :=
  mkView (focused v) (u "scale(1)") (tl (scale_resets v)).

(** The first [keydown] listener of [chatInput]: Ctrl+Enter sends.  The
    result tells whether [preventDefault] was called. *)
Definition on_ctrl_enter (event : KeyboardEvent) : M bool :=
  if (ctrlKey event && str_eqb (key event) (u "Enter"))%bool
  then sendChatMessage ;; ret true
  else ret false.

(** The second [keydown] listener of [chatInput]: Enter without Shift and
    without Ctrl sends. *)
Definition on_enter (event : KeyboardEvent) : M bool :=
  if (str_eqb (key event) (u "Enter") && negb (shiftKey event) && negb (ctrlKey event))%bool
  then sendChatMessage ;; ret true
  else ret false.

(** [preventDefault] is called before [sendChatMessage], so it was called
    also where the listener threw. *)
Definition prevented (o : Outcome bool) : bool :=
  match o with
  | Return b _ => b
  | Throw _ _ => true
  end.

(** A [keydown] on [chatInput]: both listeners run, in the order of their
    registration, the second also when the first threw.  The result is
    [defaultPrevented] and the page. *)
Definition chatInput_keydown (event : KeyboardEvent) (st : State) : bool * State :=
  let first := on_ctrl_enter event st in
  let second := on_enter event (state_of first) in
  ((prevented first || prevented second)%bool, state_of second).

(** The [keydown] listener of a quick action whose [onclick] inserts
    [command]: Enter and Space click it. *)
Definition quick_action_keydown (command : str) (event : KeyboardEvent)
    (page : State * InputView) : bool * (State * InputView) :=
  if (str_eqb (key event) (u "Enter") || str_eqb (key event) (u " "))%bool
  then (true, insertQuickCommand command page)
  else (false, page).

(** [sendInfoToFusion] *)
Definition sendInfoToFusion : M unit :=
  arg2 <- getDateString ;;
  let args := JObject [(u "arg1", JString (u "Legacy test")); (u "arg2", JString arg2)] in
  fusionSendData (u "messageFromPalette") (JSON_stringify args).

(** The reaction [sendInfoToFusion] attaches with [then]; there is no
    [catch]. *)
Definition on_legacy_result (result : str) : M unit :=
  addMessage (u "Legacy response: " ++ result) (u "assistant").

Definition settle_info (p : Promise str) : M (Promise unit) :=
  promise_then on_legacy_result p.

(** *** Vocabulary of the further properties *)

(** A computation keeps [I], whether it returns or throws. *)
Definition keeps {A} (I : State -> Prop) (c : M A) : Prop :=
  forall st, I st -> I (state_of (c st)).

(** What shows of an element: its class and what it holds. *)
Definition node_view (n : Node) : str * Content := (className n, body n).

(** What shows of the bubble of a history entry. *)
Definition entry_view (e : HistoryEntry) : str * Content :=
  node_view (bubble 0 (entry_content e) (entry_type e)).

(** The element a pending removal aims at is not a bubble. *)
Definition aims_at_banner (l : list Node) (next : nat) (t : N * Callback) : Prop :=
  match snd t with
  | RemoveElement target =>
      (target < next)%nat /\ Forall (fun n => uid n = target -> is_banner n = true) l
  | FadeBanner => True
  end.

(** A page in order: element identities are distinct and below the next one
    to be given; an element has the class [status-message] exactly when it
    has the id [currentStatus], and then it is not a bubble; the bubbles are
    the welcome bubble and, in order, one bubble per history entry; pending
    removals aim at banners. *)
Definition tidy (st : State) : Prop :=
  Forall (fun n => (uid n < next_uid st)%nat) (messagesContainer st)
  /\ NoDup (map uid (messagesContainer st))
  /\ Forall (fun n => has_class (u "status-message") (className n) = is_banner n
                      /\ is_message n = negb (is_banner n)) (messagesContainer st)
  /\ map node_view (messages st) = node_view welcome :: map entry_view (messageHistory st)
  /\ Forall (aims_at_banner (messagesContainer st) (next_uid st)) (timers st).

(** A page in order whose bubbles are those of [m0] and later ones. *)
Definition grown_from (m0 : list Node) (st : State) : Prop :=
  tidy st /\ exists extra, messages st = m0 ++ extra.

(** What the response interpreter and the inbound handler have no business
    with: the input, the send button and the outstanding bridge calls. *)
Definition controls (st : State) : str * bool * list BridgeCall :=
  (chatInput_value st, sendBtn_disabled st, bridge st).

(** The text [handleAIUpdate] passes on: a JSON text is decoded and
    serialized again when the engine manages to, any other text is passed
    as it is. *)
Definition normalised (data : str) : str :=
  match JSON_parse data with
  | Some v => if within_stack v then JSON_stringify v else data
  | None => data
  end.

(** The [parameters] of a reply are absent or within the stack of the
    engine: [JSON.stringify] returns. *)
Definition serializable (parameters : option JSON) : bool :=
  match parameters with
  | None => true
  | Some j => within_stack j
  end.

(** The page after [console.log] or [console.error]. *)
Definition after_console (level : LogLevel) (args : list LogArg) (st : State) : State :=
  mkState (chatInput_value st) (sendBtn_disabled st) (messagesContainer st)
    (messageHistory st) (next_uid st) (readings st) (console st ++ [(level, args)])
    (timers st) (bridge st).

(** ** Properties *)

Local Open Scope nat_scope.
Unset Implicit Arguments.

(** *** The monad *)

Lemma bind_Return {A B} (c : M A) (k : A -> M B) st a st' :
  c st = Return a st' -> bind c k st = k a st'.
Proof. intros H. unfold bind. now rewrite H. Qed.

Lemma bind_Throw {A B} (c : M A) (k : A -> M B) st e st' :
  c st = Throw e st' -> bind c k st = Throw e st'.
Proof. intros H. unfold bind. now rewrite H. Qed.

Lemma with_children_same st : with_children st (messagesContainer st) = st.
Proof. now destruct st. Qed.

(** *** Strings *)

Lemma str_eqb_refl s : str_eqb s s = true.
Proof. induction s as [|c s IH]; simpl; [easy|]. now rewrite N.eqb_refl. Qed.

Lemma str_eqb_eq a b : str_eqb a b = true <-> a = b.
Proof.
  split.
  - revert b. induction a as [|x a IH]; intros [|y b]; simpl; try easy.
    intros H. apply andb_true_iff in H as [H1 H2].
    apply N.eqb_eq in H1. apply IH in H2. now subst.
  - intros ->. apply str_eqb_refl.
Qed.

Lemma trim_start_whitespace s :
  forallb is_whitespace s = true -> trim_start s = [].
Proof.
  induction s as [|c s IH]; simpl; [easy|].
  intros H. apply andb_true_iff in H as [Hc Hs]. rewrite Hc. auto.
Qed.

Lemma trim_whitespace s : forallb is_whitespace s = true -> trim s = [].
Proof. intros H. unfold trim. now rewrite (trim_start_whitespace s H). Qed.

(** *** The inbound handler *)

Lemma diagnostic_not_OK action : u "Unexpected command type: " ++ action <> u "OK".
Proof. discriminate. Qed.

(** Whatever the dispatched function does, the [try] of [handle] ends
    without an exception and without a [return]. *)
Lemma dispatch_caught (c : M unit) action data st :
  exists st',
    try_catch (c ;; ret (@None str))
      (fun e =>
         console_write Log [LogExn e] ;;
         console_write Log [LogStr (u "Exception caught with command: " ++ action
                                    ++ u ", data: " ++ data)] ;;
         ret None) st = Return None st'.
Proof.
  unfold try_catch, bind. destruct (c st) as [[] st1|e st1]; simpl; eauto.
Qed.

(** C1. For every action and data string the inbound handler returns a
    string and never throws.  A known action ([updateMessage],
    [aiResponse], [debugger]) gives ["OK"], also when the dispatched
    function throws; any other action gives the diagnostic
    [Unexpected command type: <action>], which differs from ["OK"], and
    leaves the container and the message history as they were. *)
Theorem handle_never_throws action data st :
  exists r st',
    handle action data st = Return r st'
    /\ (known_action action = true -> r = u "OK")
    /\ (known_action action = false ->
        r = u "Unexpected command type: " ++ action
        /\ r <> u "OK"
        /\ messagesContainer st' = messagesContainer st
        /\ messageHistory st' = messageHistory st).
Proof.
  unfold handle, known_action.
  destruct (str_eqb action (u "updateMessage")) eqn:E1.
  { destruct (dispatch_caught (updateMessage data) action data st) as [st' H].
    exists (u "OK"), st'. rewrite (bind_Return _ _ _ _ _ H). simpl.
    repeat split; auto; discriminate. }
  destruct (str_eqb action (u "aiResponse")) eqn:E2.
  { destruct (dispatch_caught (handleAIUpdate data) action data st) as [st' H].
    exists (u "OK"), st'. rewrite (bind_Return _ _ _ _ _ H). simpl.
    repeat split; auto; discriminate. }
  destruct (str_eqb action (u "debugger")) eqn:E3.
  { exists (u "OK"), st. simpl. repeat split; auto; discriminate. }
  eexists _, _. split; [reflexivity|]. simpl. split; [discriminate|].
  intros _. repeat split. discriminate.
Qed.

(** The dispatched function does throw on some inputs: [updateMessage] on
    a text that is not JSON. *)
Lemma updateMessage_throws st : updateMessage (u "hello") st = Throw SyntaxError st.
Proof. reflexivity. Qed.

(** *** Sending *)

(** C3. When the input is empty or holds only whitespace, [sendChatMessage]
    returns at once and the page is as before: no message is appended, the
    send button is not disabled and no bridge call is made. *)
Theorem send_blank_is_noop st :
  forallb is_whitespace (chatInput_value st) = true ->
  sendChatMessage st = Return tt st.
Proof.
  intros H. unfold sendChatMessage, bind, gets.
  now rewrite (trim_whitespace _ H).
Qed.

(** The earlier palette on a blank input: the button is not disabled, no
    bridge call is made and the response area is as before; unlike the chat
    palette it says so in its status line. *)
Lemma sendAICommand_blank p :
  forallb is_whitespace (aiCommandInput_value p) = true ->
  aiSubmitBtn_disabled (sendAICommand p) = aiSubmitBtn_disabled p
  /\ earlier_bridge (sendAICommand p) = earlier_bridge p
  /\ aiResponse_innerHTML (sendAICommand p) = aiResponse_innerHTML p
  /\ exists e, statusMessage (sendAICommand p) = Some e
               /\ line_className e = u "status error"
               /\ line_textContent e = u "Please enter a command first.".
Proof.
  intros H. unfold sendAICommand. rewrite (trim_whitespace _ H).
  repeat split. eexists. repeat split.
Qed.

(** *** Banners and bubbles *)

Lemma removeStatusMessage_eq st :
  removeStatusMessage st = Return tt (after_removeStatus st).
Proof.
  unfold removeStatusMessage, after_removeStatus, remove_banner, bind, getElementById, gets.
  change (fun n : Node => str_eqb (id n) (u "currentStatus")) with is_banner.
  destruct (find is_banner (messagesContainer st)); [reflexivity|].
  now rewrite with_children_same.
Qed.

Lemma addStatusMessage_eq message type st :
  addStatusMessage message type st = Return (next_uid st) (after_addStatus message type st).
Proof.
  unfold addStatusMessage, after_addStatus, remove_banner, bind, getElementById, gets,
    createElement; simpl.
  change (fun n : Node => str_eqb (id n) (u "currentStatus")) with is_banner.
  destruct (find is_banner (messagesContainer st)); reflexivity.
Qed.

Lemma addMessage_eq content type st :
  addMessage content type st = Return tt (after_addMessage content type st).
Proof. reflexivity. Qed.

Lemma setTimeout_eq cb delay st :
  setTimeout cb delay st = Return tt (after_setTimeout cb delay st).
Proof. reflexivity. Qed.

Lemma find_filter {A} (f : A -> bool) l : find f l = hd_error (filter f l).
Proof.
  induction l as [|x l IH]; simpl; [easy|]. now destruct (f x).
Qed.

Lemma filter_swap {A} (f g : A -> bool) l :
  filter f (filter g l) = filter g (filter f l).
Proof.
  induction l as [|x l IH]; simpl; [easy|].
  destruct (f x) eqn:F, (g x) eqn:G; simpl; rewrite ?F, ?G, IH; reflexivity.
Qed.

(** Where there is at most one banner, removing the first one leaves
    none. *)
Lemma remove_banner_none l :
  List.length (filter is_banner l) <= 1 -> filter is_banner (remove_banner l) = [].
Proof.
  intros H. unfold remove_banner. rewrite find_filter.
  destruct (filter is_banner l) as [|b [|b' r]] eqn:E; simpl in *.
  - exact E.
  - rewrite filter_swap, E. simpl. now rewrite Nat.eqb_refl.
  - lia.
Qed.

Lemma remove_banner_absent l : filter is_banner l = [] -> remove_banner l = l.
Proof.
  intros H. unfold remove_banner. now rewrite find_filter, H.
Qed.

Lemma is_banner_bubble i content type : is_banner (bubble i content type) = false.
Proof. reflexivity. Qed.

Lemma is_banner_banner i message type : is_banner (banner i message type) = true.
Proof. reflexivity. Qed.

(** *** The response interpreter, branch by branch *)

Lemma status_is_eq v lit st :
  v <> JNull ->
  status_is v lit st = Return (strict_equals (field p_status v) (u lit)) st.
Proof. destruct v; try reflexivity. now intros []. Qed.

Lemma get_property_field v p :
  v <> JNull -> get_property v p = inr (field p v).
Proof. destruct v; try reflexivity. now intros []. Qed.

Lemma success_is_object v :
  strict_equals (field p_status v) (u "success") = true -> v <> JNull.
Proof. now destruct v. Qed.

Lemma error_is_object v :
  strict_equals (field p_status v) (u "error") = true -> v <> JNull.
Proof. now destruct v. Qed.

Lemma str_eqb_diff a b c : str_eqb a b = true -> str_eqb b c = false -> str_eqb a c = false.
Proof.
  intros H. apply str_eqb_eq in H. now subst.
Qed.

(** The reply is not JSON: it is shown as it is. *)
Lemma handleAIResponse_plain response st :
  JSON_parse response = None ->
  handleAIResponse response st =
    Return tt (after_setTimeout FadeBanner 3000
                 (after_addMessage response (u "assistant") (after_removeStatus st))).
Proof.
  intros H. unfold handleAIResponse.
  rewrite (bind_Return _ _ _ _ _ (removeStatusMessage_eq st)).
  unfold try_catch, bind, JSON_parse_M. now rewrite H.
Qed.

(** Where the engine manages the [parameters], the call of
    [JSON.stringify] returns their text. *)
Lemma stringify_text_returns parameters :
  serializable parameters = true ->
  JSON_stringify_text_call parameters = inr (JSON_stringify_text parameters).
Proof.
  destruct parameters as [j|]; [|reflexivity]. simpl. intros F.
  unfold JSON_stringify_call. now rewrite F.
Qed.

Lemma stringify_text_throws parameters :
  serializable parameters = false ->
  JSON_stringify_text_call parameters = inl RangeError.
Proof.
  destruct parameters as [j|]; [|discriminate]. simpl. intros F.
  unfold JSON_stringify_call. now rewrite F.
Qed.

(** An object whose members are strings, as the script builds them for the
    bridge, has nesting 1: any engine serializes it. *)
Lemma flat_within_stack members :
  Forall (fun member => exists s, snd member = JString s) members ->
  JSON_stringify_call (JObject members) = inr (JSON_stringify (JObject members)).
Proof.
  intros F. unfold JSON_stringify_call, within_stack.
  assert (E : nesting (JObject members) = 1).
  { induction F as [|[k e] r [w W] F IH]; [reflexivity|].
    simpl in W. subst e. cbn [nesting] in *. cbn [Nat.max]. exact IH. }
  now rewrite E.
Qed.

(** [status] is ["success"], [action] is a string and the [parameters] are
    within the stack of the engine. *)
Lemma handleAIResponse_success response v a st :
  JSON_parse response = Some v ->
  strict_equals (field p_status v) (u "success") = true ->
  field p_action v = Some (JString a) ->
  serializable (field p_parameters v) = true ->
  handleAIResponse response st =
    Return tt (after_setTimeout FadeBanner 3000
                 (after_addMessage
                    (u "Created: " ++ replace (u "_") (u " ") a ++ u " with parameters: "
                     ++ JSON_stringify_text (field p_parameters v))
                    (u "assistant")
                    (after_addStatus success_text (u "success") (after_removeStatus st)))).
Proof.
  intros H S A F. pose proof (success_is_object v S) as Hv. unfold handleAIResponse.
  rewrite (bind_Return _ _ _ _ _ (removeStatusMessage_eq st)).
  unfold try_catch, JSON_parse_M. unfold bind at 1 2. rewrite H; simpl.
  unfold bind at 1. rewrite (status_is_eq _ "success" _ Hv), S.
  unfold bind at 1. rewrite addStatusMessage_eq.
  unfold bind. rewrite !(get_property_field _ _ Hv), A.
  cbn [lift_sum ret call_replace]. rewrite (stringify_text_returns _ F). reflexivity.
Qed.

(** [status] is ["success"], [action] is a string and the [parameters] are
    nested too deep for the engine: [JSON.stringify] throws after the
    banner was shown, and the [catch] shows the reply as it is. *)
Lemma handleAIResponse_success_overflow response v a st :
  JSON_parse response = Some v ->
  strict_equals (field p_status v) (u "success") = true ->
  field p_action v = Some (JString a) ->
  serializable (field p_parameters v) = false ->
  handleAIResponse response st =
    Return tt (after_setTimeout FadeBanner 3000
                 (after_addMessage response (u "assistant")
                    (after_addStatus success_text (u "success") (after_removeStatus st)))).
Proof.
  intros H S A F. pose proof (success_is_object v S) as Hv. unfold handleAIResponse.
  rewrite (bind_Return _ _ _ _ _ (removeStatusMessage_eq st)).
  unfold try_catch, JSON_parse_M. unfold bind at 1 2. rewrite H; simpl.
  unfold bind at 1. rewrite (status_is_eq _ "success" _ Hv), S.
  unfold bind at 1. rewrite addStatusMessage_eq.
  unfold bind. rewrite !(get_property_field _ _ Hv), A.
  cbn [lift_sum ret call_replace]. rewrite (stringify_text_throws _ F). reflexivity.
Qed.

(** [status] is ["success"] and [action] is not a string: the summary
    cannot be built and the [catch] shows the reply as it is. *)
Lemma handleAIResponse_success_fallback response v st :
  JSON_parse response = Some v ->
  strict_equals (field p_status v) (u "success") = true ->
  is_string (field p_action v) = false ->
  handleAIResponse response st =
    Return tt (after_setTimeout FadeBanner 3000
                 (after_addMessage response (u "assistant")
                    (after_addStatus success_text (u "success") (after_removeStatus st)))).
Proof.
  intros H S A. pose proof (success_is_object v S) as Hv. unfold handleAIResponse.
  rewrite (bind_Return _ _ _ _ _ (removeStatusMessage_eq st)).
  unfold try_catch, JSON_parse_M. unfold bind at 1 2. rewrite H; simpl.
  unfold bind at 1. rewrite (status_is_eq _ "success" _ Hv), S.
  unfold bind at 1. rewrite addStatusMessage_eq.
  unfold bind. rewrite !(get_property_field _ _ Hv).
  destruct (field p_action v) as [[]|]; try discriminate; reflexivity.
Qed.

(** [status] is ["error"] and [message] converts to a string. *)
Lemma handleAIResponse_error response v shown st :
  JSON_parse response = Some v ->
  strict_equals (field p_status v) (u "error") = true ->
  ToString_value (field p_message v) = Some shown ->
  handleAIResponse response st =
    Return tt (after_setTimeout FadeBanner 3000
                 (after_addMessage (u "Error: " ++ shown) (u "assistant")
                    (after_addStatus error_text (u "error") (after_removeStatus st)))).
Proof.
  intros H S A. pose proof (error_is_object v S) as Hv. unfold handleAIResponse.
  rewrite (bind_Return _ _ _ _ _ (removeStatusMessage_eq st)).
  unfold try_catch, JSON_parse_M. unfold bind at 1 2. rewrite H; simpl.
  assert (S' : strict_equals (field p_status v) (u "success") = false).
  { destruct (field p_status v) as [[]|]; try discriminate.
    simpl in *. now apply (str_eqb_diff _ _ _ S). }
  unfold bind at 1. rewrite (status_is_eq _ "success" _ Hv), S'.
  unfold bind at 1. rewrite (status_is_eq _ "error" _ Hv), S.
  unfold bind at 1. rewrite addStatusMessage_eq.
  unfold bind, interpolate. rewrite !(get_property_field _ _ Hv).
  cbn [lift_sum ret]. rewrite A. reflexivity.
Qed.

(** The reply decodes to a value other than null whose [status] is none of
    the three: nothing is shown. *)
Lemma handleAIResponse_dropped response v st :
  JSON_parse response = Some v ->
  v <> JNull ->
  recognised_status (field p_status v) = false ->
  handleAIResponse response st =
    Return tt (after_setTimeout FadeBanner 3000 (after_removeStatus st)).
Proof.
  intros H Hv R. unfold recognised_status in R.
  apply orb_false_iff in R as [R R3]. apply orb_false_iff in R as [R1 R2].
  unfold handleAIResponse.
  rewrite (bind_Return _ _ _ _ _ (removeStatusMessage_eq st)).
  unfold try_catch, JSON_parse_M. unfold bind at 1 2. rewrite H; simpl.
  unfold bind at 1. rewrite (status_is_eq _ "success" _ Hv), R1.
  unfold bind at 1. rewrite (status_is_eq _ "error" _ Hv), R2.
  unfold bind at 1. rewrite (status_is_eq _ "processing" _ Hv), R3.
  reflexivity.
Qed.

(** The reply decodes to null: reading [status] throws and the [catch]
    shows the reply as it is. *)
Lemma handleAIResponse_null response st :
  JSON_parse response = Some JNull ->
  handleAIResponse response st =
    Return tt (after_setTimeout FadeBanner 3000
                 (after_addMessage response (u "assistant") (after_removeStatus st))).
Proof.
  intros H. unfold handleAIResponse.
  rewrite (bind_Return _ _ _ _ _ (removeStatusMessage_eq st)).
  unfold try_catch, bind, JSON_parse_M. now rewrite H.
Qed.

(** *** The response interpreter on the page *)

(** The page after a banner and a bubble were put on a page with at most
    one banner: one banner, the new one, then the bubble. *)
Lemma banner_then_bubble content message type st :
  single_banner st ->
  let st' := after_setTimeout FadeBanner 3000
               (after_addMessage content (u "assistant")
                  (after_addStatus message type (after_removeStatus st))) in
  banners st' = [banner (next_uid st) message type]
  /\ messagesContainer st' =
       remove_banner (messagesContainer st)
       ++ [banner (next_uid st) message type;
           bubble (Datatypes.S (next_uid st)) content (u "assistant")]
  /\ messageHistory st' =
       messageHistory st ++ [mkEntry content (u "assistant") (clock (readings st))].
Proof.
  intros H. unfold single_banner, banners in H.
  pose proof (remove_banner_none _ H) as E.
  cbn -[u banner bubble remove_banner is_banner].
  unfold banners. cbn -[u banner bubble remove_banner is_banner].
  rewrite (remove_banner_absent _ E), <- app_assoc.
  repeat split. rewrite filter_app, E. reflexivity.
Qed.

(** C4. A reply that does not parse as JSON is shown as it is:
    [handleAIResponse] returns without an exception, having appended one
    assistant bubble whose content is the reply, and one entry of the same
    content to the message history. *)
Theorem plain_reply_shown response st :
  JSON_parse response = None ->
  exists st',
    handleAIResponse response st = Return tt st'
    /\ messagesContainer st' =
         remove_banner (messagesContainer st)
         ++ [bubble (next_uid st) response (u "assistant")]
    /\ messageHistory st' =
         messageHistory st ++ [mkEntry response (u "assistant") (clock (readings st))].
Proof.
  intros H. eexists. split; [apply (handleAIResponse_plain _ _ H)|].
  split; reflexivity.
Qed.

Lemma parse_reply_success :
  JSON_parse reply_success =
    Some (JObject [(u "status", JString (u "success"));
                   (u "action", JString (u "make_hole"));
                   (u "parameters", JObject [(u "d", JNumber (StringToNumber (u "8")))])]).
Proof. reflexivity. Qed.

Lemma parse_reply_error :
  JSON_parse reply_error =
    Some (JObject [(u "status", JString (u "error"));
                   (u "message", JString (u "bad param"))]).
Proof. reflexivity. Qed.

(** C5, as the script has it.  On a page with at most one banner, and where
    the number 8 prints as [8], the success reply of the example leaves
    exactly one banner, the success banner, followed by one assistant
    bubble whose content is [Created: make hole with parameters: {"d":8}]:
    the action with its first underscore replaced by a space, and the
    serialized parameters. *)
Theorem success_reply_shown st :
  Number_isFinite (StringToNumber (u "8")) = true ->
  Number_toString (StringToNumber (u "8")) = u "8" ->
  single_banner st ->
  exists st',
    handleAIResponse reply_success st = Return tt st'
    /\ banners st' = [banner (next_uid st) success_text (u "success")]
    /\ messagesContainer st' =
         remove_banner (messagesContainer st)
         ++ [banner (next_uid st) success_text (u "success");
             bubble (Datatypes.S (next_uid st)) summary_success (u "assistant")]
    /\ messageHistory st' =
         messageHistory st
         ++ [mkEntry summary_success (u "assistant") (clock (readings st))]
    /\ includes summary_success (u "make hole") = true
    /\ includes summary_success (u "{" ++ quoted "d" ++ u ":8}") = true.
Proof.
  intros F T H. eexists. split.
  - apply (handleAIResponse_success _ _ (u "make_hole") _ parse_reply_success);
      reflexivity.
  - cbn [field prop_key own_get str_eqb JSON_stringify_text JSON_stringify].
    replace (u "Created: " ++ _) with summary_success
      by (cbn in F, T; cbn; rewrite F, T; reflexivity).
    destruct (banner_then_bubble summary_success success_text (u "success") st H)
      as (B & C & D).
    repeat split; assumption.
Qed.

(** C6. On a page with at most one banner, the error reply of the example
    leaves exactly one banner, the error banner, followed by one assistant
    bubble whose content, [Error: bad param], contains [bad param]. *)
Theorem error_reply_shown st :
  single_banner st ->
  exists st' content,
    handleAIResponse reply_error st = Return tt st'
    /\ banners st' = [banner (next_uid st) error_text (u "error")]
    /\ messagesContainer st' =
         remove_banner (messagesContainer st)
         ++ [banner (next_uid st) error_text (u "error");
             bubble (Datatypes.S (next_uid st)) content (u "assistant")]
    /\ messageHistory st' =
         messageHistory st ++ [mkEntry content (u "assistant") (clock (readings st))]
    /\ content = u "Error: bad param"
    /\ includes content (u "bad param") = true.
Proof.
  intros H. exists (after_setTimeout FadeBanner 3000
                      (after_addMessage (u "Error: bad param") (u "assistant")
                         (after_addStatus error_text (u "error") (after_removeStatus st)))).
  exists (u "Error: bad param"). split.
  - apply (handleAIResponse_error _ _ (u "bad param") _ parse_reply_error); reflexivity.
  - destruct (banner_then_bubble (u "Error: bad param") error_text (u "error") st H)
      as (B & C & D).
    repeat split; assumption.
Qed.

(** C7, as the script has it.  A reply that decodes to a value other than
    null whose [status] is missing or none of ["success"], ["error"],
    ["processing"] is dropped: [handleAIResponse] removes the banner in
    place, if any, appends nothing and creates no banner.  These are its
    only effects, with the auto-dismiss timer it sets: the input, the
    button, the outstanding calls, the console, the history and the
    readings of the environment are as before, and no element was
    created. *)
Theorem unrecognised_reply_dropped response v st :
  JSON_parse response = Some v ->
  v <> JNull ->
  recognised_status (field p_status v) = false ->
  exists st',
    handleAIResponse response st = Return tt st'
    /\ messagesContainer st' = remove_banner (messagesContainer st)
    /\ messageHistory st' = messageHistory st
    /\ (single_banner st -> banners st' = [])
    /\ (banners st = [] -> messagesContainer st' = messagesContainer st)
    /\ timers st' = timers st ++ [(3000%N, FadeBanner)]
    /\ chatInput_value st' = chatInput_value st
    /\ sendBtn_disabled st' = sendBtn_disabled st
    /\ bridge st' = bridge st
    /\ console st' = console st
    /\ next_uid st' = next_uid st
    /\ readings st' = readings st.
Proof.
  intros H Hv R.
  exists (after_setTimeout FadeBanner 3000 (after_removeStatus st)).
  split; [apply (handleAIResponse_dropped _ _ _ H Hv R)|].
  split; [reflexivity|]. split; [reflexivity|]. split.
  { intros S. apply (remove_banner_none _ S). }
  split.
  { intros B. apply (remove_banner_absent _ B). }
  split; [reflexivity|]. split; [reflexivity|]. split; [reflexivity|].
  split; [reflexivity|]. split; [reflexivity|]. split; reflexivity.
Qed.

(** C10. A reply whose [status] is ["success"] but whose [action] is
    missing or not a string: the summary cannot be built, the exception is
    caught, and on a page with at most one banner the success banner is
    followed by one assistant bubble holding the reply as it is. *)
Theorem success_without_action_shown_raw response v st :
  JSON_parse response = Some v ->
  strict_equals (field p_status v) (u "success") = true ->
  is_string (field p_action v) = false ->
  single_banner st ->
  exists st',
    handleAIResponse response st = Return tt st'
    /\ banners st' = [banner (next_uid st) success_text (u "success")]
    /\ messagesContainer st' =
         remove_banner (messagesContainer st)
         ++ [banner (next_uid st) success_text (u "success");
             bubble (Datatypes.S (next_uid st)) response (u "assistant")]
    /\ messageHistory st' =
         messageHistory st ++ [mkEntry response (u "assistant") (clock (readings st))].
Proof.
  intros H S A B. eexists. split.
  - apply (handleAIResponse_success_fallback _ _ _ H S A).
  - apply (banner_then_bubble response success_text (u "success") st B).
Qed.

(** *** At most one banner *)

Lemma preserves_ret {A} (a : A) : preserves (ret a).
Proof. now intros st H. Qed.

Lemma preserves_throw {A} e : preserves (@throw A e).
Proof. now intros st H. Qed.

Lemma preserves_bind {A B} (c : M A) (k : A -> M B) :
  preserves c -> (forall a, preserves (k a)) -> preserves (bind c k).
Proof.
  intros Hc Hk st H. unfold bind. specialize (Hc st H).
  destruct (c st) as [a st1|e st1]; simpl in *; [now apply Hk|assumption].
Qed.

Lemma preserves_try_catch {A} (c : M A) (h : Exn -> M A) :
  preserves c -> (forall e, preserves (h e)) -> preserves (try_catch c h).
Proof.
  intros Hc Hh st H. unfold try_catch. specialize (Hc st H).
  destruct (c st) as [a st1|e st1]; simpl in *; [assumption|now apply Hh].
Qed.

Lemma preserves_lift_sum {A} (r : Exn + A) : preserves (lift_sum r).
Proof. now destruct r; intros st H. Qed.

Lemma preserves_lift_option {A} e (r : option A) : preserves (lift_option e r).
Proof. now destruct r; intros st H. Qed.

(** A computation that leaves the container alone. *)
Lemma preserves_container {A} (c : M A) :
  (forall st, messagesContainer (state_of (c st)) = messagesContainer st) ->
  preserves c.
Proof.
  intros E st H. unfold single_banner, banners in *. now rewrite E.
Qed.

Lemma filter_filter_length {A} (f g : A -> bool) l :
  List.length (filter f (filter g l)) <= List.length (filter f l).
Proof.
  induction l as [|x l IH]; simpl; [easy|].
  destruct (g x), (f x) eqn:F; simpl; rewrite ?F; simpl; lia.
Qed.

Lemma preserves_remove_element target : preserves (remove_element target).
Proof.
  intros st H. unfold single_banner, banners in *. simpl.
  eapply Nat.le_trans; [apply filter_filter_length|exact H].
Qed.

Lemma filter_map_length {A} (p : A -> bool) (f : A -> A) l :
  (forall x, p (f x) = p x) ->
  List.length (filter p (map f l)) = List.length (filter p l).
Proof.
  intros E. induction l as [|x l IH]; simpl; [easy|].
  rewrite E. destruct (p x); simpl; auto.
Qed.

Lemma preserves_set_opacity target v : preserves (set_opacity target v).
Proof.
  intros st H. unfold single_banner, banners in *. simpl.
  rewrite filter_map_length; [exact H|].
  intros n. now destruct (Nat.eqb (uid n) target).
Qed.

Lemma preserves_addMessage content type : preserves (addMessage content type).
Proof.
  intros st H. rewrite addMessage_eq. unfold single_banner, banners in *. simpl.
  rewrite filter_app. simpl. now rewrite app_nil_r.
Qed.

Lemma preserves_removeStatusMessage : preserves removeStatusMessage.
Proof.
  intros st H. rewrite removeStatusMessage_eq. unfold single_banner, banners in *.
  simpl. rewrite (remove_banner_none _ H). simpl. lia.
Qed.

Lemma preserves_addStatusMessage message type : preserves (addStatusMessage message type).
Proof.
  intros st H. rewrite addStatusMessage_eq. unfold single_banner, banners in *.
  cbn -[banner remove_banner is_banner u]. rewrite filter_app, (remove_banner_none _ H).
  reflexivity.
Qed.

Ltac container_kept := apply preserves_container; intros st; reflexivity.

Ltac preserving_step :=
  lazymatch goal with
  | |- preserves (bind _ _) => apply preserves_bind; [|intros ?]
  | |- preserves (try_catch _ _) => apply preserves_try_catch; [|intros ?]
  | |- preserves (ret _) => apply preserves_ret
  | |- preserves (throw _) => apply preserves_throw
  | |- preserves (lift_sum _) => apply preserves_lift_sum
  | |- preserves (lift_option _ _) => apply preserves_lift_option
  | |- preserves (addMessage _ _) => apply preserves_addMessage
  | |- preserves removeStatusMessage => apply preserves_removeStatusMessage
  | |- preserves (addStatusMessage _ _) => apply preserves_addStatusMessage
  | |- preserves (remove_element _) => apply preserves_remove_element
  | |- preserves (set_opacity _ _) => apply preserves_set_opacity
  | |- preserves (setTimeout _ _) => container_kept
  | |- preserves (console_write _ _) => container_kept
  | |- preserves (fusionSendData _ _) => container_kept
  | |- preserves (set_chatInput_value _) => container_kept
  | |- preserves (set_sendBtn_disabled _) => container_kept
  | |- preserves (gets _) => container_kept
  | |- preserves (querySelector_class _) => container_kept
  | |- preserves new_Date => container_kept
  | |- preserves Math_random_36 => container_kept
  | |- preserves (if ?b then _ else _) => destruct b
  | |- preserves (match ?x with _ => _ end) => destruct x
  end.

Ltac preserving := repeat preserving_step.

Lemma preserves_handleAIResponse response : preserves (handleAIResponse response).
Proof. unfold handleAIResponse, status_is, JSON_parse_M, interpolate. preserving. Qed.

Lemma preserves_handleAIUpdate data : preserves (handleAIUpdate data).
Proof.
  unfold handleAIUpdate, JSON_parse_M.
  apply preserves_try_catch; [|intros e; apply preserves_handleAIResponse].
  apply preserves_bind; [apply preserves_lift_option|].
  intros v. apply preserves_bind; [apply preserves_lift_sum|].
  intros text. apply preserves_handleAIResponse.
Qed.

Lemma preserves_updateMessage data : preserves (updateMessage data).
Proof. unfold updateMessage, JSON_parse_M, interpolate. preserving. Qed.

Lemma preserves_handle action data : preserves (handle action data).
Proof.
  unfold handle.
  apply preserves_bind; [|intros [r|]; apply preserves_ret].
  apply preserves_try_catch; [|intros e; preserving].
  destruct (str_eqb action (u "updateMessage")).
  { apply preserves_bind; [apply preserves_updateMessage|intros _; apply preserves_ret]. }
  destruct (str_eqb action (u "aiResponse")).
  { apply preserves_bind; [apply preserves_handleAIUpdate|intros _; apply preserves_ret]. }
  preserving.
Qed.

Lemma preserves_sendChatMessage : preserves sendChatMessage.
Proof.
  unfold sendChatMessage, getDateString, generateSessionId, Date_now. preserving.
Qed.

Lemma preserves_promise_then {A B} (f : A -> M B) p :
  (forall a, preserves (f a)) -> preserves (promise_then f p).
Proof.
  intros Hf st H. unfold promise_then. destruct p as [a|e]; [|assumption].
  specialize (Hf a st H). now destruct (f a st).
Qed.

Lemma preserves_promise_catch {A} (g : Exn -> M A) p :
  (forall e, preserves (g e)) -> preserves (promise_catch g p).
Proof.
  intros Hg st H. unfold promise_catch. destruct p as [a|e]; [assumption|].
  specialize (Hg e st H). now destruct (g e st).
Qed.

Lemma preserves_promise_finally {A} (h : M unit) (p : Promise A) :
  preserves h -> preserves (promise_finally h p).
Proof.
  intros Hh st H. unfold promise_finally.
  specialize (Hh st H). now destruct (h st).
Qed.

Lemma preserves_settle p : preserves (settle p).
Proof.
  unfold settle, reactions. apply preserves_bind; [|intros p1; apply preserves_bind; [|intros p2]].
  - apply preserves_promise_then. intros r. unfold on_fulfilled.
    apply preserves_bind; [container_kept|intros _; apply preserves_handleAIResponse].
  - apply preserves_promise_catch. intros e. unfold on_rejected. preserving.
  - apply preserves_promise_finally. unfold on_finally. container_kept.
Qed.

Lemma preserves_run_callback cb : preserves (run_callback cb).
Proof. destruct cb; unfold run_callback; preserving. Qed.

Lemma preserves_react ev : preserves (react ev).
Proof.
  destruct ev as [value| |i p|action data|i]; unfold react.
  - container_kept.
  - apply preserves_sendChatMessage.
  - apply preserves_bind; [container_kept|].
    intros [c|]; [|apply preserves_ret].
    apply preserves_bind; [apply preserves_settle|intros _; apply preserves_ret].
  - apply preserves_bind; [apply preserves_handle|intros _; apply preserves_ret].
  - apply preserves_bind; [container_kept|].
    intros [[d cb]|]; [apply preserves_run_callback|apply preserves_ret].
Qed.

Lemma reachable_single_banner st : reachable st -> single_banner st.
Proof.
  induction 1 as [|ev st R IH].
  - unfold single_banner. simpl. lia.
  - apply (preserves_react ev st IH).
Qed.

(** C8. On every page the script can reach there is at most one banner.
    There [addStatusMessage] leaves exactly one banner, the new one, and
    [removeStatusMessage] without a banner changes nothing and throws
    nothing; after one removal there is no banner and a second removal is
    such a no-op. *)
Theorem banner_is_singleton st :
  reachable st ->
  List.length (banners st) <= 1
  /\ (forall message type,
        exists st', addStatusMessage message type st = Return (next_uid st) st'
                    /\ banners st' = [banner (next_uid st) message type])
  /\ (banners st = [] -> removeStatusMessage st = Return tt st)
  /\ (exists st', removeStatusMessage st = Return tt st'
                  /\ banners st' = []
                  /\ removeStatusMessage st' = Return tt st').
Proof.
  intros R. pose proof (reachable_single_banner st R) as H.
  split; [exact H|]. unfold single_banner, banners in H. repeat split.
  - intros message type. eexists. split; [apply addStatusMessage_eq|].
    unfold banners. cbn -[banner remove_banner is_banner u].
    now rewrite filter_app, (remove_banner_none _ H).
  - intros E. rewrite removeStatusMessage_eq. unfold after_removeStatus.
    unfold banners in E. rewrite (remove_banner_absent _ E).
    now rewrite with_children_same.
  - exists (after_removeStatus st). split; [apply removeStatusMessage_eq|].
    assert (E : banners (after_removeStatus st) = [])
      by apply (remove_banner_none _ H).
    split; [exact E|]. rewrite removeStatusMessage_eq. f_equal.
    unfold after_removeStatus at 1. unfold banners in E.
    rewrite (remove_banner_absent _ E). apply with_children_same.
Qed.

(** *** Quoting and reading back a string *)

Local Open Scope N_scope.

Lemma hex_value_digit d : d < 16 -> hex_value (hex_digit d) = Some d.
Proof.
  intros H.
  assert (d = 0 \/ d = 1 \/ d = 2 \/ d = 3 \/ d = 4 \/ d = 5 \/ d = 6 \/ d = 7
          \/ d = 8 \/ d = 9 \/ d = 10 \/ d = 11 \/ d = 12 \/ d = 13 \/ d = 14
          \/ d = 15) as E by lia.
  repeat (destruct E as [->|E]; [reflexivity|]). now subst.
Qed.

Lemma hex_digits_value c :
  c < 65536 ->
  4096 * ((c / 4096) mod 16) + 256 * ((c / 256) mod 16) + 16 * ((c / 16) mod 16)
  + c mod 16 = c.
Proof.
  intros H.
  replace (c / 256) with (c / 16 / 16) by (now rewrite N.Div0.div_div).
  replace (c / 4096) with (c / 16 / 16 / 16) by (now rewrite !N.Div0.div_div).
  pose proof (N.div_mod c 16) as E1.
  pose proof (N.div_mod (c / 16) 16) as E2.
  pose proof (N.div_mod (c / 16 / 16) 16) as E3.
  assert (c / 16 / 16 / 16 < 16) as B.
  { rewrite !N.Div0.div_div. apply N.Div0.div_lt_upper_bound. exact H. }
  rewrite (N.mod_small _ _ B). lia.
Qed.

Lemma hex4_value_escape c :
  c < 65536 ->
  hex4_value (hex_digit ((c / 4096) mod 16)) (hex_digit ((c / 256) mod 16))
    (hex_digit ((c / 16) mod 16)) (hex_digit (c mod 16)) = Some c.
Proof.
  intros H. unfold hex4_value.
  rewrite !hex_value_digit by (apply N.mod_lt; discriminate).
  now rewrite (hex_digits_value c H).
Qed.

(** Reading back an escape [\uXXXX]. *)
Lemma parse_unicode_escape c t s rest :
  c < 65536 ->
  parse_string_chars t = Some (s, rest) ->
  parse_string_chars (unicode_escape c ++ t) = Some (c :: s, rest).
Proof.
  intros H E. unfold unicode_escape. cbn -[hex4_value N.div N.modulo hex_digit].
  now rewrite (hex4_value_escape c H), E.
Qed.

(** Reading back a code unit that is quoted as it is, or by a two-character
    escape, or by [\uXXXX]. *)
Lemma parse_quote_unit c t s rest :
  is_high_surrogate c = false ->
  parse_string_chars t = Some (s, rest) ->
  parse_string_chars (quote_unit c ++ t) = Some (c :: s, rest).
Proof.
  intros Hh E. unfold quote_unit.
  destruct (N.eqb_spec c 8) as [->|N8]; [cbn; now rewrite E|].
  destruct (N.eqb_spec c 9) as [->|N9]; [cbn; now rewrite E|].
  destruct (N.eqb_spec c 10) as [->|N10]; [cbn; now rewrite E|].
  destruct (N.eqb_spec c 12) as [->|N12]; [cbn; now rewrite E|].
  destruct (N.eqb_spec c 13) as [->|N13]; [cbn; now rewrite E|].
  destruct (N.eqb_spec c 34) as [->|N34]; [cbn; now rewrite E|].
  destruct (N.eqb_spec c 92) as [->|N92]; [cbn; now rewrite E|].
  rewrite Hh. simpl orb.
  destruct (N.ltb_spec c 32) as [L|L]; simpl orb.
  { apply parse_unicode_escape; [lia|exact E]. }
  destruct (is_low_surrogate c) eqn:Hl.
  { apply parse_unicode_escape; [|exact E].
    unfold is_low_surrogate in Hl. apply andb_true_iff in Hl as [_ Hl].
    apply N.leb_le in Hl. lia. }
  cbn [app parse_string_chars]. unfold dq, backslash.
  destruct (N.eqb_spec c 34); [contradiction|].
  destruct (N.eqb_spec c 92); [contradiction|].
  destruct (N.ltb_spec c 32); [lia|]. now rewrite E.
Qed.

Lemma parse_verbatim c t s rest :
  32 <= c -> c <> 34 -> c <> 92 ->
  parse_string_chars t = Some (s, rest) ->
  parse_string_chars (c :: t) = Some (c :: s, rest).
Proof.
  intros L N34 N92 E. cbn [parse_string_chars]. unfold dq, backslash.
  destruct (N.eqb_spec c 34); [contradiction|].
  destruct (N.eqb_spec c 92); [contradiction|].
  destruct (N.ltb_spec c 32); [lia|]. now rewrite E.
Qed.

(** What [QuoteJSONString] writes between the quotation marks reads back
    as the string. *)
Lemma parse_quote_chars s rest :
  parse_string_chars (quote_chars s ++ dq :: rest) = Some (s, rest).
Proof using Type.
  clear random36 clock Number_isFinite Number_toString StringToNumber.
  assert (G : forall n s, (List.length s <= n)%nat ->
              parse_string_chars (quote_chars s ++ dq :: rest) = Some (s, rest)).
  { clear s. induction n as [|n IH]; intros [|c r] L; simpl in L; try reflexivity; try lia.
    assert (IHr : parse_string_chars (quote_chars r ++ dq :: rest) = Some (r, rest))
      by (apply IH; lia).
    cbn [quote_chars].
    destruct (is_high_surrogate c) eqn:Hh.
    - assert (Hc : 32 <= c /\ c <> 34 /\ c <> 92 /\ c < 65536).
      { unfold is_high_surrogate in Hh. apply andb_true_iff in Hh as [H1 H2].
        apply N.leb_le in H1, H2. lia. }
      destruct r as [|lo r'].
      + apply parse_unicode_escape; [tauto|reflexivity].
      + destruct (is_low_surrogate lo) eqn:Hl.
        * assert (Hlo : 32 <= lo /\ lo <> 34 /\ lo <> 92).
          { unfold is_low_surrogate in Hl. apply andb_true_iff in Hl as [H1 H2].
            apply N.leb_le in H1, H2. lia. }
          cbn [app].
          apply parse_verbatim; try tauto.
          apply parse_verbatim; try tauto.
          apply IH. simpl in L. lia.
        * rewrite <- app_assoc. now apply parse_unicode_escape.
    - rewrite <- app_assoc. now apply parse_quote_unit. }
  apply (G (List.length s)). lia.
Qed.

Local Close Scope N_scope.

(** *** The budget of [JSON_parse] is never used up *)

Lemma skip_ws_length s : List.length (skip_ws s) <= List.length s.
Proof.
  induction s as [|c s IH]; simpl; [lia|]. destruct (is_json_ws c); simpl; lia.
Qed.

Lemma span_digits_length s : List.length (snd (span_digits s)) <= List.length s.
Proof.
  induction s as [|c s IH]; simpl; [lia|].
  destruct (is_digit c); simpl; [|lia].
  destruct (span_digits s) as [d r]. simpl in *. lia.
Qed.

Lemma strip_prefix_length p s rest :
  strip_prefix p s = Some rest -> List.length rest + List.length p = List.length s.
Proof.
  revert s. induction p as [|x p IH]; intros [|y s]; simpl; intros H;
    try discriminate; try (injection H as <-; simpl; lia).
  destruct (N.eqb x y); [|discriminate]. apply IH in H. lia.
Qed.

(** A string literal takes at least its closing quotation mark. *)
Lemma parse_string_chars_length s t rest :
  parse_string_chars s = Some (t, rest) -> List.length rest < List.length s.
Proof.
  assert (G : forall n s t rest, List.length s <= n ->
              parse_string_chars s = Some (t, rest) -> List.length rest < List.length s).
  { clear. induction n as [|n IH]; intros [|c r] t rest L H; simpl in L;
      try discriminate; try lia.
    cbn [parse_string_chars] in H.
    destruct (N.eqb c dq); [injection H as <- <-; simpl; lia|].
    destruct (N.eqb c backslash).
    - destruct r as [|e r1]; [discriminate|]. simpl in L.
      assert (S1 : forall x, match parse_string_chars r1 with
                             | Some (t0, rest0) => Some (x :: t0, rest0)
                             | None => None
                             end = Some (t, rest) ->
                             List.length rest < List.length (c :: e :: r1)).
      { intros x E. destruct (parse_string_chars r1) as [[t0 rest0]|] eqn:P;
          [|discriminate].
        injection E as <- <-. apply IH in P; simpl; lia. }
      repeat match type of H with
             | (if ?b then _ else _) = _ => destruct b; [now apply S1 in H|]
             end.
      destruct (N.eqb e 117%N); [|discriminate].
      destruct r1 as [|h1 [|h2 [|h3 [|h4 r2]]]]; try discriminate.
      destruct (hex4_value h1 h2 h3 h4); [|discriminate].
      destruct (parse_string_chars r2) as [[t0 rest0]|] eqn:P; [|discriminate].
      injection H as <- <-. apply IH in P; simpl in *; lia.
    - destruct (N.ltb c 32%N); [discriminate|].
      destruct (parse_string_chars r) as [[t0 rest0]|] eqn:P; [|discriminate].
      injection H as <- <-. apply IH in P; simpl; lia. }
  apply (G (List.length s)). lia.
Qed.

Ltac split_innermost H :=
  match type of H with
  | context [is_digit ?c] => destruct (is_digit c) eqn:?
  | context [match ?x with _ => _ end] =>
      lazymatch x with
      | context [match _ with _ => _ end] => fail
      | span_digits ?r =>
          let L := fresh "L" in
          let d := fresh "d" in
          let r' := fresh "r" in
          pose proof (span_digits_length r) as L;
          destruct (span_digits r) as [d r']; simpl in L
      | _ => destruct x
      end
  end.

(** A number literal takes at least one digit. *)
Lemma lex_number_length s lexeme rest :
  lex_number s = Some (lexeme, rest) -> List.length rest < List.length s.
Proof.
  unfold lex_number. intros H. simpl in H.
  repeat (split_innermost H; simpl in H; try discriminate).
  all: injection H as <- <-; simpl in *; lia.
Qed.

Tactic Notation "after_ws" constr(x) "as" ident(c) ident(r) :=
  let L := fresh "L" in
  pose proof (skip_ws_length x) as L;
  destruct (skip_ws x) as [|c r]; simpl in L.

Lemma expect_fuel lit v s : expect lit v s <> PFuel.
Proof. unfold expect. now destruct (strip_prefix (u lit) s). Qed.

(** Every function of the descent consumes input when it succeeds, and a
    budget of twice the length of the input, and one or two more, is not
    used up. *)
Lemma parse_fuel fuel :
  (forall s v rest, parse_value fuel s = POk v rest -> List.length rest < List.length s)
  /\ (forall s acc v rest,
        parse_elements fuel s acc = POk v rest -> List.length rest < List.length s)
  /\ (forall s acc v rest,
        parse_members fuel s acc = POk v rest -> List.length rest < List.length s)
  /\ (forall s, 2 * List.length s + 1 <= fuel -> parse_value fuel s <> PFuel)
  /\ (forall s acc, 2 * List.length s + 2 <= fuel -> parse_elements fuel s acc <> PFuel)
  /\ (forall s acc, 2 * List.length s + 2 <= fuel -> parse_members fuel s acc <> PFuel).
Proof.
  induction fuel as [|f (V & E & Mb & FV & FE & FM)].
  { repeat split; intros; simpl in *; try discriminate; lia. }
  assert (V' : forall s v rest,
             parse_value (Datatypes.S f) s = POk v rest ->
             List.length rest < List.length s).
  { intros s v rest H. cbn [parse_value] in H. after_ws s as c l; [discriminate|].
    destruct (N.eqb c 123%N).
    { after_ws l as c0 l0; [discriminate|]. destruct (N.eqb c0 125%N).
      - injection H as _ <-. lia.
      - apply Mb in H. simpl in H. lia. }
    destruct (N.eqb c 91%N).
    { after_ws l as c0 l0; [discriminate|]. destruct (N.eqb c0 93%N).
      - injection H as _ <-. lia.
      - apply E in H. simpl in H. lia. }
    destruct (N.eqb c dq).
    { destruct (parse_string_chars l) as [[t r]|] eqn:P; [|discriminate].
      injection H as _ <-. apply parse_string_chars_length in P. lia. }
    destruct (N.eqb c 116%N).
    { unfold expect in H. destruct (strip_prefix (u "true") (c :: l)) eqn:P;
        [|discriminate].
      injection H as _ <-. apply strip_prefix_length in P. simpl in *. lia. }
    destruct (N.eqb c 102%N).
    { unfold expect in H. destruct (strip_prefix (u "false") (c :: l)) eqn:P;
        [|discriminate].
      injection H as _ <-. apply strip_prefix_length in P. simpl in *. lia. }
    destruct (N.eqb c 110%N).
    { unfold expect in H. destruct (strip_prefix (u "null") (c :: l)) eqn:P;
        [|discriminate].
      injection H as _ <-. apply strip_prefix_length in P. simpl in *. lia. }
    destruct (lex_number (c :: l)) as [[lexeme r]|] eqn:P; [|discriminate].
    injection H as _ <-. apply lex_number_length in P. simpl in *. lia. }
  assert (E' : forall s acc v rest,
             parse_elements (Datatypes.S f) s acc = POk v rest ->
             List.length rest < List.length s).
  { intros s acc v rest H. cbn [parse_elements] in H.
    destruct (parse_value f s) as [v0 rest0| |] eqn:P; try discriminate.
    apply V in P. after_ws rest0 as c l; [discriminate|].
    destruct (N.eqb c 44%N); [apply E in H; lia|].
    destruct (N.eqb c 93%N); [|discriminate]. injection H as _ <-. lia. }
  assert (M' : forall s acc v rest,
             parse_members (Datatypes.S f) s acc = POk v rest ->
             List.length rest < List.length s).
  { intros s acc v rest H. cbn [parse_members] in H. after_ws s as c l; [discriminate|].
    destruct (N.eqb c dq); [|discriminate].
    destruct (parse_string_chars l) as [[k r]|] eqn:P; [|discriminate].
    apply parse_string_chars_length in P. after_ws r as c0 l0; [discriminate|].
    destruct (N.eqb c0 58%N); [|discriminate].
    destruct (parse_value f l0) as [v0 rest0| |] eqn:Q; try discriminate.
    apply V in Q. after_ws rest0 as c1 l1; [discriminate|].
    destruct (N.eqb c1 44%N); [apply Mb in H; lia|].
    destruct (N.eqb c1 125%N); [|discriminate]. injection H as _ <-. lia. }
  repeat split; try assumption.
  - intros s B. cbn [parse_value]. after_ws s as c l; [discriminate|].
    destruct (N.eqb c 123%N).
    { after_ws l as c0 l0; [discriminate|]. destruct (N.eqb c0 125%N); [discriminate|].
      apply FM. simpl. lia. }
    destruct (N.eqb c 91%N).
    { after_ws l as c0 l0; [discriminate|]. destruct (N.eqb c0 93%N); [discriminate|].
      apply FE. simpl. lia. }
    destruct (N.eqb c dq); [now destruct (parse_string_chars l) as [[t r]|]|].
    destruct (N.eqb c 116%N); [apply expect_fuel|].
    destruct (N.eqb c 102%N); [apply expect_fuel|].
    destruct (N.eqb c 110%N); [apply expect_fuel|].
    now destruct (lex_number (c :: l)) as [[lexeme r]|].
  - intros s acc B. cbn [parse_elements].
    pose proof (FV s) as NF.
    destruct (parse_value f s) as [v0 rest0| |] eqn:P; try discriminate.
    + apply V in P. after_ws rest0 as c l; [discriminate|].
      destruct (N.eqb c 44%N); [apply FE; lia|].
      now destruct (N.eqb c 93%N).
    + exfalso. apply NF; [lia|reflexivity].
  - intros s acc B. cbn [parse_members]. after_ws s as c l; [discriminate|].
    destruct (N.eqb c dq); [|discriminate].
    destruct (parse_string_chars l) as [[k r]|] eqn:P; [|discriminate].
    apply parse_string_chars_length in P. after_ws r as c0 l0; [discriminate|].
    destruct (N.eqb c0 58%N); [|discriminate].
    pose proof (FV l0) as NF.
    destruct (parse_value f l0) as [v0 rest0| |] eqn:Q; try discriminate.
    + apply V in Q. after_ws rest0 as c1 l1; [discriminate|].
      destruct (N.eqb c1 44%N); [apply FM; lia|].
      now destruct (N.eqb c1 125%N).
    + exfalso. apply NF; [lia|reflexivity].
Qed.

(** [JSON_parse] answers [None] only where the text is not JSON. *)
Lemma parse_value_fuel text : parse_value (parse_budget text) text <> PFuel.
Proof.
  destruct (parse_fuel (parse_budget text)) as (_ & _ & _ & F & _).
  apply F. unfold parse_budget. lia.
Qed.

(** *** Sending a command *)

Lemma sendChatMessage_eq st :
  trim (chatInput_value st) <> [] ->
  sendChatMessage st = Return tt (after_send st).
Proof.
  intros H. unfold sendChatMessage, after_send, envelope. unfold bind at 1. cbn [gets].
  destruct (trim (chatInput_value st)) as [|c cmd] eqn:E; [contradiction|].
  rewrite (bind_Return _ _ _ _ _ (addMessage_eq _ _ _)).
  cbn [bind set_chatInput_value set_sendBtn_disabled modify].
  rewrite (bind_Return _ _ _ _ _ (addStatusMessage_eq _ _ _)).
  reflexivity.
Qed.

(** The serialized envelope reads back as the object it was made from,
    whatever the three strings are. *)
Lemma envelope_roundtrip a b c :
  let obj := JObject [(u "command", JString a); (u "timestamp", JString b);
                      (u "sessionId", JString c)] in
  JSON_parse (JSON_stringify obj) = Some obj.
Proof.
  intros obj. unfold JSON_parse.
  assert (T : JSON_stringify obj =
              u "{" ++ quoted "command" ++ u ":" ++ dq :: quote_chars a
              ++ dq :: u "," ++ quoted "timestamp" ++ u ":" ++ dq :: quote_chars b
              ++ dq :: u "," ++ quoted "sessionId" ++ u ":" ++ dq :: quote_chars c
              ++ dq :: u "}").
  { cbn. repeat (rewrite <- app_assoc; cbn). reflexivity. }
  rewrite T. clear T.
  match goal with
  | |- context [parse_budget ?t] =>
      assert (F : exists k, parse_budget t = 5 + k)
        by (exists (parse_budget t - 5); unfold parse_budget; cbn; lia)
  end.
  destruct F as [k ->]. cbn -[quote_chars].
  rewrite parse_quote_chars. cbn -[quote_chars].
  rewrite parse_quote_chars. cbn -[quote_chars].
  rewrite parse_quote_chars. reflexivity.
Qed.

(** *** The reactions to the bridge promise *)

(** Whatever the first two reactions do, and however the promise settled,
    the chain ends with the button enabled. *)
Lemma finally_enables {A B} (f : A -> M B) (g : Exn -> M B) (p : Promise A) st :
  exists q st',
    reactions f g on_finally p st = Return q st' /\ sendBtn_disabled st' = false.
Proof.
  unfold reactions, bind, promise_then, promise_catch, promise_finally, on_finally.
  destruct p as [a|e].
  - destruct (f a st) as [b st1|e st1]; [simpl; eauto|].
    destruct (g e st1) as [b st2|e' st2]; simpl; eauto.
  - destruct (g e st) as [b st2|e' st2]; simpl; eauto.
Qed.

(** The same at the level of events: when an outstanding bridge call
    settles, the page that results has the button enabled. *)
Lemma step_settle_enables i p st :
  i < List.length (bridge st) ->
  sendBtn_disabled (step (Settle i p) st) = false.
Proof.
  intros L. unfold step, react, bind, take_call.
  destruct (nth_error (bridge st) i) as [c|] eqn:E.
  - match goal with
    | |- context [settle p ?x] =>
        destruct (finally_enables on_fulfilled on_rejected p x) as (q & st' & R & D)
    end.
    unfold settle. rewrite R. exact D.
  - apply nth_error_None in E. lia.
Qed.

(** C2. A command that is not blank after trimming is sent: the button is
    disabled and one bridge call is made.  When the promise of the call
    settles, fulfilled or rejected, on whatever page [st2] there is by
    then, the chain of reactions ends with the button enabled; this holds
    for any first two reactions, also ones that throw. *)
Theorem send_button_reenabled st :
  trim (chatInput_value st) <> [] ->
  exists st1 call,
    sendChatMessage st = Return tt st1
    /\ sendBtn_disabled st1 = true
    /\ bridge st1 = bridge st ++ [call]
    /\ (forall (p : Promise str) st2,
          exists q st3, settle p st2 = Return q st3 /\ sendBtn_disabled st3 = false)
    /\ (forall (f : str -> M unit) (g : Exn -> M unit) (p : Promise str) st2,
          exists q st3,
            reactions f g on_finally p st2 = Return q st3
            /\ sendBtn_disabled st3 = false).
Proof.
  intros H. eexists _, _. split; [apply (sendChatMessage_eq st H)|].
  split; [reflexivity|]. split; [reflexivity|]. split.
  - intros p st2. apply finally_enables.
  - intros f g p st2. apply finally_enables.
Qed.

(** C9. For a command that is not blank after trimming, [sendChatMessage]
    makes one bridge call, on the channel [aiCommand]; its payload is the
    serialization of an object that reads back with exactly the fields
    [command], [timestamp] and [sessionId], in this order: the trimmed
    input, the display string [Date: D/M/YYYY, Time: H:M:S] of a reading of
    the clock (month counted from 1), and [session_], nine characters at
    most of a reading of the random source taken during this send, [_] and
    the epoch time of a reading of the clock. *)
Theorem outbound_envelope st :
  trim (chatInput_value st) <> [] ->
  exists st' payload,
    sendChatMessage st = Return tt st'
    /\ bridge st' = bridge st ++ [mkCall (u "aiCommand") payload]
    /\ payload = JSON_stringify (envelope st)
    /\ JSON_parse payload =
         Some (JObject
                 [(u "command", JString (trim (chatInput_value st)));
                  (u "timestamp", JString (date_string (clock (1 + readings st))));
                  (u "sessionId",
                   JString (u "session_"
                            ++ substr 2 9 (random36 (2 + readings st))
                            ++ u "_" ++ decimal (getTime (clock (3 + readings st)))))]).
Proof.
  intros H. eexists _, _. split; [apply (sendChatMessage_eq st H)|].
  split; [reflexivity|]. split; [reflexivity|].
  apply envelope_roundtrip.
Qed.

(** ** Further properties *)

(** *** Keeping a property of the page *)

Lemma keeps_ret {A} I (a : A) : keeps I (ret a).
Proof. now intros st H. Qed.

Lemma keeps_throw {A} I e : keeps I (@throw A e).
Proof. now intros st H. Qed.

Lemma keeps_bind {A B} I (c : M A) (k : A -> M B) :
  keeps I c -> (forall a, keeps I (k a)) -> keeps I (bind c k).
Proof.
  intros Hc Hk st H. unfold bind. specialize (Hc st H).
  destruct (c st) as [a st1|e st1]; simpl in *; [now apply Hk|assumption].
Qed.

Lemma keeps_try_catch {A} I (c : M A) (h : Exn -> M A) :
  keeps I c -> (forall e, keeps I (h e)) -> keeps I (try_catch c h).
Proof.
  intros Hc Hh st H. unfold try_catch. specialize (Hc st H).
  destruct (c st) as [a st1|e st1]; simpl in *; [assumption|now apply Hh].
Qed.

Lemma keeps_lift_sum {A} I (r : Exn + A) : keeps I (lift_sum r).
Proof. now destruct r; intros st H. Qed.

Lemma keeps_lift_option {A} I e (r : option A) : keeps I (lift_option e r).
Proof. now destruct r; intros st H. Qed.

Lemma keeps_promise_then {A B} I (f : A -> M B) p :
  (forall a, keeps I (f a)) -> keeps I (promise_then f p).
Proof.
  intros Hf st H. unfold promise_then. destruct p as [a|e]; [|assumption].
  specialize (Hf a st H). now destruct (f a st).
Qed.

Lemma keeps_promise_catch {A} I (g : Exn -> M A) p :
  (forall e, keeps I (g e)) -> keeps I (promise_catch g p).
Proof.
  intros Hg st H. unfold promise_catch. destruct p as [a|e]; [assumption|].
  specialize (Hg e st H). now destruct (g e st).
Qed.

Lemma keeps_promise_finally {A} I (h : M unit) (p : Promise A) :
  keeps I h -> keeps I (promise_finally h p).
Proof.
  intros Hh st H. unfold promise_finally.
  specialize (Hh st H). now destruct (h st).
Qed.

(** *** Lists of elements *)

Lemma Forall_filter_keep {A} (P : A -> Prop) (f : A -> bool) l :
  Forall P l -> Forall P (filter f l).
Proof.
  induction 1 as [|x l Hx Hl IH]; simpl; [constructor|].
  destruct (f x); [constructor|]; assumption.
Qed.

Lemma NoDup_map_filter {A B} (g : A -> B) (f : A -> bool) l :
  NoDup (map g l) -> NoDup (map g (filter f l)).
Proof.
  induction l as [|x l IH]; simpl; intros H; [constructor|].
  inversion H as [|? ? Hn Hd]; subst. destruct (f x); simpl; [|auto].
  constructor; [|auto]. intros Hin. apply Hn.
  apply in_map_iff in Hin as (y & E & Hy). apply filter_In in Hy as [Hy _].
  apply in_map_iff. eauto.
Qed.

Lemma uid_unique (l : list Node) a b :
  NoDup (map uid l) -> In a l -> In b l -> uid a = uid b -> a = b.
Proof.
  induction l as [|x l IH]; simpl; intros H Ha Hb E; [contradiction|].
  inversion H as [|? ? Hn Hd]; subst.
  destruct Ha as [->|Ha], Hb as [->|Hb]; auto.
  - exfalso. apply Hn. rewrite E. now apply in_map.
  - exfalso. apply Hn. rewrite <- E. now apply in_map.
Qed.

(** Removing the elements of one identity leaves the bubbles alone when
    that identity is a banner's. *)
Lemma messages_without (target : nat) (l : list Node) :
  Forall (fun n => uid n = target -> is_banner n = true) l ->
  Forall (fun n => has_class (u "status-message") (className n) = is_banner n
                   /\ is_message n = negb (is_banner n)) l ->
  filter is_message (filter (fun n => negb (Nat.eqb (uid n) target)) l)
  = filter is_message l.
Proof.
  induction l as [|x l IH]; intros B C; simpl; [reflexivity|].
  inversion B as [|? ? Bx Bl]; inversion C as [|? ? [_ Cx] Cl]; subst.
  destruct (Nat.eqb_spec (uid x) target) as [E|E]; simpl.
  - rewrite Cx, (Bx E). simpl. auto.
  - destruct (is_message x); [f_equal|]; auto.
Qed.

(** *** Pages in order *)

Lemma aims_weaken l l' next next' t :
  next <= next' ->
  (forall target,
     Forall (fun n => uid n = target -> is_banner n = true) l ->
     target < next ->
     Forall (fun n => uid n = target -> is_banner n = true) l') ->
  aims_at_banner l next t -> aims_at_banner l' next' t.
Proof.
  unfold aims_at_banner. intros L W. destruct (snd t) as [|target]; [easy|].
  intros [B F]. split; [lia|]. now apply W.
Qed.

(** An element that is not on the page and takes a fresh identity. *)
Lemma grown_append m0 st (n : Node) next' :
  uid n = next_uid st ->
  next_uid st < next' ->
  has_class (u "status-message") (className n) = is_banner n ->
  is_message n = negb (is_banner n) ->
  grown_from m0 st ->
  forall st',
    messagesContainer st' = messagesContainer st ++ [n] ->
    next_uid st' = next' ->
    timers st' = timers st ->
    map node_view (messages st') = node_view welcome :: map entry_view (messageHistory st') ->
    grown_from m0 st'.
Proof.
  intros U L C1 C2 ((T1 & T2 & T3 & T4 & T5) & ex & G) st' EC EN ET EV.
  split; [repeat split|].
  - rewrite EC, EN. apply Forall_app. split.
    + eapply Forall_impl; [|exact T1]. simpl. intros; lia.
    + constructor; [lia|constructor].
  - rewrite EC, map_app. apply NoDup_app; [exact T2|repeat constructor; intros []|].
    intros a Ha [E|[]]. simpl in E. subst a.
    apply in_map_iff in Ha as (x & Ex & Hx).
    rewrite Forall_forall in T1. specialize (T1 x Hx). lia.
  - rewrite EC. apply Forall_app. split; [exact T3|]. repeat constructor; assumption.
  - exact EV.
  - rewrite ET, EC, EN. eapply Forall_impl; [|exact T5]. intros t.
    apply aims_weaken; [lia|]. intros target F B. apply Forall_app. split; [exact F|].
    repeat constructor. intros E. lia.
  - exists (ex ++ filter is_message [n]). unfold messages in *.
    now rewrite EC, filter_app, G, app_assoc.
Qed.

(** The elements of one identity, a banner's, leave the page. *)
Lemma grown_drop m0 st target :
  Forall (fun n => uid n = target -> is_banner n = true) (messagesContainer st) ->
  grown_from m0 st ->
  grown_from m0
    (with_children st
       (filter (fun n => negb (Nat.eqb (uid n) target)) (messagesContainer st))).
Proof.
  intros B ((T1 & T2 & T3 & T4 & T5) & ex & G).
  assert (E : messages (with_children st
                (filter (fun n => negb (Nat.eqb (uid n) target)) (messagesContainer st)))
              = messages st) by apply (messages_without target _ B T3).
  split; [repeat split|].
  - now apply Forall_filter_keep.
  - now apply NoDup_map_filter.
  - now apply Forall_filter_keep.
  - rewrite E. exact T4.
  - simpl. eapply Forall_impl; [|exact T5]. intros t.
    apply aims_weaken; [lia|]. intros tg F _. now apply Forall_filter_keep.
  - exists ex. now rewrite E.
Qed.

Lemma grown_after_removeStatus m0 st :
  grown_from m0 st -> grown_from m0 (after_removeStatus st).
Proof.
  intros H. unfold after_removeStatus, remove_banner.
  destruct (find is_banner (messagesContainer st)) as [e|] eqn:F.
  - apply grown_drop; [|exact H]. apply find_some in F as [Hin Hb].
    destruct H as ((_ & T2 & _) & _). apply Forall_forall. intros n Hn E.
    now rewrite (uid_unique _ n e T2 Hn Hin E).
  - now rewrite with_children_same.
Qed.

Lemma bubble_shape i content type :
  type = u "user" \/ type = u "assistant" ->
  has_class (u "status-message") (className (bubble i content type))
  = is_banner (bubble i content type)
  /\ is_message (bubble i content type) = negb (is_banner (bubble i content type)).
Proof. intros [-> | ->]; split; reflexivity. Qed.

Lemma banner_shape i message type :
  type = u "loading" \/ type = u "success" \/ type = u "error" ->
  has_class (u "status-message") (className (banner i message type))
  = is_banner (banner i message type)
  /\ is_message (banner i message type) = negb (is_banner (banner i message type)).
Proof. intros [-> | [-> | ->]]; split; reflexivity. Qed.

Lemma grown_after_addMessage m0 content type st :
  type = u "user" \/ type = u "assistant" ->
  grown_from m0 st -> grown_from m0 (after_addMessage content type st).
Proof.
  intros Ht H. destruct (bubble_shape (next_uid st) content type Ht) as [C1 C2].
  apply (grown_append m0 st (bubble (next_uid st) content type) (3 + next_uid st));
    try assumption; try reflexivity; try lia.
  destruct H as ((_ & _ & _ & T4 & _) & _). unfold messages in *.
  cbn [after_addMessage messagesContainer messageHistory].
  rewrite filter_app, !map_app, T4. reflexivity.
Qed.

Lemma grown_after_addStatus m0 message type st :
  type = u "loading" \/ type = u "success" \/ type = u "error" ->
  grown_from m0 st -> grown_from m0 (after_addStatus message type st).
Proof.
  intros Ht H. apply (grown_after_removeStatus m0) in H.
  destruct (banner_shape (next_uid st) message type Ht) as [C1 C2].
  apply (grown_append m0 (after_removeStatus st) (banner (next_uid st) message type)
           (Datatypes.S (next_uid st)));
    try assumption; try reflexivity; try (simpl; lia).
  destruct H as ((_ & _ & _ & T4 & _) & _). unfold messages in *.
  cbn [after_addStatus messagesContainer messageHistory].
  cbn [after_removeStatus with_children messagesContainer messageHistory] in T4.
  rewrite filter_app, map_app, T4.
  replace (filter is_message [banner (next_uid st) message type]) with (@nil Node)
    by (destruct Ht as [-> | [-> | ->]]; reflexivity).
  now rewrite app_nil_r.
Qed.

(** A computation that leaves the container, the history, the timers and
    the element counter alone. *)
Lemma keeps_grown_frame {A} m0 (c : M A) :
  (forall st,
     messagesContainer (state_of (c st)) = messagesContainer st
     /\ messageHistory (state_of (c st)) = messageHistory st
     /\ timers (state_of (c st)) = timers st
     /\ next_uid (state_of (c st)) = next_uid st) ->
  keeps (grown_from m0) c.
Proof.
  intros E st H. destruct (E st) as (E1 & E2 & E3 & E4).
  unfold grown_from, tidy, messages in *. now rewrite E1, E2, E3, E4.
Qed.

Lemma keeps_grown_addMessage m0 content type :
  type = u "user" \/ type = u "assistant" ->
  keeps (grown_from m0) (addMessage content type).
Proof. intros Ht st H. rewrite addMessage_eq. now apply grown_after_addMessage. Qed.

Lemma keeps_grown_addStatusMessage m0 message type :
  type = u "loading" \/ type = u "success" \/ type = u "error" ->
  keeps (grown_from m0) (addStatusMessage message type).
Proof. intros Ht st H. rewrite addStatusMessage_eq. now apply grown_after_addStatus. Qed.

Lemma keeps_grown_removeStatusMessage m0 : keeps (grown_from m0) removeStatusMessage.
Proof. intros st H. rewrite removeStatusMessage_eq. now apply grown_after_removeStatus. Qed.

Lemma keeps_grown_fade_timer m0 delay : keeps (grown_from m0) (setTimeout FadeBanner delay).
Proof.
  intros st ((T1 & T2 & T3 & T4 & T5) & G). split; [repeat split|]; try assumption.
  simpl. apply Forall_app. split; [exact T5|]. now repeat constructor.
Qed.

Ltac frame_kept :=
  apply keeps_grown_frame; intros ?; repeat split; reflexivity.

Ltac literal_type :=
  first [ left; reflexivity | right; left; reflexivity | right; right; reflexivity
        | right; reflexivity ].

Ltac keeping_step :=
  lazymatch goal with
  | |- keeps _ (bind _ _) => apply keeps_bind; [|intros ?]
  | |- keeps _ (try_catch _ _) => apply keeps_try_catch; [|intros ?]
  | |- keeps _ (ret _) => apply keeps_ret
  | |- keeps _ (throw _) => apply keeps_throw
  | |- keeps _ (lift_sum _) => apply keeps_lift_sum
  | |- keeps _ (lift_option _ _) => apply keeps_lift_option
  | |- keeps _ (addMessage _ _) => apply keeps_grown_addMessage; literal_type
  | |- keeps _ removeStatusMessage => apply keeps_grown_removeStatusMessage
  | |- keeps _ (addStatusMessage _ _) => apply keeps_grown_addStatusMessage; literal_type
  | |- keeps _ (setTimeout FadeBanner _) => apply keeps_grown_fade_timer
  | |- keeps _ (console_write _ _) => frame_kept
  | |- keeps _ (fusionSendData _ _) => frame_kept
  | |- keeps _ (set_chatInput_value _) => frame_kept
  | |- keeps _ (set_sendBtn_disabled _) => frame_kept
  | |- keeps _ (gets _) => frame_kept
  | |- keeps _ new_Date => frame_kept
  | |- keeps _ Math_random_36 => frame_kept
  | |- keeps _ (if ?b then _ else _) => destruct b
  | |- keeps _ (match ?x with _ => _ end) => destruct x
  end.

Ltac keeping := repeat keeping_step.

Lemma keeps_grown_handleAIResponse m0 response :
  keeps (grown_from m0) (handleAIResponse response).
Proof. unfold handleAIResponse, status_is, JSON_parse_M, interpolate. keeping. Qed.

Lemma keeps_grown_handleAIUpdate m0 data : keeps (grown_from m0) (handleAIUpdate data).
Proof.
  unfold handleAIUpdate, JSON_parse_M.
  apply keeps_try_catch; [|intros e; apply keeps_grown_handleAIResponse].
  apply keeps_bind; [apply keeps_lift_option|].
  intros v. apply keeps_bind; [apply keeps_lift_sum|].
  intros text. apply keeps_grown_handleAIResponse.
Qed.

Lemma keeps_grown_updateMessage m0 data : keeps (grown_from m0) (updateMessage data).
Proof. unfold updateMessage, JSON_parse_M, interpolate. keeping. Qed.

Lemma keeps_grown_handle m0 action data : keeps (grown_from m0) (handle action data).
Proof.
  unfold handle.
  apply keeps_bind; [|intros [r|]; apply keeps_ret].
  apply keeps_try_catch; [|intros e; keeping].
  destruct (str_eqb action (u "updateMessage")).
  { apply keeps_bind; [apply keeps_grown_updateMessage|intros _; apply keeps_ret]. }
  destruct (str_eqb action (u "aiResponse")).
  { apply keeps_bind; [apply keeps_grown_handleAIUpdate|intros _; apply keeps_ret]. }
  keeping.
Qed.

Lemma keeps_grown_sendChatMessage m0 : keeps (grown_from m0) sendChatMessage.
Proof.
  unfold sendChatMessage, getDateString, generateSessionId, Date_now. keeping.
Qed.

Lemma keeps_grown_settle m0 p : keeps (grown_from m0) (settle p).
Proof.
  unfold settle, reactions. apply keeps_bind; [|intros p1; apply keeps_bind; [|intros p2]].
  - apply keeps_promise_then. intros r. unfold on_fulfilled.
    apply keeps_bind; [frame_kept|intros _; apply keeps_grown_handleAIResponse].
  - apply keeps_promise_catch. intros e. unfold on_rejected. keeping.
  - apply keeps_promise_finally. unfold on_finally. frame_kept.
Qed.

Lemma keeps_grown_sendInfoToFusion m0 : keeps (grown_from m0) sendInfoToFusion.
Proof. unfold sendInfoToFusion, getDateString. keeping. Qed.

Lemma keeps_grown_settle_info m0 p : keeps (grown_from m0) (settle_info p).
Proof.
  unfold settle_info. apply keeps_promise_then. intros r. unfold on_legacy_result.
  keeping.
Qed.

(** *** Timers on a page in order *)

Lemma Forall_remove_nth {A} (P : A -> Prop) i (l : list A) :
  Forall P l -> Forall P (remove_nth i l).
Proof.
  revert i. induction l as [|x l IH]; intros i H; [now destruct i|].
  inversion H; subst. destruct i; simpl; [assumption|]. constructor; auto.
Qed.

Lemma Forall_map_same {A} (P : A -> Prop) (f : A -> A) l :
  (forall x, P x -> P (f x)) -> Forall P l -> Forall P (map f l).
Proof. intros E. induction 1; simpl; constructor; auto. Qed.

Lemma grown_set_opacity m0 st target v :
  Forall (fun n => uid n = target -> is_banner n = true) (messagesContainer st) ->
  grown_from m0 st ->
  grown_from m0 (state_of (set_opacity target v st)).
Proof.
  intros B ((T1 & T2 & T3 & T4 & T5) & ex & G).
  set (upd := fun n : Node =>
                if Nat.eqb (uid n) target
                then mkNode (uid n) (className n) (id n) (body n) (Some v)
                else n).
  assert (U : forall n, uid (upd n) = uid n /\ className (upd n) = className n
                        /\ is_banner (upd n) = is_banner n
                        /\ is_message (upd n) = is_message n).
  { intros n. unfold upd. now destruct (Nat.eqb (uid n) target). }
  assert (E : filter is_message (map upd (messagesContainer st)) = messages st).
  { unfold messages. clear T1 T2 T4 T5 G.
    induction (messagesContainer st) as [|x l IH]; [reflexivity|].
    inversion B as [|? ? Bx Bl]; inversion T3 as [|? ? [_ Cx] Cl]; subst. simpl.
    destruct (U x) as (_ & _ & _ & Um). rewrite Um, (IH Bl Cl).
    destruct (is_message x) eqn:Mx; [|reflexivity]. f_equal. unfold upd.
    destruct (Nat.eqb_spec (uid x) target) as [Et|]; [|reflexivity].
    rewrite (Bx Et) in Cx. discriminate. }
  split; [repeat split|]; cbn [state_of set_opacity set_children modify messagesContainer
                                 next_uid messageHistory timers]; fold upd.
  - apply Forall_map_same; [|exact T1]. intros n Hn. now rewrite (proj1 (U n)).
  - rewrite map_map. erewrite map_ext; [exact T2|]. intros n. apply U.
  - apply Forall_map_same; [|exact T3]. intros n Hn.
    destruct (U n) as (_ & -> & -> & ->). exact Hn.
  - unfold messages. cbn [messagesContainer messageHistory]. rewrite E. exact T4.
  - eapply Forall_impl; [|exact T5]. intros t.
    apply aims_weaken; [lia|]. intros tg F _.
    apply Forall_map_same; [|exact F]. intros n Hn.
    destruct (U n) as (-> & _ & -> & _). exact Hn.
  - exists ex. unfold messages. cbn [messagesContainer]. now rewrite E.
Qed.

Lemma grown_take_timer m0 st i :
  grown_from m0 st -> grown_from m0 (state_of (take_timer i st)).
Proof.
  intros ((T1 & T2 & T3 & T4 & T5) & G). split; [repeat split|]; try assumption.
  simpl. now apply Forall_remove_nth.
Qed.

(** The element [querySelector] finds by the class [status-message] is the
    banner, and only it has its identity. *)
Lemma found_by_class_is_banner st e :
  tidy st ->
  find (fun n => has_class (u "status-message") (className n)) (messagesContainer st)
  = Some e ->
  In e (messagesContainer st) /\ is_banner e = true
  /\ Forall (fun n => uid n = uid e -> is_banner n = true) (messagesContainer st).
Proof.
  intros (T1 & T2 & T3 & _) F. apply find_some in F as [Hin Hc].
  assert (Hb : is_banner e = true).
  { rewrite Forall_forall in T3. destruct (T3 e Hin) as [C _]. now rewrite <- C. }
  repeat split; try assumption. apply Forall_forall. intros n Hn E.
  now rewrite (uid_unique _ n e T2 Hn Hin E).
Qed.

Lemma keeps_grown_fire m0 i :
  keeps (grown_from m0)
    (t <- take_timer i ;;
     match t with
     | Some (_, cb) => run_callback cb
     | None => ret tt
     end).
Proof.
  intros st H. unfold bind.
  assert (A : forall d target, nth_error (timers st) i = Some (d, RemoveElement target) ->
              Forall (fun n => uid n = target -> is_banner n = true) (messagesContainer st)).
  { intros d target E. destruct H as ((_ & _ & _ & _ & T5) & _).
    rewrite Forall_forall in T5. apply nth_error_In in E. now destruct (T5 _ E). }
  pose proof (grown_take_timer m0 st i H) as H1.
  change (take_timer i st) with
    (Return (nth_error (timers st) i) (state_of (take_timer i st))).
  cbv iota beta.
  destruct (nth_error (timers st) i) as [[d [|target]]|] eqn:E; [| |exact H1].
  - (* the fade *)
    unfold run_callback, bind, querySelector_class, gets.
    set (st1 := state_of (take_timer i st)) in *.
    destruct (find _ (messagesContainer st1)) as [e|] eqn:F; [|exact H1].
    destruct (found_by_class_is_banner st1 e (proj1 H1) F) as (Hin & Hb & Hu).
    pose proof (grown_set_opacity m0 st1 (uid e) (u "0") Hu H1) as H2.
    change (set_opacity (uid e) (u "0") st1) with
      (Return tt (state_of (set_opacity (uid e) (u "0") st1))).
    cbv iota beta.
    set (st2 := state_of (set_opacity (uid e) (u "0") st1)) in *.
    destruct H2 as ((T1 & T2 & T3 & T4 & T5) & G).
    split; [repeat split|]; try assumption.
    cbn [state_of setTimeout modify timers messagesContainer next_uid].
    apply Forall_app. split; [exact T5|]. repeat constructor.
    + destruct H1 as ((U1 & _) & _). rewrite Forall_forall in U1.
      apply (U1 e Hin).
    + subst st2. cbn [state_of set_opacity set_children modify messagesContainer].
      apply Forall_forall. intros n Hn E'. apply in_map_iff in Hn as (x & <- & Hx).
      rewrite Forall_forall in Hu.
      destruct (Nat.eqb_spec (uid x) (uid e)) as [Q|Q]; simpl in *;
        [exact (Hu x Hx Q)|exact (Hu x Hx E')].
  - (* the removal *)
    apply (grown_drop m0 (state_of (take_timer i st)) target); [|exact H1].
    exact (A d target eq_refl).
Qed.

(** *** Every page the script reaches is in order *)

Lemma keeps_grown_react m0 ev : keeps (grown_from m0) (react ev).
Proof.
  destruct ev as [value| |i p|action data|i]; unfold react.
  - frame_kept.
  - apply keeps_grown_sendChatMessage.
  - apply keeps_bind.
    + intros st ((T1 & T2 & T3 & T4 & T5) & G). split; [repeat split|]; assumption.
    + intros [c|]; [|apply keeps_ret].
      apply keeps_bind; [apply keeps_grown_settle|intros _; apply keeps_ret].
  - apply keeps_bind; [apply keeps_grown_handle|intros _; apply keeps_ret].
  - apply keeps_grown_fire.
Qed.

Lemma tidy_initial : tidy initial.
Proof.
  repeat split; simpl; repeat constructor; simpl; try lia; try (intros []).
Qed.

Lemma tidy_grown st : tidy st -> grown_from (messages st) st.
Proof. intros H. split; [exact H|]. exists []. now rewrite app_nil_r. Qed.

Lemma reachable_tidy st : reachable st -> tidy st.
Proof.
  induction 1 as [|ev st R IH]; [apply tidy_initial|].
  apply (keeps_grown_react (messages st) ev st (tidy_grown st IH)).
Qed.

Lemma find_same {A} (f g : A -> bool) l :
  Forall (fun x => f x = g x) l -> find f l = find g l.
Proof.
  induction 1 as [|x l E Hl IH]; simpl; [reflexivity|]. rewrite E, IH. reflexivity.
Qed.

(** X1. On every page the script reaches, the element found by the class
    [status-message], as the auto-dismiss timer looks it up, is the element
    found by the id [currentStatus], as [addStatusMessage] and
    [removeStatusMessage] look it up. *)
Theorem banner_found_by_class_or_id st :
  reachable st ->
  querySelector_class (u "status-message") st = getElementById (u "currentStatus") st.
Proof.
  intros R. destruct (reachable_tidy st R) as (_ & _ & T3 & _).
  unfold querySelector_class, getElementById, gets. f_equal.
  apply find_same. eapply Forall_impl; [|exact T3]. now intros n [C _].
Qed.

(** X2. On every page the script reaches, the bubbles are the welcome bubble
    followed by one bubble per entry of [messageHistory], in the same order,
    with the entry's content and the class and avatar of its role. *)
Theorem bubbles_match_history st :
  reachable st ->
  map node_view (messages st) = node_view welcome :: map entry_view (messageHistory st)
  /\ List.length (messages st) = Datatypes.S (List.length (messageHistory st)).
Proof.
  intros R. destruct (reachable_tidy st R) as (_ & _ & _ & T4 & _).
  split; [exact T4|].
  rewrite <- (length_map node_view), T4. simpl. now rewrite length_map.
Qed.

(** X3. No event removes or changes a bubble: after any event on a page the
    script reaches, the bubbles are those of before, the same elements in
    the same order, followed by the new ones. *)
Theorem bubbles_only_grow st ev :
  reachable st ->
  exists extra, messages (step ev st) = messages st ++ extra.
Proof.
  intros R. pose proof (reachable_tidy st R) as T.
  exact (proj2 (keeps_grown_react (messages st) ev st (tidy_grown st T))).
Qed.

(** *** The auto-dismiss timers *)

Lemma filter_map_commute {A} (p : A -> bool) (f : A -> A) l :
  (forall x, p (f x) = p x) -> filter p (map f l) = map f (filter p l).
Proof.
  intros E. induction l as [|x l IH]; simpl; [reflexivity|].
  rewrite E. destruct (p x); simpl; now rewrite IH.
Qed.

Lemma messages_faded target v (l : list Node) :
  Forall (fun n => uid n = target -> is_banner n = true) l ->
  Forall (fun n => has_class (u "status-message") (className n) = is_banner n
                   /\ is_message n = negb (is_banner n)) l ->
  filter is_message
    (map (fun n => if Nat.eqb (uid n) target
                   then mkNode (uid n) (className n) (id n) (body n) (Some v)
                   else n) l)
  = filter is_message l.
Proof.
  induction l as [|x l IH]; intros B C; [reflexivity|].
  inversion B as [|? ? Bx Bl]; inversion C as [|? ? [_ Cx] Cl]; subst. simpl.
  rewrite (IH Bl Cl).
  destruct (Nat.eqb_spec (uid x) target) as [Et|]; [|reflexivity].
  assert (Q : is_message x = false) by (rewrite Cx, (Bx Et); reflexivity).
  unfold is_message in *. simpl. now rewrite Q.
Qed.

(** X4. Auto-dismiss on a page the script reaches.  With a banner shown, the
    timer of [handleAIResponse] sets the opacity of that banner to [0] and
    schedules its removal 300 ms later; the removal leaves the page without
    banner; neither touches a bubble.  With no banner shown the timer does
    nothing. *)
Theorem auto_dismiss st :
  reachable st ->
  (forall b, banners st = [b] ->
     exists st1 st2,
       run_callback FadeBanner st = Return tt st1
       /\ banners st1 = [mkNode (uid b) (className b) (id b) (body b) (Some (u "0"))]
       /\ messages st1 = messages st
       /\ timers st1 = timers st ++ [(300%N, RemoveElement (uid b))]
       /\ run_callback (RemoveElement (uid b)) st1 = Return tt st2
       /\ banners st2 = []
       /\ messages st2 = messages st)
  /\ (banners st = [] -> run_callback FadeBanner st = Return tt st).
Proof.
  intros R. pose proof (reachable_tidy st R) as T.
  pose proof T as (T1 & T2 & T3 & T4 & T5).
  assert (F : find (fun n => has_class (u "status-message") (className n))
                (messagesContainer st) = hd_error (banners st)).
  { unfold banners. rewrite <- find_filter. apply find_same.
    eapply Forall_impl; [|exact T3]. now intros n [C _]. }
  split.
  - intros b Hb. rewrite Hb in F. simpl in F.
    destruct (found_by_class_is_banner st b T F) as (Hin & Hbb & Hu).
    set (upd := fun n : Node =>
                  if Nat.eqb (uid n) (uid b)
                  then mkNode (uid n) (className n) (id n) (body n) (Some (u "0"))
                  else n).
    assert (Ub : forall n, is_banner (upd n) = is_banner n).
    { intros n. unfold upd. now destruct (Nat.eqb (uid n) (uid b)). }
    assert (B1 : filter is_banner (map upd (messagesContainer st)) = [upd b]).
    { rewrite (filter_map_commute is_banner upd _ Ub). fold (banners st).
      now rewrite Hb. }
    assert (M1 : filter is_message (map upd (messagesContainer st)) = messages st)
      by apply (messages_faded (uid b) (u "0") _ Hu T3).
    eexists _, _. split.
    { unfold run_callback, bind, querySelector_class, gets. rewrite F. reflexivity. }
    cbn [messagesContainer timers banners messages state_of set_opacity set_children
           modify setTimeout]. fold upd.
    split. { unfold banners. cbn [messagesContainer]. rewrite B1. unfold upd.
             now rewrite Nat.eqb_refl. }
    split. { unfold messages at 1. cbn [messagesContainer]. exact M1. }
    split; [reflexivity|]. split; [reflexivity|].
    unfold banners, messages. cbn [state_of remove_element set_children modify
                                     messagesContainer].
    split.
    + rewrite filter_swap, B1. simpl. unfold upd at 1.
      rewrite Nat.eqb_refl. simpl. now rewrite Nat.eqb_refl.
    + rewrite messages_without; [exact M1| |].
      * apply Forall_map_same; [|exact Hu]. intros n Hn. unfold upd.
        destruct (Nat.eqb (uid n) (uid b)); exact Hn.
      * apply Forall_map_same; [|exact T3]. intros n Hn. unfold upd.
        destruct (Nat.eqb (uid n) (uid b)); exact Hn.
  - intros Hb. rewrite Hb in F. simpl in F.
    unfold run_callback, bind, querySelector_class, gets. now rewrite F.
Qed.

(** *** The response interpreter never throws *)

Lemma keeps_controls_leaf {A} c0 (c : M A) :
  (forall st, controls (state_of (c st)) = controls st) ->
  keeps (fun s => controls s = c0) c.
Proof. intros E st H. now rewrite E. Qed.

Ltac controls_leaf :=
  apply keeps_controls_leaf; intros ?;
  rewrite ?addMessage_eq, ?addStatusMessage_eq, ?removeStatusMessage_eq; reflexivity.

Ltac controls_step :=
  lazymatch goal with
  | |- keeps _ (bind _ _) => apply keeps_bind; [|intros ?]
  | |- keeps _ (try_catch _ _) => apply keeps_try_catch; [|intros ?]
  | |- keeps _ (lift_sum _) => apply keeps_lift_sum
  | |- keeps _ (lift_option _ _) => apply keeps_lift_option
  | |- keeps _ (if ?b then _ else _) => destruct b
  | |- keeps _ (match ?x with _ => _ end) => destruct x
  | |- keeps _ _ => controls_leaf
  end.

Ltac controls_kept := repeat controls_step.

Lemma keeps_controls_handleAIResponse c0 response :
  keeps (fun s => controls s = c0) (handleAIResponse response).
Proof. unfold handleAIResponse, status_is, JSON_parse_M, interpolate. controls_kept. Qed.

(** What is inside the [try] of [handleAIResponse] leaves the timers as they
    are. *)
Lemma keeps_timers_leaf {A} t0 (c : M A) :
  (forall st, timers (state_of (c st)) = timers st) ->
  keeps (fun s => timers s = t0) c.
Proof. intros E st H. now rewrite E. Qed.

Ltac timers_leaf :=
  apply keeps_timers_leaf; intros ?;
  rewrite ?addMessage_eq, ?addStatusMessage_eq, ?removeStatusMessage_eq; reflexivity.

Ltac timers_step :=
  lazymatch goal with
  | |- keeps _ (bind _ _) => apply keeps_bind; [|intros ?]
  | |- keeps _ (try_catch _ _) => apply keeps_try_catch; [|intros ?]
  | |- keeps _ (lift_sum _) => apply keeps_lift_sum
  | |- keeps _ (lift_option _ _) => apply keeps_lift_option
  | |- keeps _ (if ?b then _ else _) => destruct b
  | |- keeps _ (match ?x with _ => _ end) => destruct x
  | |- keeps _ _ => timers_leaf
  end.

Ltac timers_kept := repeat timers_step.

Lemma handleAIResponse_total response st :
  exists st',
    handleAIResponse response st = Return tt st'
    /\ timers st' = timers st ++ [(3000%N, FadeBanner)]
    /\ chatInput_value st' = chatInput_value st
    /\ sendBtn_disabled st' = sendBtn_disabled st
    /\ bridge st' = bridge st.
Proof.
  pose proof (keeps_controls_handleAIResponse (controls st) response st eq_refl) as C.
  unfold handleAIResponse in *.
  rewrite (bind_Return _ _ _ _ _ (removeStatusMessage_eq st)) in *.
  unfold bind at 1 in C. unfold bind at 1.
  match goal with
  | |- context [try_catch ?b ?h (after_removeStatus st)] =>
      set (body := b) in *; set (handler := h) in *
  end.
  assert (T : keeps (fun s => timers s = timers st) (try_catch body handler))
    by (subst body handler; unfold status_is, JSON_parse_M, interpolate; timers_kept).
  specialize (T (after_removeStatus st) eq_refl).
  assert (R : exists st1, try_catch body handler (after_removeStatus st) = Return tt st1).
  { unfold try_catch.
    destruct (body (after_removeStatus st)) as [[] st1|e st1]; [eauto|].
    subst handler. eexists. reflexivity. }
  destruct R as [st1 R]. rewrite R in *. simpl in T, C.
  eexists. split; [reflexivity|].
  cbn [timers chatInput_value sendBtn_disabled bridge setTimeout modify].
  unfold controls in C.
  cbn [setTimeout modify state_of chatInput_value sendBtn_disabled bridge] in C.
  injection C as C1 C2 C3. rewrite T. auto.
Qed.

(** X5. Whatever the reply, [handleAIResponse] returns without an exception;
    it schedules one auto-dismiss timer, three seconds out, and leaves the
    input, the send button and the outstanding bridge calls as they were. *)
Theorem handleAIResponse_returns response st :
  exists st',
    handleAIResponse response st = Return tt st'
    /\ timers st' = timers st ++ [(3000%N, FadeBanner)]
    /\ chatInput_value st' = chatInput_value st
    /\ sendBtn_disabled st' = sendBtn_disabled st
    /\ bridge st' = bridge st.
Proof. apply handleAIResponse_total. Qed.

(** *** Replies pushed by the host *)

Lemma handleAIUpdate_eq data st :
  handleAIUpdate data st = handleAIResponse (normalised data) st.
Proof.
  unfold handleAIUpdate, normalised, try_catch, bind, JSON_parse_M.
  destruct (JSON_parse data) as [v|]; simpl; [|reflexivity].
  unfold JSON_stringify_call. destruct (within_stack v); simpl; [|reflexivity].
  destruct (handleAIResponse_total (JSON_stringify v) st) as (st' & R & _).
  now rewrite R.
Qed.

(** X6. A reply pushed through the inbound handler is interpreted once, by
    [handleAIResponse]: as its decoded and re-serialized text when it is
    JSON that the engine manages to serialize again; as it is when it is
    not JSON, and also when it is JSON nested too deep, where
    [JSON.stringify] throws inside the [try].  The host gets ["OK"]. *)
Theorem pushed_reply_interpreted_once data st :
  (exists st',
     handleAIResponse (normalised data) st = Return tt st'
     /\ handleAIUpdate data st = Return tt st'
     /\ handle (u "aiResponse") data st = Return (u "OK") st')
  /\ (JSON_parse data = None -> normalised data = data)
  /\ (forall v, JSON_parse data = Some v ->
        nesting v <= Datatypes.S stringify_depth -> normalised data = JSON_stringify v)
  /\ (forall v, JSON_parse data = Some v ->
        Datatypes.S stringify_depth < nesting v -> normalised data = data).
Proof.
  split.
  - destruct (handleAIResponse_total (normalised data) st) as (st' & R & _).
    exists st'. split; [exact R|].
    assert (U : handleAIUpdate data st = Return tt st') by now rewrite handleAIUpdate_eq.
    split; [exact U|].
    unfold handle.
    change (str_eqb (u "aiResponse") (u "updateMessage")) with false.
    change (str_eqb (u "aiResponse") (u "aiResponse")) with true.
    cbv iota. unfold try_catch, bind. now rewrite U.
  - unfold normalised, within_stack. split; [now intros ->|]. split.
    + intros v -> L. apply Nat.leb_le in L. now rewrite L.
    + intros v -> L. apply Nat.leb_gt in L. now rewrite L.
Qed.



(** X8. An [updateMessage] push whose data is not JSON, or decodes to null,
    or has a field that does not convert to a string, shows nothing: the
    exception is logged with the action and the data, the rest of the page
    is as before, and the host gets ["OK"]. *)
Theorem update_push_rejected data st :
  JSON_parse data = None
  \/ JSON_parse data = Some JNull
  \/ (exists v, JSON_parse data = Some v /\ v <> JNull
                /\ (ToString_value (field p_myText v) = None
                    \/ ToString_value (field p_myExpression v) = None
                    \/ ToString_value (field p_myValue v) = None)) ->
  exists e,
    updateMessage data st = Throw e st
    /\ handle (u "updateMessage") data st =
         Return (u "OK")
           (after_console Log
              [LogStr (u "Exception caught with command: updateMessage, data: " ++ data)]
              (after_console Log [LogExn e] st)).
Proof.
  intros H.
  assert (T : exists e, updateMessage data st = Throw e st).
  { unfold updateMessage, bind, JSON_parse_M, interpolate.
    destruct H as [P|[P|(v & P & Hv & F)]]; rewrite P; cbn [lift_option throw ret].
    - eauto.
    - simpl. eauto.
    - rewrite !(get_property_field _ _ Hv). cbn [lift_sum ret].
      destruct (ToString_value (field p_myText v)); [|simpl; eauto].
      destruct (ToString_value (field p_myExpression v)); [|simpl; eauto].
      destruct (ToString_value (field p_myValue v)); [|simpl; eauto].
      destruct F as [F|[F|F]]; discriminate. }
  destruct T as [e T]. exists e. split; [exact T|].
  unfold handle.
  change (str_eqb (u "updateMessage") (u "updateMessage")) with true.
  cbv iota. unfold try_catch, bind. now rewrite T.
Qed.

(** *** The other branches of the response interpreter *)

Lemma banner_alone message type st :
  single_banner st ->
  let st' := after_setTimeout FadeBanner 3000
               (after_addStatus message type (after_removeStatus st)) in
  banners st' = [banner (next_uid st) message type]
  /\ messagesContainer st' =
       remove_banner (messagesContainer st) ++ [banner (next_uid st) message type]
  /\ messageHistory st' = messageHistory st.
Proof.
  intros H. unfold single_banner, banners in H.
  pose proof (remove_banner_none _ H) as E.
  cbn -[u banner remove_banner is_banner].
  unfold banners. cbn -[u banner remove_banner is_banner].
  rewrite (remove_banner_absent _ E). repeat split.
  rewrite filter_app, E. reflexivity.
Qed.

(** X9. A reply whose [status] is ["processing"] shows the loading banner
    [AI is processing your command...] in place of the banner there was, and
    appends no bubble and no history entry. *)
Theorem processing_reply_shown response v st :
  JSON_parse response = Some v ->
  strict_equals (field p_status v) (u "processing") = true ->
  single_banner st ->
  exists st',
    handleAIResponse response st = Return tt st'
    /\ banners st' = [banner (next_uid st) processing_text (u "loading")]
    /\ messagesContainer st' =
         remove_banner (messagesContainer st)
         ++ [banner (next_uid st) processing_text (u "loading")]
    /\ messageHistory st' = messageHistory st.
Proof.
  intros P S B.
  assert (Hv : v <> JNull) by now destruct v.
  assert (S1 : strict_equals (field p_status v) (u "success") = false).
  { destruct (field p_status v) as [[]|]; try discriminate.
    simpl in *. now apply (str_eqb_diff _ _ _ S). }
  assert (S2 : strict_equals (field p_status v) (u "error") = false).
  { destruct (field p_status v) as [[]|]; try discriminate.
    simpl in *. now apply (str_eqb_diff _ _ _ S). }
  eexists. split.
  - unfold handleAIResponse.
    rewrite (bind_Return _ _ _ _ _ (removeStatusMessage_eq st)).
    unfold try_catch, JSON_parse_M. unfold bind at 1 2. rewrite P; simpl.
    unfold bind at 1. rewrite (status_is_eq _ "success" _ Hv), S1.
    unfold bind at 1. rewrite (status_is_eq _ "error" _ Hv), S2.
    unfold bind at 1. rewrite (status_is_eq _ "processing" _ Hv), S.
    unfold bind at 1. rewrite addStatusMessage_eq. reflexivity.
  - apply (banner_alone processing_text (u "loading") st B).
Qed.



Lemma replace_no_underscore a :
  existsb (N.eqb 95) a = false -> replace (u "_") (u " ") a = a.
Proof.
  induction a as [|c a IH]; [reflexivity|]. simpl. intros H.
  apply orb_false_iff in H as [Hc Ha]. rewrite Hc. now rewrite (IH Ha).
Qed.

Lemma replace_first_underscore a b :
  existsb (N.eqb 95) a = false ->
  replace (u "_") (u " ") (a ++ 95%N :: b) = a ++ 32%N :: b.
Proof.
  induction a as [|c a IH]; [reflexivity|]. simpl. intros H.
  apply orb_false_iff in H as [Hc Ha]. rewrite Hc. now rewrite (IH Ha).
Qed.

(** X11. A reply whose [status] is ["success"] and whose [action] is a
    string shows the success banner and one assistant bubble.  Where the
    [parameters] are absent or nested no deeper than the engine manages,
    the bubble is [Created: <action> with parameters: <parameters>], with
    only the first underscore of the action replaced by a space and the
    parameters serialized, [undefined] when there are none.  Where they
    are nested deeper, [JSON.stringify] throws and the bubble holds the
    reply as it is. *)
Theorem success_reply_any_action response v a st :
  JSON_parse response = Some v ->
  strict_equals (field p_status v) (u "success") = true ->
  field p_action v = Some (JString a) ->
  single_banner st ->
  exists st' shown content,
    handleAIResponse response st = Return tt st'
    /\ banners st' = [banner (next_uid st) success_text (u "success")]
    /\ messagesContainer st' =
         remove_banner (messagesContainer st)
         ++ [banner (next_uid st) success_text (u "success");
             bubble (Datatypes.S (next_uid st)) content (u "assistant")]
    /\ (field p_parameters v = None ->
        content = u "Created: " ++ shown ++ u " with parameters: undefined")
    /\ (forall j, field p_parameters v = Some j ->
          nesting j <= Datatypes.S stringify_depth ->
          content = u "Created: " ++ shown ++ u " with parameters: " ++ JSON_stringify j)
    /\ (forall j, field p_parameters v = Some j ->
          Datatypes.S stringify_depth < nesting j ->
          content = response)
    /\ (existsb (N.eqb 95) a = false -> shown = a)
    /\ (forall x y, a = x ++ 95%N :: y -> existsb (N.eqb 95) x = false ->
                    shown = x ++ 32%N :: y).
Proof.
  intros P S A B.
  set (summary := u "Created: " ++ replace (u "_") (u " ") a ++ u " with parameters: "
                  ++ JSON_stringify_text (field p_parameters v)).
  set (content := if serializable (field p_parameters v) then summary else response).
  exists (after_setTimeout FadeBanner 3000
            (after_addMessage content (u "assistant")
               (after_addStatus success_text (u "success") (after_removeStatus st)))),
    (replace (u "_") (u " ") a), content.
  split.
  - subst content. destruct (serializable (field p_parameters v)) eqn:F.
    + apply (handleAIResponse_success _ _ a _ P S A F).
    + apply (handleAIResponse_success_overflow _ _ a _ P S A F).
  - destruct (banner_then_bubble content success_text (u "success") st B)
      as (B1 & B2 & B3).
    split; [exact B1|]. split; [exact B2|].
    subst content summary. unfold serializable, within_stack.
    split; [now intros ->|]. split; [|split; [|split]].
    + intros j -> L. apply Nat.leb_le in L. now rewrite L.
    + intros j -> L. apply Nat.leb_gt in L. now rewrite L.
    + apply replace_no_underscore.
    + intros x y -> Hx. now apply replace_first_underscore.
Qed.

(** *** Sending, once more *)

Lemma on_rejected_eq e st :
  on_rejected e st =
    Return tt
      (after_addMessage (u "Error communicating with Fusion 360. Please try again.")
         (u "assistant")
         (after_removeStatus
            (after_console Error [LogStr (u "Error sending AI command:"); LogExn e] st))).
Proof.
  unfold on_rejected. unfold bind at 1.
  change (console_write Error [LogStr (u "Error sending AI command:"); LogExn e] st)
    with (Return tt (after_console Error
                       [LogStr (u "Error sending AI command:"); LogExn e] st)).
  cbv iota beta.
  rewrite (bind_Return _ _ _ _ _ (removeStatusMessage_eq _)).
  apply addMessage_eq.
Qed.

(** X12. When the bridge promise is rejected, the error is logged, the
    banner leaves, one assistant bubble
    [Error communicating with Fusion 360. Please try again.] is appended and
    the button is enabled; the chain ends fulfilled, so nothing is left
    unhandled. *)
Theorem bridge_failure_shown e st :
  single_banner st ->
  let text := u "Error communicating with Fusion 360. Please try again." in
  exists st',
    settle (Rejected e) st = Return (Fulfilled tt) st'
    /\ banners st' = []
    /\ messagesContainer st' =
         remove_banner (messagesContainer st)
         ++ [bubble (next_uid st) text (u "assistant")]
    /\ messageHistory st' =
         messageHistory st ++ [mkEntry text (u "assistant") (clock (readings st))]
    /\ sendBtn_disabled st' = false
    /\ console st' =
         console st ++ [(Error, [LogStr (u "Error sending AI command:"); LogExn e])].
Proof.
  intros B text. unfold single_banner, banners in B.
  pose proof (remove_banner_none _ B) as E.
  exists (state_of
            (on_finally
               (after_addMessage text (u "assistant")
                  (after_removeStatus
                     (after_console Error
                        [LogStr (u "Error sending AI command:"); LogExn e] st))))).
  split.
  - unfold settle, reactions. unfold bind at 1. cbn [promise_then].
    unfold bind at 1. unfold promise_catch. rewrite on_rejected_eq.
    reflexivity.
  - unfold banners.
    cbn [state_of on_finally set_sendBtn_disabled modify after_addMessage
           after_removeStatus after_console with_children messagesContainer
           messageHistory sendBtn_disabled console next_uid readings].
    repeat split. rewrite filter_app, E. reflexivity.
Qed.

(** X13. Sending clears the input, so a second send right after the first
    does nothing: one command, one bridge call. *)
Theorem second_send_is_noop st :
  trim (chatInput_value st) <> [] ->
  exists st1,
    sendChatMessage st = Return tt st1
    /\ chatInput_value st1 = []
    /\ sendChatMessage st1 = Return tt st1.
Proof.
  intros H. exists (after_send st). split; [apply (sendChatMessage_eq st H)|].
  split; reflexivity.
Qed.

Lemma trim_start_split s :
  exists lead, s = lead ++ trim_start s /\ forallb is_whitespace lead = true.
Proof.
  induction s as [|c s (lead & E & W)]; [now exists []|]. simpl.
  destruct (is_whitespace c) eqn:C.
  - exists (c :: lead). simpl. rewrite C, W. split; [now f_equal|reflexivity].
  - now exists [].
Qed.

Lemma trim_start_head s c r : trim_start s = c :: r -> is_whitespace c = false.
Proof.
  induction s as [|x s IH]; simpl; [discriminate|].
  destruct (is_whitespace x) eqn:X; [exact IH|]. now intros [= <- _].
Qed.

Lemma forallb_rev {A} (f : A -> bool) l : forallb f (rev l) = forallb f l.
Proof.
  induction l as [|x l IH]; [reflexivity|]. simpl.
  rewrite forallb_app, IH. simpl. rewrite andb_true_r. apply andb_comm.
Qed.

(** What [trim] returns is the string without a run of whitespace at its
    start and one at its end, and starts and ends with other characters. *)
Lemma trim_split s :
  exists lead trail,
    s = lead ++ trim s ++ trail
    /\ forallb is_whitespace lead = true
    /\ forallb is_whitespace trail = true
    /\ (forall c r, trim s = c :: r ->
          is_whitespace c = false /\ is_whitespace (last (c :: r) c) = false).
Proof.
  destruct (trim_start_split s) as (lead & E1 & W1).
  destruct (trim_start_split (rev (trim_start s))) as (tl' & E2 & W2).
  exists lead, (rev tl'). unfold trim, trim_end.
  assert (E3 : trim_start s = rev (trim_start (rev (trim_start s))) ++ rev tl').
  { rewrite <- rev_app_distr, <- E2. now rewrite rev_involutive. }
  split; [now rewrite <- E3|]. split; [exact W1|].
  split; [now rewrite forallb_rev|].
  intros c r T. split.
  - rewrite T in E3. simpl in E3. apply (trim_start_head s c (r ++ rev tl')).
    exact E3.
  - destruct (trim_start (rev (trim_start s))) as [|x t] eqn:Q; [discriminate|].
    apply trim_start_head in Q. rewrite <- T. simpl. now rewrite last_last.
Qed.

Lemma last_any_default {A} (l : list A) d d' : l <> [] -> last l d = last l d'.
Proof.
  induction l as [|x [|y l] IH]; intros H; [contradiction|reflexivity|].
  change (last (y :: l) d = last (y :: l) d'). apply IH. discriminate.
Qed.

(** X14. An input that holds a character other than whitespace is sent, and
    the command sent is the input without its leading and trailing
    whitespace: it is not empty and neither starts nor ends with
    whitespace. *)
Theorem command_is_trimmed_input st :
  forallb is_whitespace (chatInput_value st) = false ->
  exists lead command trail,
    chatInput_value st = lead ++ command ++ trail
    /\ forallb is_whitespace lead = true
    /\ forallb is_whitespace trail = true
    /\ command <> []
    /\ is_whitespace (hd 0%N command) = false
    /\ is_whitespace (last command 0%N) = false
    /\ sendChatMessage st = Return tt (after_send st)
    /\ envelope st =
         JObject [(u "command", JString command);
                  (u "timestamp", JString (date_string (clock (1 + readings st))));
                  (u "sessionId",
                   JString (session_token (random36 (2 + readings st))
                              (clock (3 + readings st))))].
Proof.
  intros H. destruct (trim_split (chatInput_value st)) as (lead & trail & E & W1 & W2 & F).
  assert (N : trim (chatInput_value st) <> []).
  { intros Z. rewrite Z in E. simpl in E. rewrite E, forallb_app, W1, W2 in H.
    discriminate. }
  exists lead, (trim (chatInput_value st)), trail.
  destruct (trim (chatInput_value st)) as [|c r] eqn:T; [contradiction|].
  destruct (F c r eq_refl) as [F1 F2].
  repeat split; try assumption.
  - rewrite <- F2. f_equal. apply last_any_default. discriminate.
  - apply sendChatMessage_eq. rewrite T. discriminate.
  - unfold envelope. now rewrite T.
Qed.

(** *** The button and the outstanding calls *)

Lemma keeps_controls_handle c0 action data :
  keeps (fun s => controls s = c0) (handle action data).
Proof.
  unfold handle.
  apply keeps_bind; [|intros [r|]; controls_leaf].
  apply keeps_try_catch; [|intros e; controls_kept].
  destruct (str_eqb action (u "updateMessage")).
  { unfold updateMessage, JSON_parse_M, interpolate. controls_kept. }
  destruct (str_eqb action (u "aiResponse")).
  { apply keeps_bind; [|intros _; controls_leaf].
    unfold handleAIUpdate, JSON_parse_M.
    apply keeps_try_catch; [|intros e; apply keeps_controls_handleAIResponse].
    apply keeps_bind; [apply keeps_lift_option|].
    intros v. apply keeps_bind; [apply keeps_lift_sum|].
    intros text. apply keeps_controls_handleAIResponse. }
  controls_kept.
Qed.

Lemma keeps_controls_fire c0 i :
  keeps (fun s => controls s = c0)
    (t <- take_timer i ;;
     match t with
     | Some (_, cb) => run_callback cb
     | None => ret tt
     end).
Proof.
  apply keeps_bind; [controls_leaf|]. intros [[d [|target]]|]; unfold run_callback;
    controls_kept.
Qed.

Lemma remove_nth_beyond {A} i (l : list A) : nth_error l i = None -> remove_nth i l = l.
Proof.
  revert i. induction l as [|x l IH]; intros [|i] H; try reflexivity; [discriminate|].
  simpl in *. now rewrite (IH i H).
Qed.

Lemma sendChatMessage_blank st :
  trim (chatInput_value st) = [] -> sendChatMessage st = Return tt st.
Proof. intros H. unfold sendChatMessage, bind, gets. now rewrite H. Qed.

(** X15. On every page the script reaches, a disabled send button means a
    bridge call is outstanding: the button is disabled by a send only and
    enabled again when a call settles. *)
Theorem disabled_means_outstanding st :
  reachable st -> sendBtn_disabled st = true -> bridge st <> [].
Proof.
  induction 1 as [|ev st R IH]; [discriminate|].
  destruct ev as [value| |i p|action data|i]; unfold step, react.
  - exact IH.
  - destruct (trim (chatInput_value st)) as [|c r] eqn:T.
    + rewrite (sendChatMessage_blank st T). exact IH.
    + assert (N : trim (chatInput_value st) <> []) by (rewrite T; discriminate).
      rewrite (sendChatMessage_eq st N). simpl. intros _ Z.
      now apply app_eq_nil in Z as [_ Z].
  - unfold bind, take_call. cbv beta iota.
    destruct (nth_error (bridge st) i) as [c|] eqn:E.
    + match goal with
      | |- context [settle p ?x] =>
          destruct (finally_enables on_fulfilled on_rejected p x) as (q & st' & S & D)
      end.
      unfold settle. rewrite S. simpl. rewrite D. discriminate.
    + cbn [state_of ret sendBtn_disabled bridge].
      now rewrite (remove_nth_beyond i _ E).
  - pose proof (keeps_controls_handle (controls st) action data st eq_refl) as C.
    unfold bind. destruct (handle action data st) as [r st'|e st']; simpl in *;
      unfold controls in C; injection C as _ -> ->; exact IH.
  - pose proof (keeps_controls_fire (controls st) i st eq_refl) as C.
    unfold controls in C. injection C as _ -> ->. exact IH.
Qed.

(** *** The keyboard and the quick actions *)

(** X16. One [keydown] on the input sends at most once, though two
    listeners are registered: Enter sends when Ctrl is held or Shift is not,
    and then the default action is prevented; Shift+Enter without Ctrl and
    every other key leave the page alone. *)
Theorem keydown_sends_at_most_once event st :
  chatInput_keydown event st =
    if (str_eqb (key event) (u "Enter") && (ctrlKey event || negb (shiftKey event)))%bool
    then (true, state_of (sendChatMessage st))
    else (false, st).
Proof.
  unfold chatInput_keydown, on_ctrl_enter, on_enter.
  destruct (str_eqb (key event) (u "Enter")), (ctrlKey event), (shiftKey event);
    cbn [andb orb negb]; try reflexivity;
    unfold bind, ret; cbn [state_of prevented];
    destruct (sendChatMessage st) as [[] s1|e s1]; reflexivity.
Qed.

Lemma trim_blank s : trim s = [] -> forallb is_whitespace s = true.
Proof.
  intros T. destruct (trim_split s) as (lead & trail & E & W1 & W2 & _).
  rewrite T in E. rewrite E, forallb_app, W1. exact W2.
Qed.

(** Carriage returns and line feeds are whitespace both: normalizing the
    newlines of a text makes it neither blank nor visible. *)
Lemma normalize_whitespace s :
  forallb is_whitespace (normalize_newlines s) = forallb is_whitespace s.
Proof.
  assert (G : forall n s, (List.length s <= n)%nat ->
              forallb is_whitespace (normalize_newlines s) = forallb is_whitespace s).
  { clear s. induction n as [|n IH]; intros [|c r] L; simpl in L;
      try reflexivity; try lia.
    cbn [normalize_newlines]. destruct (N.eqb_spec c 13%N) as [->|C].
    - change (forallb is_whitespace (13%N :: r)) with (forallb is_whitespace r).
      destruct r as [|c' r']; [reflexivity|].
      destruct (N.eqb_spec c' 10%N) as [->|C'].
      + change (forallb is_whitespace (10%N :: r')) with (forallb is_whitespace r').
        change (forallb is_whitespace (10%N :: normalize_newlines r'))
          with (forallb is_whitespace (normalize_newlines r')).
        apply IH. simpl in L. lia.
      + change (forallb is_whitespace (10%N :: normalize_newlines (c' :: r')))
          with (forallb is_whitespace (normalize_newlines (c' :: r'))).
        apply IH. simpl in *. lia.
    - cbn [forallb]. f_equal. apply IH. lia. }
  apply (G (List.length s)). lia.
Qed.

Lemma normalize_visible command :
  trim command <> [] -> trim (normalize_newlines command) <> [].
Proof.
  intros H T. apply H, trim_whitespace.
  rewrite <- normalize_whitespace. now apply trim_blank.
Qed.

(** A text without carriage return is read back as it was written. *)
Lemma normalize_plain s :
  existsb (N.eqb 13) s = false -> normalize_newlines s = s.
Proof.
  induction s as [|c r IH]; [reflexivity|]. cbn [existsb normalize_newlines].
  intros H. apply orb_false_iff in H as [Hc Hr]. rewrite N.eqb_sym in Hc.
  rewrite Hc. now rewrite (IH Hr).
Qed.

(** No carriage return is left in a text read back from a [textarea]. *)
Lemma normalize_no_return s : existsb (N.eqb 13) (normalize_newlines s) = false.
Proof.
  assert (G : forall n s, (List.length s <= n)%nat ->
              existsb (N.eqb 13) (normalize_newlines s) = false).
  { clear s. induction n as [|n IH]; intros [|c r] L; simpl in L;
      try reflexivity; try lia.
    cbn [normalize_newlines]. destruct (N.eqb_spec c 13%N) as [->|C].
    - destruct r as [|c' r']; [reflexivity|].
      destruct (N.eqb_spec c' 10%N) as [->|C']; cbn [existsb];
        change (N.eqb 13 10) with false; cbn [orb]; apply IH; simpl in *; lia.
    - cbn [existsb]. rewrite (IH r) by lia.
      destruct (N.eqb_spec 13%N c) as [E|E]; [now subst|reflexivity]. }
  apply (G (List.length s)). lia.
Qed.

(** X17. Enter or Space on a quick action, like a click, puts its command
    in the input in place of what was typed, focuses the input and scales it
    up until the reset 200 ms later; other keys do nothing.  The input is a
    [textarea], so what it then holds is the command with its newlines
    normalized, the command itself where it has no carriage return.  The
    next send then sends that text, trimmed. *)
Theorem quick_action_sends_its_command command event page :
  trim command <> [] ->
  let pressed := quick_action_keydown command event page in
  let clicked := insertQuickCommand command page in
  let held := normalize_newlines command in
  (str_eqb (key event) (u "Enter") || str_eqb (key event) (u " ") = true ->
     pressed = (true, clicked))%bool
  /\ (str_eqb (key event) (u "Enter") || str_eqb (key event) (u " ") = false ->
        pressed = (false, page))%bool
  /\ chatInput_value (fst clicked) = held
  /\ (existsb (N.eqb 13) command = false -> held = command)
  /\ existsb (N.eqb 13) held = false
  /\ focused (snd clicked) = true
  /\ transform (snd clicked) = u "scale(1.02)"
  /\ transform (reset_scale (snd clicked)) = u "scale(1)"
  /\ exists st',
       sendChatMessage (fst clicked) = Return tt st'
       /\ chatInput_value st' = []
       /\ messageHistory st' =
            messageHistory (fst page)
            ++ [mkEntry (trim held) (u "user") (clock (readings (fst page)))]
       /\ exists payload,
            bridge st' = bridge (fst page) ++ [mkCall (u "aiCommand") payload]
            /\ exists timestamp sessionId,
                 JSON_parse payload =
                   Some (JObject [(u "command", JString (trim held));
                                  (u "timestamp", JString timestamp);
                                  (u "sessionId", JString sessionId)]).
Proof.
  intros H pressed clicked held. subst pressed. unfold quick_action_keydown.
  split; [now intros ->|]. split; [now intros ->|].
  split; [reflexivity|]. split; [apply normalize_plain|].
  split; [apply normalize_no_return|].
  repeat (split; [reflexivity|]).
  assert (N : trim (chatInput_value (fst clicked)) <> [])
    by exact (normalize_visible command H).
  exists (after_send (fst clicked)). split; [apply (sendChatMessage_eq _ N)|].
  split; [reflexivity|]. split; [reflexivity|].
  eexists. split; [reflexivity|]. eexists _, _. apply envelope_roundtrip.
Qed.

(** *** The legacy test call *)

Lemma info_roundtrip b :
  let obj := JObject [(u "arg1", JString (u "Legacy test")); (u "arg2", JString b)] in
  JSON_parse (JSON_stringify obj) = Some obj.
Proof.
  intros obj. unfold JSON_parse.
  match goal with
  | |- context [parse_budget ?t] =>
      assert (F : exists k, parse_budget t = 4 + k)
        by (exists (parse_budget t - 4); unfold parse_budget; cbn; lia)
  end.
  destruct F as [k ->].
  assert (T : JSON_stringify obj =
              u "{" ++ quoted "arg1" ++ u ":" ++ quoted "Legacy test" ++ u ","
              ++ quoted "arg2" ++ u ":" ++ dq :: quote_chars b ++ dq :: u "}").
  { cbn. repeat (rewrite <- app_assoc; cbn). reflexivity. }
  rewrite T. clear T. cbn -[quote_chars].
  rewrite parse_quote_chars. reflexivity.
Qed.

(** X18. [sendInfoToFusion] makes one bridge call on [messageFromPalette]
    whose payload reads back as [{arg1: "Legacy test", arg2: <date string>}],
    and touches neither the container nor the button.  A fulfilled promise
    appends one assistant bubble [Legacy response: <result>]; a rejected one
    changes nothing and stays rejected, there being no [catch]. *)
Theorem legacy_call_and_reply st :
  exists st' payload,
    sendInfoToFusion st = Return tt st'
    /\ bridge st' = bridge st ++ [mkCall (u "messageFromPalette") payload]
    /\ JSON_parse payload =
         Some (JObject [(u "arg1", JString (u "Legacy test"));
                        (u "arg2", JString (date_string (clock (readings st))))])
    /\ messagesContainer st' = messagesContainer st
    /\ sendBtn_disabled st' = sendBtn_disabled st
    /\ (forall result st2,
          settle_info (Fulfilled result) st2 =
            Return (Fulfilled tt)
              (after_addMessage (u "Legacy response: " ++ result) (u "assistant") st2))
    /\ (forall e st2, settle_info (Rejected e) st2 = Return (Rejected e) st2).
Proof.
  set (payload := JSON_stringify
                    (JObject [(u "arg1", JString (u "Legacy test"));
                              (u "arg2", JString (date_string (clock (readings st))))])).
  exists (mkState (chatInput_value st) (sendBtn_disabled st) (messagesContainer st)
            (messageHistory st) (next_uid st) (Datatypes.S (readings st)) (console st)
            (timers st) (bridge st ++ [mkCall (u "messageFromPalette") payload])),
    payload.
  split; [reflexivity|]. split; [reflexivity|].
  split; [apply info_roundtrip|]. repeat split.
Qed.

(** *** Session ids *)

Lemma uint_digits_inj a b : uint_digits a = uint_digits b -> a = b.
Proof.
  revert b. induction a; intros b H; destruct b; simpl in H; try discriminate;
    try reflexivity; injection H as H; f_equal; auto.
Qed.

Lemma decimal_inj a b : decimal a = decimal b -> a = b.
Proof.
  intros H. apply DecimalN.Unsigned.to_uint_inj. now apply uint_digits_inj.
Qed.

Lemma uint_digits_plain d : existsb (N.eqb 95) (uint_digits d) = false.
Proof. induction d; simpl; auto. Qed.

Lemma first_separator (a a' b b' : str) :
  existsb (N.eqb 95) a = false -> existsb (N.eqb 95) a' = false ->
  a ++ 95%N :: b = a' ++ 95%N :: b' -> a = a'.
Proof.
  revert a'. induction a as [|x a IH]; intros [|y a'] Ha Ha' E; simpl in *.
  - reflexivity.
  - injection E as E _. subst y. simpl in Ha'. discriminate.
  - injection E as E _. subst x. simpl in Ha. discriminate.
  - injection E as -> E. apply orb_false_iff in Ha as [_ Ha].
    apply orb_false_iff in Ha' as [_ Ha']. f_equal. now apply (IH a').
Qed.

Lemma existsb_rev {A} (f : A -> bool) l : existsb f (rev l) = existsb f l.
Proof.
  induction l as [|x l IH]; [reflexivity|]. simpl.
  rewrite existsb_app, IH. simpl. rewrite orb_false_r. apply orb_comm.
Qed.

Lemma last_separator (a a' b b' : str) :
  existsb (N.eqb 95) b = false -> existsb (N.eqb 95) b' = false ->
  a ++ 95%N :: b = a' ++ 95%N :: b' -> b = b'.
Proof.
  intros Hb Hb' E. apply (f_equal (@rev _)) in E.
  rewrite !rev_app_distr in E. simpl in E. rewrite <- !app_assoc in E. simpl in E.
  apply first_separator in E; [|now rewrite existsb_rev|now rewrite existsb_rev].
  apply (f_equal (@rev _)) in E. now rewrite !rev_involutive in E.
Qed.

Lemma generateSessionId_eq st :
  generateSessionId st =
    Return (session_token (random36 (readings st)) (clock (1 + readings st)))
      (mkState (chatInput_value st) (sendBtn_disabled st) (messagesContainer st)
         (messageHistory st) (next_uid st) (2 + readings st) (console st) (timers st)
         (bridge st)).
Proof. reflexivity. Qed.

(** X19. A session id is [session_], then the (at most nine) characters of
    the random text of this call from its third on, then [_] and the epoch
    time of this call in decimal; two ids made at different clock times
    differ, whatever the random source returned. *)
Theorem session_ids_differ st1 st2 :
  let token st := firstn 9 (skipn 2 (random36 (readings st))) in
  let epoch st := getTime (clock (1 + readings st)) in
  let id st := u "session_" ++ token st ++ u "_" ++ decimal (epoch st) in
  (exists st1', generateSessionId st1 = Return (id st1) st1')
  /\ (exists st2', generateSessionId st2 = Return (id st2) st2')
  /\ List.length (token st1) <= 9
  /\ (9 <= List.length (skipn 2 (random36 (readings st1))) ->
      List.length (token st1) = 9)
  /\ (epoch st1 <> epoch st2 -> id st1 <> id st2).
Proof.
  intros token epoch id.
  split; [eexists; apply generateSessionId_eq|].
  split; [eexists; apply generateSessionId_eq|].
  split; [apply firstn_le_length|].
  split; [intros L; now apply firstn_length_le|].
  intros D E. apply D. apply decimal_inj. subst id epoch token. cbv beta in E.
  apply (last_separator (u "session_" ++ firstn 9 (skipn 2 (random36 (readings st1))))
           (u "session_" ++ firstn 9 (skipn 2 (random36 (readings st2)))));
    [apply uint_digits_plain|apply uint_digits_plain|].
  rewrite <- !app_assoc. exact E.
Qed.

(** *** Strings across the bridge *)

(** Any string survives the wire format: serialized by
    [JSON.stringify] and read by [JSON.parse] it comes back as it was,
    quotation marks, backslashes, control characters and lone surrogates
    included. *)
Lemma string_survives_json s :
  JSON_parse (JSON_stringify (JString s)) = Some (JString s).
Proof.
  unfold JSON_parse. cbn [JSON_stringify]. unfold QuoteJSONString.
  assert (F : exists k, parse_budget (dq :: quote_chars s ++ [dq]) = Datatypes.S k)
    by (eexists; reflexivity).
  destruct F as [k ->]. cbn -[quote_chars].
  now rewrite parse_quote_chars.
Qed.

(** *** A whole turn *)

Lemma remove_nth_last {A} (l : list A) x : remove_nth (List.length l) (l ++ [x]) = l.
Proof. induction l as [|y l IH]; [reflexivity|]. simpl. now rewrite IH. Qed.

Lemma nth_error_last {A} (l : list A) x : nth_error (l ++ [x]) (List.length l) = Some x.
Proof. induction l as [|y l IH]; [reflexivity|exact IH]. Qed.

Lemma filter_all {A} (f : A -> bool) l : Forall (fun x => f x = true) l -> filter f l = l.
Proof. induction 1 as [|x l E Hl IH]; simpl; [reflexivity|]. now rewrite E, IH. Qed.

(** X20. A whole turn on a page the script reaches, where no banner is
    shown: the user sends a command and the host fulfils the call with a
    text that is not JSON.  The page ends with the input empty, the button
    enabled, no banner, the call no longer outstanding, and two more bubbles
    and history entries: the trimmed command of the user and the reply of
    the assistant. *)
Theorem turn_with_plain_reply st reply :
  reachable st ->
  banners st = [] ->
  trim (chatInput_value st) <> [] ->
  JSON_parse reply = None ->
  let command := trim (chatInput_value st) in
  let st' := step (Settle (List.length (bridge st)) (Fulfilled reply)) (step Send st) in
  chatInput_value st' = []
  /\ sendBtn_disabled st' = false
  /\ bridge st' = bridge st
  /\ messagesContainer st' =
       messagesContainer st
       ++ [bubble (next_uid st) command (u "user");
           bubble (4 + next_uid st) reply (u "assistant")]
  /\ messageHistory st' =
       messageHistory st
       ++ [mkEntry command (u "user") (clock (readings st));
           mkEntry reply (u "assistant") (clock (4 + readings st))].
Proof.
  intros R B N P command st'.
  pose proof (reachable_tidy st R) as (T1 & _).
  assert (E0 : remove_banner
                 (messagesContainer st ++ [bubble (next_uid st) command (u "user")])
               = messagesContainer st ++ [bubble (next_uid st) command (u "user")]).
  { apply remove_banner_absent. rewrite filter_app. fold (banners st). now rewrite B. }
  assert (E1 : remove_banner
                 ((messagesContainer st ++ [bubble (next_uid st) command (u "user")])
                  ++ [banner (3 + next_uid st)
                        (u "CadxStudio AI is analyzing your command...") (u "loading")])
               = messagesContainer st ++ [bubble (next_uid st) command (u "user")]).
  { unfold remove_banner.
    assert (F : find is_banner
                  ((messagesContainer st ++ [bubble (next_uid st) command (u "user")])
                   ++ [banner (3 + next_uid st)
                         (u "CadxStudio AI is analyzing your command...") (u "loading")])
                = Some (banner (3 + next_uid st)
                          (u "CadxStudio AI is analyzing your command...") (u "loading"))).
    { rewrite find_filter, !filter_app. fold (banners st). rewrite B. reflexivity. }
    rewrite F, !filter_app, (filter_all _ (messagesContainer st)).
    - cbn [filter uid bubble banner].
      replace (next_uid st =? 3 + next_uid st) with false
        by (symmetry; apply Nat.eqb_neq; lia).
      rewrite Nat.eqb_refl. cbn [negb]. now rewrite app_nil_r.
    - eapply Forall_impl; [|exact T1]. intros n Hn. cbv beta in Hn. cbn [uid banner].
      apply negb_true_iff, Nat.eqb_neq. lia. }
  assert (S1 : step Send st = after_send st).
  { unfold step, react. now rewrite (sendChatMessage_eq st N). }
  subst st'. rewrite S1. unfold step, react, bind, take_call.
  cbn [bridge after_send]. rewrite nth_error_last, remove_nth_last. cbv beta iota.
  match goal with |- context [settle _ ?page] => set (X := page) end.
  assert (S2 : settle (Fulfilled reply) X =
                 Return (Fulfilled tt)
                   (state_of
                      (on_finally
                         (after_setTimeout FadeBanner 3000
                            (after_addMessage reply (u "assistant")
                               (after_removeStatus
                                  (after_console Log
                                     [LogStr (u "AI Command Response:"); LogStr reply]
                                     X))))))).
  { unfold settle, reactions. unfold bind at 1. unfold promise_then, on_fulfilled.
    unfold bind at 1.
    change (console_write Log [LogStr (u "AI Command Response:"); LogStr reply] X)
      with (Return tt (after_console Log
                         [LogStr (u "AI Command Response:"); LogStr reply] X)).
    cbv iota beta. rewrite (handleAIResponse_plain reply _ P). reflexivity. }
  rewrite S2. subst X.
  cbn [on_finally set_sendBtn_disabled modify ret state_of after_setTimeout
         after_addMessage after_removeStatus after_console with_children
         chatInput_value sendBtn_disabled bridge messagesContainer messageHistory
         next_uid readings].
  unfold after_send.
  cbn [chatInput_value sendBtn_disabled bridge messagesContainer messageHistory
         next_uid readings].
  fold command. rewrite E0, E1, <- !app_assoc. repeat split.
Qed.

(** *** The earlier palette *)

(** X21. A command that is not blank after trimming, sent from the earlier
    palette: the button is disabled and relabelled, the status line shows
    the loading text and no timer is set for it, the input and the response
    area keep their content, and one call is made on the channel
    [aiCommand], whose payload reads back as an object of three strings,
    [command] (the trimmed input), [timestamp] and [sessionId], in this
    order. *)
Theorem earlier_send_outbound p :
  trim (aiCommandInput_value p) <> [] ->
  let p' := sendAICommand p in
  aiSubmitBtn_disabled p' = true
  /\ aiSubmitBtn_textContent p' = (55357 :: 56580 :: u " Processing...")%N
  /\ aiCommandInput_value p' = aiCommandInput_value p
  /\ aiResponse_innerHTML p' = aiResponse_innerHTML p
  /\ earlier_timers p' = earlier_timers p
  /\ (exists e, statusMessage p' = Some e
                /\ line_className e = u "status loading"
                /\ line_textContent e = u "Sending command to AI Copilot...")
  /\ exists payload timestamp sessionId,
       earlier_bridge p' = earlier_bridge p ++ [mkCall (u "aiCommand") payload]
       /\ JSON_parse payload =
            Some (JObject [(u "command", JString (trim (aiCommandInput_value p)));
                           (u "timestamp", JString timestamp);
                           (u "sessionId", JString sessionId)]).
Proof.
  intros H p'. subst p'. unfold sendAICommand.
  destruct (trim (aiCommandInput_value p)) as [|c cmd] eqn:E; [contradiction|].
  cbv zeta. unfold showStatus.
  cbn [aiCommandInput_value aiSubmitBtn_disabled aiSubmitBtn_textContent
         aiResponse_innerHTML statusMessage earlier_next_uid earlier_readings
         earlier_timers earlier_bridge].
  change (str_eqb (u "loading") (u "loading")) with true. cbv iota.
  repeat (split; [reflexivity|]). split.
  - eexists. repeat split.
  - eexists _, _, _. split; [reflexivity|]. apply envelope_roundtrip.
Qed.

(** X22. The status line of the earlier palette and its timers.  A status
    other than a loading one sets one timer of 5000 ms for the line that
    shows it, which is the line that was there if there was one.  The timer
    takes the line out of the page; and it does so as well when a later
    status, of any type, has been written into the line meanwhile, since
    [showStatus] writes into the line it finds. *)
Theorem status_timer_hides_later_status m1 t1 m2 t2 p :
  str_eqb t1 (u "loading") = false ->
  let p1 := showStatus m1 t1 p in
  let p2 := showStatus m2 t2 p1 in
  exists k,
    earlier_timers p1 = earlier_timers p ++ [(5000%N, k)]
    /\ (forall e, statusMessage p = Some e -> k = line_uid e)
    /\ statusMessage p1 = Some (mkStatusLine k (u "status " ++ t1) m1)
    /\ statusMessage (hide_status k p1) = None
    /\ statusMessage p2 = Some (mkStatusLine k (u "status " ++ t2) m2)
    /\ earlier_next_uid p2 = earlier_next_uid p1
    /\ statusMessage (hide_status k p2) = None.
Proof.
  intros L p1 p2. subst p2 p1. unfold showStatus at 2 4 6 7. unfold showStatus.
  cbn [statusMessage earlier_timers earlier_next_uid line_uid]. rewrite L.
  destruct (statusMessage p) as [e|].
  - exists (line_uid e). unfold hide_status.
    cbn [statusMessage line_uid]. rewrite Nat.eqb_refl.
    repeat split. now intros e' [= <-].
  - exists (earlier_next_uid p). unfold hide_status.
    cbn [statusMessage line_uid]. rewrite Nat.eqb_refl.
    repeat split. intros e' [=].
Qed.

End Host.

(** ** The properties on the sample platform *)

Abbreviation sample_parse := (JSON_parse Sample.StringToNumber).
Abbreviation sample_handleAIResponse :=
  (handleAIResponse Sample.StringToNumber Sample.Number_toString Sample.Number_isFinite
     Sample.clock Sample.stringify_depth).
Abbreviation sample_sendChatMessage :=
  (sendChatMessage Sample.Number_toString Sample.Number_isFinite Sample.clock
     Sample.random36).

Abbreviation sample_step :=
  (step Sample.StringToNumber Sample.Number_toString Sample.Number_isFinite Sample.clock
     Sample.random36 Sample.stringify_depth).
Abbreviation sample_reachable :=
  (reachable Sample.StringToNumber Sample.Number_toString Sample.Number_isFinite
     Sample.clock Sample.random36 Sample.stringify_depth).

(** The loaded page once [  make a hole ] has been typed in. *)
Abbreviation page_edited := (sample_step (Edit (u "  make a hole ")) initial).

(** The same page once the command has been sent: the loading banner is
    shown and the call is outstanding. *)
Abbreviation page_sent := (sample_step Send page_edited).

(** C2 on the page with [  make a hole ] typed in. *)
Lemma send_button_reenabled_witness :
  trim (chatInput_value Sample.page_typed) <> []
  /\ exists st1 call,
       sample_sendChatMessage Sample.page_typed = Return tt st1
       /\ sendBtn_disabled st1 = true
       /\ bridge st1 = [call]
       /\ forall p st2,
            exists q st3,
              settle Sample.StringToNumber Sample.Number_toString Sample.Number_isFinite
                Sample.clock Sample.stringify_depth p st2 = Return q st3
              /\ sendBtn_disabled st3 = false.
Proof.
  assert (H : trim (chatInput_value Sample.page_typed) <> []) by discriminate.
  split; [exact H|].
  destruct (send_button_reenabled _ Sample.StringToNumber Sample.Number_toString
              Sample.Number_isFinite Sample.clock Sample.random36 Sample.stringify_depth
              Sample.page_typed H)
    as (st1 & call & A & B & C & D & _).
  exists st1, call. repeat split; assumption.
Defined.

(** C3 on the page whose input holds a tab, a space and a no-break space. *)
Lemma send_blank_is_noop_witness :
  forallb is_whitespace (chatInput_value Sample.page_blank) = true
  /\ sample_sendChatMessage Sample.page_blank = Return tt Sample.page_blank.
Proof.
  split; [vm_compute; reflexivity|].
  apply (send_blank_is_noop _ Sample.Number_toString Sample.Number_isFinite Sample.clock
           Sample.random36 Sample.page_blank).
  reflexivity.
Defined.

(** C4 on the reply [hello], on the loaded page. *)
Lemma plain_reply_shown_witness :
  sample_parse (u "hello") = None
  /\ exists st',
       sample_handleAIResponse (u "hello") initial = Return tt st'
       /\ messagesContainer st' = [welcome; bubble 1 (u "hello") (u "assistant")]
       /\ messageHistory st' = [mkEntry (u "hello") (u "assistant") (Sample.clock 0)].
Proof.
  split; [vm_compute; reflexivity|].
  apply (plain_reply_shown _ Sample.StringToNumber Sample.Number_toString
           Sample.Number_isFinite Sample.clock Sample.stringify_depth (u "hello") initial).
  reflexivity.
Defined.

(** C5 as claimed fails: the bubble shown for the success reply does not
    contain the action [make_hole]; its content is
    [Created: make hole with parameters: {"d":8}]. *)
Lemma success_reply_lacks_action_name :
  exists st',
    sample_handleAIResponse reply_success initial = Return tt st'
    /\ messages st' = [welcome; bubble 2 summary_success (u "assistant")]
    /\ includes summary_success (u "make_hole") = false.
Proof.
  exists (state_of (sample_handleAIResponse reply_success initial)).
  split; [vm_compute; reflexivity|]. split; vm_compute; reflexivity.
Qed.

(** C5, as the script has it, on the loaded page. *)
Lemma success_reply_shown_witness :
  Sample.Number_isFinite (Sample.StringToNumber (u "8")) = true
  /\ Sample.Number_toString (Sample.StringToNumber (u "8")) = u "8"
  /\ single_banner initial
  /\ exists st',
       sample_handleAIResponse reply_success initial = Return tt st'
       /\ banners st' = [banner 1 success_text (u "success")].
Proof.
  assert (B : single_banner initial) by (unfold single_banner; simpl; lia).
  split; [vm_compute; reflexivity|]. split; [vm_compute; reflexivity|]. split; [exact B|].
  destruct (success_reply_shown _ Sample.StringToNumber Sample.Number_toString
              Sample.Number_isFinite Sample.clock Sample.stringify_depth
              initial eq_refl eq_refl B)
    as (st' & H1 & H2 & _).
  exists st'. split; assumption.
Defined.

(** C6 on the loaded page. *)
Lemma error_reply_shown_witness :
  single_banner initial
  /\ exists st' content,
       sample_handleAIResponse reply_error initial = Return tt st'
       /\ banners st' = [banner 1 error_text (u "error")]
       /\ messages st' = [welcome; bubble 2 content (u "assistant")]
       /\ includes content (u "bad param") = true.
Proof.
  assert (B : single_banner initial) by (unfold single_banner; simpl; lia).
  split; [exact B|].
  destruct (error_reply_shown _ Sample.StringToNumber Sample.Number_toString
              Sample.Number_isFinite Sample.clock Sample.stringify_depth initial B)
    as (st' & content & H1 & H2 & H3 & _ & H5 & H6).
  exists st', content. repeat split; try assumption.
  unfold messages. rewrite H3, H5. reflexivity.
Defined.

(** C7 as claimed fails: the reply [null] parses as JSON and has no
    [status], yet it is shown in an assistant bubble. *)
Lemma null_reply_is_shown :
  sample_parse (u "null") = Some (JNull _)
  /\ recognised_status (field p_status (JNull Sample.Number)) = false
  /\ exists st',
       sample_handleAIResponse (u "null") initial = Return tt st'
       /\ messages st' = [welcome; bubble 1 (u "null") (u "assistant")]
       /\ messageHistory st' = [mkEntry (u "null") (u "assistant") (Sample.clock 0)].
Proof.
  split; [vm_compute; reflexivity|]. split; [reflexivity|].
  exists (state_of (sample_handleAIResponse (u "null") initial)).
  split; [vm_compute; reflexivity|]. split; vm_compute; reflexivity.
Qed.

(** C7, as the script has it, on the reply [{"status":"done"}] while the
    loading banner of a send is shown. *)
Lemma unrecognised_reply_dropped_witness :
  let reply := u "{" ++ quoted "status" ++ u ":" ++ quoted "done" ++ u "}" in
  let v := JObject [(u "status", JString Sample.Number (u "done"))] in
  let page := after_send Sample.Number_toString Sample.Number_isFinite Sample.clock
                Sample.random36 Sample.page_typed in
  sample_parse reply = Some v
  /\ v <> JNull _
  /\ recognised_status (field p_status v) = false
  /\ exists st',
       sample_handleAIResponse reply page = Return tt st'
       /\ messagesContainer st' = [welcome; bubble 1 (u "make a hole") (u "user")]
       /\ messageHistory st' = messageHistory page
       /\ timers st' = timers page ++ [(3000%N, FadeBanner)]
       /\ chatInput_value st' = chatInput_value page
       /\ sendBtn_disabled st' = sendBtn_disabled page
       /\ bridge st' = bridge page
       /\ console st' = console page.
Proof.
  intros reply v page.
  assert (P : sample_parse reply = Some v) by (vm_compute; reflexivity).
  assert (N : v <> JNull _) by discriminate.
  assert (R : recognised_status (field p_status v) = false) by (vm_compute; reflexivity).
  repeat (split; [assumption|]).
  destruct (unrecognised_reply_dropped _ Sample.StringToNumber Sample.Number_toString
              Sample.Number_isFinite Sample.clock Sample.stringify_depth reply v page
              P N R)
    as (st' & H1 & H2 & H3 & _ & _ & H6 & H7 & H8 & H9 & H10 & _).
  exists st'.
  exact (conj H1 (conj H2 (conj H3 (conj H6 (conj H7 (conj H8 (conj H9 H10))))))).
Defined.

(** C8 on the page after a send, which shows the loading banner: a status
    added there takes the place of that banner, and a removal leaves
    none. *)
Lemma banner_is_singleton_witness :
  let loading := banner 4 (u "CadxStudio AI is analyzing your command...")
                   (u "loading") in
  sample_reachable page_sent
  /\ banners page_sent = [loading]
  /\ List.length (banners page_sent) <= 1
  /\ (exists st',
        addStatusMessage success_text (u "success") page_sent = Return 5 st'
        /\ banners st' = [banner 5 success_text (u "success")])
  /\ (exists st',
        removeStatusMessage page_sent = Return tt st'
        /\ banners st' = []
        /\ removeStatusMessage st' = Return tt st').
Proof.
  intros loading.
  assert (R : sample_reachable page_sent) by (apply reach_step, reach_step, reach_initial).
  assert (L : banners page_sent = [loading]) by (vm_compute; reflexivity).
  split; [exact R|]. split; [exact L|].
  destruct (banner_is_singleton _ Sample.StringToNumber Sample.Number_toString
              Sample.Number_isFinite Sample.clock Sample.random36
              Sample.stringify_depth page_sent R)
    as (H1 & H2 & _ & H4).
  split; [exact H1|]. split; [exact (H2 success_text (u "success"))|exact H4].
Defined.

(** C9 on the page with [  make a hole ] typed in. *)
Lemma outbound_envelope_witness :
  trim (chatInput_value Sample.page_typed) <> []
  /\ exists st' payload,
       sample_sendChatMessage Sample.page_typed = Return tt st'
       /\ bridge st' = [mkCall (u "aiCommand") payload]
       /\ sample_parse payload =
            Some (JObject
                    [(u "command", JString _ (u "make a hole"));
                     (u "timestamp", JString _ (u "Date: 5/3/2024, Time: 14:2:9"));
                     (u "sessionId", JString _ (u "session_4fzyo82mv_1709647329003"))]).
Proof.
  assert (H : trim (chatInput_value Sample.page_typed) <> []) by discriminate.
  split; [exact H|].
  destruct (outbound_envelope _ Sample.StringToNumber Sample.Number_toString
              Sample.Number_isFinite Sample.clock Sample.random36 Sample.page_typed H)
    as (st' & payload & A & B & C & D).
  exists st', payload. repeat split; assumption.
Defined.

(** C10 on the reply [{"status":"success"}], on the loaded page. *)
Lemma success_without_action_shown_raw_witness :
  let reply := u "{" ++ quoted "status" ++ u ":" ++ quoted "success" ++ u "}" in
  let v := JObject [(u "status", JString Sample.Number (u "success"))] in
  sample_parse reply = Some v
  /\ strict_equals (field p_status v) (u "success") = true
  /\ is_string (field p_action v) = false
  /\ single_banner initial
  /\ exists st',
       sample_handleAIResponse reply initial = Return tt st'
       /\ messagesContainer st' =
            [welcome; banner 1 success_text (u "success");
             bubble 2 reply (u "assistant")].
Proof.
  intros reply v.
  assert (P : sample_parse reply = Some v) by (vm_compute; reflexivity).
  assert (S : strict_equals (field p_status v) (u "success") = true) by (vm_compute; reflexivity).
  assert (A : is_string (field p_action v) = false) by (vm_compute; reflexivity).
  assert (B : single_banner initial) by (unfold single_banner; simpl; lia).
  repeat (split; [assumption|]).
  destruct (success_without_action_shown_raw _ Sample.StringToNumber
              Sample.Number_toString Sample.Number_isFinite Sample.clock Sample.stringify_depth
              reply v initial
              P S A B)
    as (st' & H1 & _ & H3 & _).
  exists st'. split; assumption.
Defined.

(** ** The further properties on the sample platform *)

Abbreviation sample_handle :=
  (handle Sample.StringToNumber Sample.Number_toString Sample.Number_isFinite
     Sample.clock Sample.stringify_depth).

(** A page of the earlier palette with [ gear ] typed in. *)
Abbreviation earlier_typed :=
  (mkEarlier (u " gear ") false (u "Execute Command") [] None 0 0 [] []).

(** X1 on the page after a send. *)
Lemma banner_found_by_class_or_id_witness :
  sample_reachable page_sent
  /\ querySelector_class (u "status-message") page_sent
     = getElementById (u "currentStatus") page_sent.
Proof.
  assert (R : sample_reachable page_sent) by (apply reach_step, reach_step, reach_initial).
  split; [exact R|].
  apply (banner_found_by_class_or_id _ Sample.StringToNumber Sample.Number_toString
           Sample.Number_isFinite Sample.clock Sample.random36 Sample.stringify_depth
           page_sent R).
Defined.

(** X2 on the page after a send. *)
Lemma bubbles_match_history_witness :
  sample_reachable page_sent
  /\ List.length (messages page_sent) = S (List.length (messageHistory page_sent)).
Proof.
  assert (R : sample_reachable page_sent) by (apply reach_step, reach_step, reach_initial).
  split; [exact R|].
  destruct (bubbles_match_history _ Sample.StringToNumber Sample.Number_toString
              Sample.Number_isFinite Sample.clock Sample.random36 Sample.stringify_depth
              page_sent R) as [_ H].
  exact H.
Defined.

(** X3 on the page after a send, when the call is fulfilled with [hello]. *)
Lemma bubbles_only_grow_witness :
  sample_reachable page_sent
  /\ exists extra,
       messages (sample_step (Settle 0 (Fulfilled (u "hello"))) page_sent)
       = messages page_sent ++ extra.
Proof.
  assert (R : sample_reachable page_sent) by (apply reach_step, reach_step, reach_initial).
  split; [exact R|].
  apply (bubbles_only_grow _ Sample.StringToNumber Sample.Number_toString
           Sample.Number_isFinite Sample.clock Sample.random36 Sample.stringify_depth
           page_sent
           (Settle 0 (Fulfilled (u "hello"))) R).
Defined.

(** X4 on the page after a send, whose banner is the loading one. *)
Lemma auto_dismiss_witness :
  sample_reachable page_sent
  /\ exists b st1 st2,
       banners page_sent = [b]
       /\ run_callback FadeBanner page_sent = Return tt st1
       /\ timers st1 = timers page_sent ++ [(300%N, RemoveElement (uid b))]
       /\ run_callback (RemoveElement (uid b)) st1 = Return tt st2
       /\ banners st2 = [].
Proof.
  assert (R : sample_reachable page_sent) by (apply reach_step, reach_step, reach_initial).
  split; [exact R|].
  destruct (auto_dismiss _ Sample.StringToNumber Sample.Number_toString
              Sample.Number_isFinite Sample.clock Sample.random36 Sample.stringify_depth
              page_sent R) as [H _].
  assert (B : banners page_sent = [nth 0 (banners page_sent) welcome])
    by (vm_compute; reflexivity).
  destruct (H _ B) as (st1 & st2 & H1 & _ & _ & H4 & H5 & H6 & _).
  exists (nth 0 (banners page_sent) welcome), st1, st2.
  exact (conj B (conj H1 (conj H4 (conj H5 H6)))).
Defined.

(** X6 on a reply written with spaces, which is interpreted without them,
    and on arrays nested 1002 deep, one level more than the sample engine
    serializes, which are interpreted as they were pushed. *)
Lemma pushed_reply_interpreted_once_witness :
  let spaced := u "{ " ++ quoted "status" ++ u " : " ++ quoted "processing" ++ u " }" in
  let compact := u "{" ++ quoted "status" ++ u ":" ++ quoted "processing" ++ u "}" in
  let deep := repeat 91%N 1002 ++ repeat 93%N 1002 in
  let normal := normalised Sample.StringToNumber Sample.Number_toString
                  Sample.Number_isFinite Sample.stringify_depth in
  normal spaced = compact
  /\ normal deep = deep
  /\ exists st',
       sample_handle (u "aiResponse") spaced initial = Return (u "OK") st'
       /\ sample_handleAIResponse compact initial = Return tt st'.
Proof.
  intros spaced compact deep normal.
  destruct (pushed_reply_interpreted_once _ Sample.StringToNumber Sample.Number_toString
              Sample.Number_isFinite Sample.clock Sample.stringify_depth spaced initial)
    as ((st' & R & _ & H) & _ & N1 & _).
  destruct (pushed_reply_interpreted_once _ Sample.StringToNumber Sample.Number_toString
              Sample.Number_isFinite Sample.clock Sample.stringify_depth deep initial)
    as (_ & _ & _ & N2).
  assert (E1 : normal spaced = compact).
  { subst normal.
    rewrite (N1 (JObject [(u "status", JString Sample.Number (u "processing"))]));
      [reflexivity|vm_compute; reflexivity|apply Nat.leb_le; vm_compute; reflexivity]. }
  assert (E2 : normal deep = deep).
  { apply (N2 (Nat.iter 1001 (fun x => JArray [x]) (JArray (@nil (JSON Sample.Number)))));
      [vm_compute; reflexivity|apply Nat.ltb_lt; vm_compute; reflexivity]. }
  split; [exact E1|]. split; [exact E2|].
  exists st'. split; [exact H|]. subst normal. rewrite E1 in R. exact R.
Defined.


(** X8 on a push that is not JSON. *)
Lemma update_push_rejected_witness :
  sample_parse (u "oops") = None
  /\ exists e,
       sample_handle (u "updateMessage") (u "oops") initial
       = Return (u "OK")
           (after_console Log
              [LogStr (u "Exception caught with command: updateMessage, data: oops")]
              (after_console Log [LogExn e] initial)).
Proof.
  assert (P : sample_parse (u "oops") = None) by (vm_compute; reflexivity).
  split; [exact P|].
  destruct (update_push_rejected _ Sample.StringToNumber Sample.Number_toString
              Sample.Number_isFinite Sample.clock Sample.stringify_depth
              (u "oops") initial (or_introl P))
    as (e & _ & H).
  exists e. exact H.
Defined.

(** X9 on the reply [{"status":"processing"}], on the loaded page. *)
Lemma processing_reply_shown_witness :
  let reply := u "{" ++ quoted "status" ++ u ":" ++ quoted "processing" ++ u "}" in
  let v := JObject [(u "status", JString Sample.Number (u "processing"))] in
  sample_parse reply = Some v
  /\ strict_equals (field p_status v) (u "processing") = true
  /\ single_banner initial
  /\ exists st',
       sample_handleAIResponse reply initial = Return tt st'
       /\ banners st' = [banner 1 processing_text (u "loading")]
       /\ messageHistory st' = [].
Proof.
  intros reply v.
  assert (P : sample_parse reply = Some v) by (vm_compute; reflexivity).
  assert (S : strict_equals (field p_status v) (u "processing") = true)
    by (vm_compute; reflexivity).
  assert (B : single_banner initial) by (unfold single_banner; simpl; lia).
  repeat (split; [assumption|]).
  destruct (processing_reply_shown _ Sample.StringToNumber Sample.Number_toString
              Sample.Number_isFinite Sample.clock Sample.stringify_depth
              reply v initial P S B)
    as (st' & H1 & H2 & _ & H4).
  exists st'. repeat split; assumption.
Defined.


(** X11 on two success replies: one whose action has two underscores and
    which has no parameters, and one whose parameters are arrays nested
    1002 deep, one level more than the sample engine manages. *)
Lemma success_reply_any_action_witness :
  let reply := u "{" ++ quoted "status" ++ u ":" ++ quoted "success" ++ u ","
                 ++ quoted "action" ++ u ":" ++ quoted "create_spur_gear" ++ u "}" in
  let v := JObject [(u "status", JString Sample.Number (u "success"));
                    (u "action", JString _ (u "create_spur_gear"))] in
  let deep := Nat.iter 1001 (fun x => JArray [x]) (JArray (@nil (JSON Sample.Number))) in
  let reply' := u "{" ++ quoted "status" ++ u ":" ++ quoted "success" ++ u ","
                  ++ quoted "action" ++ u ":" ++ quoted "make_hole" ++ u ","
                  ++ quoted "parameters" ++ u ":"
                  ++ repeat 91%N 1002 ++ repeat 93%N 1002 ++ u "}" in
  let v' := JObject [(u "status", JString Sample.Number (u "success"));
                     (u "action", JString _ (u "make_hole"));
                     (u "parameters", deep)] in
  (sample_parse reply = Some v
   /\ strict_equals (field p_status v) (u "success") = true
   /\ field p_action v = Some (JString _ (u "create_spur_gear"))
   /\ single_banner initial
   /\ exists st',
        sample_handleAIResponse reply initial = Return tt st'
        /\ messagesContainer st'
           = [welcome; banner 1 success_text (u "success");
              bubble 2 (u "Created: create spur_gear with parameters: undefined")
                (u "assistant")])
  /\ (sample_parse reply' = Some v'
      /\ strict_equals (field p_status v') (u "success") = true
      /\ field p_action v' = Some (JString _ (u "make_hole"))
      /\ S Sample.stringify_depth < nesting deep
      /\ exists st',
           sample_handleAIResponse reply' initial = Return tt st'
           /\ messagesContainer st'
              = [welcome; banner 1 success_text (u "success");
                 bubble 2 reply' (u "assistant")]).
Proof.
  intros reply v deep reply' v'.
  assert (B : single_banner initial) by (unfold single_banner; simpl; lia).
  split.
  - assert (P : sample_parse reply = Some v) by (vm_compute; reflexivity).
    assert (S : strict_equals (field p_status v) (u "success") = true)
      by (vm_compute; reflexivity).
    assert (A : field p_action v = Some (JString _ (u "create_spur_gear")))
      by (vm_compute; reflexivity).
    repeat (split; [assumption|]).
    destruct (success_reply_any_action _ Sample.StringToNumber Sample.Number_toString
                Sample.Number_isFinite Sample.clock Sample.stringify_depth reply v _
                initial P S A B)
      as (st' & shown & content & H1 & _ & H3 & H4 & _ & _ & _ & H8).
    assert (E : shown = u "create spur_gear")
      by (apply (H8 (u "create") (u "spur_gear")); reflexivity).
    assert (C : content = u "Created: create spur_gear with parameters: undefined")
      by (rewrite (H4 eq_refl), E; reflexivity).
    rewrite C in H3. exists st'. split; [exact H1|exact H3].
  - assert (P : sample_parse reply' = Some v') by (vm_compute; reflexivity).
    assert (S : strict_equals (field p_status v') (u "success") = true)
      by (vm_compute; reflexivity).
    assert (A : field p_action v' = Some (JString _ (u "make_hole")))
      by (vm_compute; reflexivity).
    assert (D : Datatypes.S Sample.stringify_depth < nesting deep)
      by (apply Nat.ltb_lt; vm_compute; reflexivity).
    repeat (split; [assumption|]).
    destruct (success_reply_any_action _ Sample.StringToNumber Sample.Number_toString
                Sample.Number_isFinite Sample.clock Sample.stringify_depth reply' v' _
                initial P S A B)
      as (st' & shown & content & H1 & _ & H3 & _ & _ & H6 & _).
    assert (C : content = reply') by (apply (H6 deep); [reflexivity|exact D]).
    rewrite C in H3. exists st'. split; [exact H1|exact H3].
Defined.

(** X12 on the page after a send, when the host rejects the call. *)
Lemma bridge_failure_shown_witness :
  single_banner page_sent
  /\ exists st',
       settle Sample.StringToNumber Sample.Number_toString Sample.Number_isFinite
         Sample.clock Sample.stringify_depth (Rejected (HostError (u "timeout"))) page_sent
       = Return (Fulfilled tt) st'
       /\ banners st' = []
       /\ sendBtn_disabled st' = false.
Proof.
  assert (B : single_banner page_sent) by (unfold single_banner; vm_compute; lia).
  split; [exact B|].
  destruct (bridge_failure_shown _ Sample.StringToNumber Sample.Number_toString
              Sample.Number_isFinite Sample.clock Sample.stringify_depth
              (HostError (u "timeout")) page_sent B)
    as (st' & H1 & H2 & _ & _ & H5 & _).
  exists st'. repeat split; assumption.
Defined.

(** X13 on the page with [  make a hole ] typed in. *)
Lemma second_send_is_noop_witness :
  trim (chatInput_value Sample.page_typed) <> []
  /\ exists st1,
       sample_sendChatMessage Sample.page_typed = Return tt st1
       /\ chatInput_value st1 = []
       /\ sample_sendChatMessage st1 = Return tt st1.
Proof.
  assert (H : trim (chatInput_value Sample.page_typed) <> []) by discriminate.
  split; [exact H|].
  apply (second_send_is_noop _ Sample.Number_toString Sample.Number_isFinite Sample.clock
           Sample.random36 Sample.page_typed H).
Defined.

(** X14 on the page with [  make a hole ] typed in. *)
Lemma command_is_trimmed_input_witness :
  forallb is_whitespace (chatInput_value Sample.page_typed) = false
  /\ exists lead command trail,
       chatInput_value Sample.page_typed = lead ++ command ++ trail
       /\ forallb is_whitespace lead = true
       /\ forallb is_whitespace trail = true
       /\ command <> [].
Proof.
  assert (H : forallb is_whitespace (chatInput_value Sample.page_typed) = false)
    by (vm_compute; reflexivity).
  split; [exact H|].
  destruct (command_is_trimmed_input _ Sample.Number_toString Sample.Number_isFinite
              Sample.clock Sample.random36 Sample.page_typed H)
    as (lead & command & trail & H1 & H2 & H3 & H4 & _).
  exists lead, command, trail. repeat split; assumption.
Defined.

(** X15 on the page after a send. *)
Lemma disabled_means_outstanding_witness :
  sample_reachable page_sent
  /\ sendBtn_disabled page_sent = true
  /\ bridge page_sent <> [].
Proof.
  assert (R : sample_reachable page_sent) by (apply reach_step, reach_step, reach_initial).
  assert (D : sendBtn_disabled page_sent = true) by (vm_compute; reflexivity).
  split; [exact R|]. split; [exact D|].
  apply (disabled_means_outstanding _ Sample.StringToNumber Sample.Number_toString
           Sample.Number_isFinite Sample.clock Sample.random36 Sample.stringify_depth
           page_sent R D).
Defined.

(** X17 on a quick action whose command holds a line break written CR LF,
    Enter pressed on it: the input holds the command with one LF. *)
Lemma quick_action_sends_its_command_witness :
  let page := (initial, mkView false [] []) in
  let event := mkKey (u "Enter") false false in
  let command := u "Create a gear" ++ [13; 10]%N ++ u "with 20 teeth" in
  trim command <> []
  /\ quick_action_keydown command event page = (true, insertQuickCommand command page)
  /\ chatInput_value (fst (insertQuickCommand command page))
     = u "Create a gear" ++ [10%N] ++ u "with 20 teeth".
Proof.
  intros page event command.
  assert (H : trim command <> []) by discriminate.
  split; [exact H|].
  pose proof (quick_action_sends_its_command _ Sample.StringToNumber
                Sample.Number_toString Sample.Number_isFinite Sample.clock
                Sample.random36 command event page H) as Q.
  cbv zeta in Q. destruct Q as (H1 & _ & H3 & _).
  split; [apply H1; reflexivity|exact H3].
Defined.

(** X19 on the loaded page and on the page after a send, four readings of
    the environment later. *)
Lemma session_ids_differ_witness :
  exists id1 id2 st1' st2',
    generateSessionId Sample.clock Sample.random36 initial = Return id1 st1'
    /\ generateSessionId Sample.clock Sample.random36 page_sent = Return id2 st2'
    /\ id1 <> id2.
Proof.
  pose proof (session_ids_differ Sample.clock Sample.random36 initial page_sent) as Q.
  cbv beta zeta in Q. destruct Q as ([st1' H1] & [st2' H2] & _ & _ & H5).
  eexists _, _, st1', st2'. split; [exact H1|]. split; [exact H2|].
  apply H5. intros E. vm_compute in E. discriminate E.
Defined.

(** X20 on the page with [  make a hole ] typed in and the reply [hello]. *)
Lemma turn_with_plain_reply_witness :
  sample_reachable page_edited
  /\ banners page_edited = []
  /\ trim (chatInput_value page_edited) <> []
  /\ sample_parse (u "hello") = None
  /\ messagesContainer
       (sample_step (Settle 0 (Fulfilled (u "hello"))) (sample_step Send page_edited))
     = [welcome; bubble 1 (u "make a hole") (u "user");
        bubble 5 (u "hello") (u "assistant")].
Proof.
  assert (R : sample_reachable page_edited) by (apply reach_step, reach_initial).
  assert (B : banners page_edited = []) by (vm_compute; reflexivity).
  assert (N : trim (chatInput_value page_edited) <> []) by discriminate.
  assert (P : sample_parse (u "hello") = None) by (vm_compute; reflexivity).
  repeat (split; [assumption|]).
  pose proof (turn_with_plain_reply _ Sample.StringToNumber Sample.Number_toString
                Sample.Number_isFinite Sample.clock Sample.random36 Sample.stringify_depth
                page_edited
                (u "hello") R B N P) as Q.
  cbv zeta in Q. destruct Q as (_ & _ & _ & H4 & _). exact H4.
Defined.

(** X21 on the earlier palette with [ gear ] typed in. *)
Lemma earlier_send_outbound_witness :
  trim (aiCommandInput_value earlier_typed) <> []
  /\ aiSubmitBtn_disabled
       (sendAICommand Sample.Number_toString Sample.Number_isFinite Sample.clock
          Sample.random36 earlier_typed) = true
  /\ earlier_timers
       (sendAICommand Sample.Number_toString Sample.Number_isFinite Sample.clock
          Sample.random36 earlier_typed) = [].
Proof.
  assert (H : trim (aiCommandInput_value earlier_typed) <> []) by discriminate.
  split; [exact H|].
  pose proof (earlier_send_outbound _ Sample.StringToNumber Sample.Number_toString
                Sample.Number_isFinite Sample.clock Sample.random36 earlier_typed H) as Q.
  cbv zeta in Q. destruct Q as (H1 & _ & _ & _ & H5 & _).
  split; [exact H1|exact H5].
Defined.

(** X22 on the earlier palette: the error status of an empty send, then the
    loading status of a command; the timer of the first hides the second. *)
Lemma status_timer_hides_later_status_witness :
  let p1 := showStatus (u "Please enter a command first.") (u "error") earlier_typed in
  let p2 := showStatus (u "Sending command to AI Copilot...") (u "loading") p1 in
  str_eqb (u "error") (u "loading") = false
  /\ exists k,
       earlier_timers p2 = [(5000%N, k)]
       /\ statusMessage p2
          = Some (mkStatusLine k (u "status loading")
                    (u "Sending command to AI Copilot..."))
       /\ statusMessage (hide_status k p2) = None.
Proof.
  intros p1 p2.
  assert (L : str_eqb (u "error") (u "loading") = false) by reflexivity.
  split; [exact L|].
  pose proof (status_timer_hides_later_status (u "Please enter a command first.")
                (u "error") (u "Sending command to AI Copilot...") (u "loading")
                earlier_typed L) as Q.
  cbv zeta in Q. destruct Q as (k & H1 & _ & _ & _ & H5 & _ & H7).
  exists k. split; [|split; [exact H5|exact H7]].
  subst p2. unfold showStatus at 1. cbn [earlier_timers].
  change (str_eqb (u "loading") (u "loading")) with true. cbv iota. exact H1.
Defined.
